(** * SOP Author: the wizard's compliance validation, framework selection,
      content lists, and the job lifecycle.

    The development follows the TypeScript sources of the front end:
    - [types/index.ts]: the enumerations [SOPStatus], [SOPPriority],
      [PharmaceuticalDepartment], [RegulatoryFramework] and [SOPSection];
    - the [RegulatoryFrameworkStep] component: [frameworkOptions],
      [handleFrameworkToggle] and the navigation button;
    - the [ContentDetailsStep] component: the section list and the three
      string lists with their add and remove handlers;
    - the [ReviewAndGenerationStep] component: the validation effect, the
      counters it stores and the Generate button;
    - the [BasicInfoStep] component: the rules of its inputs and its
      submission;
    - the [SOPCreationWizard] component, parent of the four steps: the
      data it holds, [validateStep], the navigation and the request of
      [handleGenerate];
    - the class [APIService] and the start-up script of the back end.

    JavaScript values are embedded as follows.  A string is a [string] and
    is truthy exactly when it is not empty.  A field whose value may be
    missing at run time (the components test it with [&&] or [?.]) is an
    [option]; [None] stands for [undefined].  An array is a [list], which
    is always truthy.  A [number] used as an array index is a [Z]. *)

From stdpp Require Import base decidable option list numbers strings pretty gmap.

(** ** Enumerations of [types/index.ts] *)

Inductive SOPStatus :=
  | PENDING | PROCESSING | COMPLETED | FAILED
  | UNDER_REVIEW | APPROVED | REJECTED.

Inductive SOPPriority := LOW | MEDIUM | HIGH | CRITICAL.

Inductive PharmaceuticalDepartment :=
  | PRODUCTION | QUALITY_CONTROL | QUALITY_ASSURANCE | REGULATORY_AFFAIRS
  | MANUFACTURING | PACKAGING | WAREHOUSE | MAINTENANCE.

(** [FDA_21_CFR_PART_211] is declared as an alias with the same value as
    [FDA_21_CFR_211]; both are the one constructor below. *)
Inductive RegulatoryFramework :=
  | FDA_21_CFR_211 | ICH_Q7 | ICH_Q10 | WHO_GMP | EMA_GMP
  | ISO_9001 | ISO_14001 | ISO_13485.

Definition FDA_21_CFR_PART_211 : RegulatoryFramework := FDA_21_CFR_211.

#[global] Instance SOPStatus_eq_dec : EqDecision SOPStatus.
Proof. solve_decision. Defined.
#[global] Instance SOPPriority_eq_dec : EqDecision SOPPriority.
Proof. solve_decision. Defined.
#[global] Instance PharmaceuticalDepartment_eq_dec :
  EqDecision PharmaceuticalDepartment.
Proof. solve_decision. Defined.
#[global] Instance RegulatoryFramework_eq_dec : EqDecision RegulatoryFramework.
Proof. solve_decision. Defined.

(** The run-time value of each member. *)
Definition SOPStatus_value (s : SOPStatus) : string :=
  match s with
  | PENDING => "pending"
  | PROCESSING => "processing"
  | COMPLETED => "completed"
  | FAILED => "failed"
  | UNDER_REVIEW => "under_review"
  | APPROVED => "approved"
  | REJECTED => "rejected"
  end.

Definition SOPPriority_value (p : SOPPriority) : string :=
  match p with
  | LOW => "low" | MEDIUM => "medium" | HIGH => "high" | CRITICAL => "critical"
  end.

Definition PharmaceuticalDepartment_value (d : PharmaceuticalDepartment) : string :=
  match d with
  | PRODUCTION => "production"
  | QUALITY_CONTROL => "quality_control"
  | QUALITY_ASSURANCE => "quality_assurance"
  | REGULATORY_AFFAIRS => "regulatory_affairs"
  | MANUFACTURING => "manufacturing"
  | PACKAGING => "packaging"
  | WAREHOUSE => "warehouse"
  | MAINTENANCE => "maintenance"
  end.

Definition RegulatoryFramework_value (f : RegulatoryFramework) : string :=
  match f with
  | FDA_21_CFR_211 => "fda_21_cfr_211"
  | ICH_Q7 => "ich_q7"
  | ICH_Q10 => "ich_q10"
  | WHO_GMP => "who_gmp"
  | EMA_GMP => "ema_gmp"
  | ISO_9001 => "iso_9001"
  | ISO_14001 => "iso_14001"
  | ISO_13485 => "iso_13485"
  end.

(** All members of [SOPStatus], in declaration order. *)
Definition all_statuses : list SOPStatus :=
  [PENDING; PROCESSING; COMPLETED; FAILED; UNDER_REVIEW; APPROVED; REJECTED].

Record SOPSection := mkSection {
  title : string;
  content : string;
  order : nat
}.

(** ** JavaScript truthiness and guarded array tests *)

Module JS.

(** [s ? _ : _] on a string. *)
Definition truthy_string (s : string) : bool := negb (String.eqb s "").

(** [v ? _ : _] on a value that is either [undefined] or a non-empty
    enumeration string. *)
Definition truthy_opt {A} (v : option A) : bool :=
  match v with Some _ => true | None => false end.

(** [xs && xs.length > n] *)
Definition length_gt {A} (xs : option (list A)) (n : nat) : bool :=
  match xs with
  | Some l => bool_decide (n < length l)
  | None => false
  end.

(** [xs && xs.length >= n] *)
Definition length_ge {A} (xs : option (list A)) (n : nat) : bool :=
  match xs with
  | Some l => bool_decide (n ≤ length l)
  | None => false
  end.

(** [xs?.includes(x)], as the condition of [?:]. *)
Definition includes `{EqDecision A} (xs : option (list A)) (x : A) : bool :=
  match xs with
  | Some l => bool_decide (x ∈ l)
  | None => false
  end.

(** [xs.length] where the guard has already established that [xs] is
    defined; never evaluated on [undefined]. *)
Definition length_of {A} (xs : option (list A)) : nat :=
  match xs with
  | Some l => length l
  | None => 0
  end.

(** [xs.filter((_, i) => keep(i))]: the elements whose position
    satisfies [keep], in order.  [i] is the position of the head. *)
Fixpoint filter_index {A} (keep : nat → bool) (i : nat) (xs : list A) : list A :=
  match xs with
  | [] => []
  | x :: xs' =>
      if keep i then x :: filter_index keep (S i) xs'
      else filter_index keep (S i) xs'
  end.

(** The white space and the line terminators that [trim] removes, among
    the code units below 256 (a character of a [string] stands for one
    code unit): tab, line feed, vertical tab, form feed, carriage return,
    space and the no-break space. *)
Definition isWhiteSpace (c : Ascii.ascii) : bool :=
  match Ascii.N_of_ascii c with
  | 9%N | 10%N | 11%N | 12%N | 13%N | 32%N | 160%N => true
  | _ => false
  end.

Fixpoint trimStart (s : string) : string :=
  match s with
  | EmptyString => EmptyString
  | String c s' => if isWhiteSpace c then trimStart s' else s
  end.

Fixpoint trimEnd (s : string) : string :=
  match s with
  | EmptyString => EmptyString
  | String c s' =>
      match trimEnd s' with
      | EmptyString => if isWhiteSpace c then EmptyString else String c EmptyString
      | t => String c t
      end
  end.

(** [s.trim()]: the white space is removed at both ends. *)
Definition trim (s : string) : string := trimEnd (trimStart s).

End JS.

(** ** [ReviewAndGenerationStep]: the validation effect *)

Module ReviewAndGenerationStep.

(** The interface [SOPData]; the fields carry the prefix [data_], as they
    are read in the component ([data.title], ...). *)
Record SOPData := mkSOPData {
  data_title : string;
  data_description : string;
  data_department : option PharmaceuticalDepartment;
  data_priority : option SOPPriority;
  data_frameworks : option (list RegulatoryFramework);
  data_customRequirements : string;
  data_complianceNotes : string;
  data_sections : option (list SOPSection);
  data_estimatedDuration : string;
  data_equipmentRequired : option (list string);
  data_materialsRequired : list string;
  data_safetyConsiderations : string;
  data_qualityCheckpoints : option (list string)
}.

Inductive CheckStatus := Pass | Fail | Warning.

#[global] Instance CheckStatus_eq_dec : EqDecision CheckStatus.
Proof. solve_decision. Defined.

Definition CheckStatus_value (s : CheckStatus) : string :=
  match s with Pass => "pass" | Fail => "fail" | Warning => "warning" end.

Record CheckResult := mkCheck {
  name : string;
  status : CheckStatus;
  message : string
}.

Record ValidationResults := mkValidationResults {
  passed : nat;
  failed : nat;
  warnings : nat;
  checks : list CheckResult
}.

(** The initial value given to [useState]. *)
Definition initialValidationResults : ValidationResults :=
  {| passed := 0; failed := 0; warnings := 0; checks := [] |}.

(** [data.title && data.description && data.department && data.priority] *)
Definition basicInformationProvided (data : SOPData) : bool :=
  JS.truthy_string (data_title data)
  && JS.truthy_string (data_description data)
  && JS.truthy_opt (data_department data)
  && JS.truthy_opt (data_priority data).

(** The array literal [checks] of the effect. *)
Definition buildChecks (data : SOPData) : list CheckResult :=
  [ {| name := "Basic Information";
       status := if basicInformationProvided data then Pass else Fail;
       message := if basicInformationProvided data
                  then "All required basic information provided"
                  else "Missing required basic information fields" |};
    {| name := "Regulatory Framework";
       status := if JS.length_gt (data_frameworks data) 0 then Pass else Fail;
       message := if JS.length_gt (data_frameworks data) 0
                  then pretty (JS.length_of (data_frameworks data))
                       +:+ " regulatory framework(s) selected"
                  else "At least one regulatory framework must be selected" |};
    {| name := "SOP Sections";
       status := if JS.length_ge (data_sections data) 3 then Pass else Warning;
       message := if JS.length_ge (data_sections data) 3
                  then pretty (JS.length_of (data_sections data))
                       +:+ " sections defined"
                  else "Consider adding more sections for comprehensive coverage" |};
    {| name := "Safety Considerations";
       status := if JS.truthy_string (data_safetyConsiderations data)
                 then Pass else Warning;
       message := if JS.truthy_string (data_safetyConsiderations data)
                  then "Safety considerations documented"
                  else "Safety considerations not specified - consider adding for pharmaceutical compliance" |};
    {| name := "Quality Checkpoints";
       status := if JS.length_gt (data_qualityCheckpoints data) 0
                 then Pass else Warning;
       message := if JS.length_gt (data_qualityCheckpoints data) 0
                  then pretty (JS.length_of (data_qualityCheckpoints data))
                       +:+ " quality checkpoint(s) defined"
                  else "Consider adding quality control checkpoints" |};
    {| name := "Equipment Requirements";
       status := if JS.length_gt (data_equipmentRequired data) 0
                 then Pass else Warning;
       message := if JS.length_gt (data_equipmentRequired data) 0
                  then pretty (JS.length_of (data_equipmentRequired data))
                       +:+ " equipment item(s) specified"
                  else "No equipment requirements specified" |};
    {| name := "Pharmaceutical Compliance";
       status := if JS.includes (data_frameworks data) FDA_21_CFR_211
                 then Pass else Warning;
       message := if JS.includes (data_frameworks data) FDA_21_CFR_211
                  then "FDA 21 CFR Part 211 compliance included"
                  else "Consider including FDA 21 CFR Part 211 for US pharmaceutical compliance" |}
  ].

(** [checks.filter(c => c.status === s).length] *)
Definition countStatus (s : CheckStatus) (cs : list CheckResult) : nat :=
  length (filter (λ c, status c = s) cs).

(** The value passed to [setValidationResults]. *)
Definition validate (data : SOPData) : ValidationResults :=
  let checks := buildChecks data in
  let passed := countStatus Pass checks in
  let failed := countStatus Fail checks in
  let warnings := countStatus Warning checks in
  {| passed := passed; failed := failed; warnings := warnings; checks := checks |}.

(** The state of the component: the [useState] cell.  The effect runs when
    [data] changes and replaces the cell; it does not read it. *)
Record ReviewState := mkReviewState {
  validationResults : ValidationResults
}.

Definition initialReviewState : ReviewState :=
  {| validationResults := initialValidationResults |}.

Definition setValidationResults (v : ValidationResults) (st : ReviewState) : ReviewState :=
  {| validationResults := v |}.

Definition validationEffect (data : SOPData) (st : ReviewState) : ReviewState :=
  setValidationResults (validate data) st.

(** [disabled={!canGenerate || validationResults.failed > 0 || isGenerating}]
    on the Generate button. *)
Definition generateDisabled (canGenerate : bool) (st : ReviewState)
    (isGenerating : bool) : bool :=
  negb canGenerate
  || bool_decide (0 < failed (validationResults st))
  || isGenerating.

End ReviewAndGenerationStep.

(** ** [RegulatoryFrameworkStep]: framework selection *)

Module RegulatoryFrameworkStep.

Record FrameworkOption := mkFrameworkOption {
  value : RegulatoryFramework;
  label : string;
  description : string;
  region : string;
  mandatory : bool;
  details : list string
}.

Definition frameworkOptions : list FrameworkOption :=
  [ {| value := FDA_21_CFR_211;
       label := "FDA 21 CFR Part 211";
       description := "Current Good Manufacturing Practice for Finished Pharmaceuticals";
       region := "United States";
       mandatory := true;
       details := [ "Equipment design and maintenance";
                    "Personnel qualifications and training";
                    "Production and process controls";
                    "Laboratory controls and testing" ] |};
    {| value := ICH_Q7;
       label := "ICH Q7";
       description := "Good Manufacturing Practice Guide for Active Pharmaceutical Ingredients";
       region := "International";
       mandatory := false;
       details := [ "Quality management system";
                    "Personnel and training requirements";
                    "Buildings and facilities standards";
                    "Equipment maintenance and calibration" ] |};
    {| value := WHO_GMP;
       label := "WHO GMP";
       description := "World Health Organization Good Manufacturing Practices";
       region := "International";
       mandatory := false;
       details := [ "Quality assurance systems";
                    "Sanitation and hygiene standards";
                    "Qualification and validation";
                    "Complaints and product recalls" ] |};
    {| value := EMA_GMP;
       label := "EMA GMP";
       description := "European Medicines Agency Good Manufacturing Practice";
       region := "European Union";
       mandatory := false;
       details := [ "Pharmaceutical quality system";
                    "Personnel responsibilities";
                    "Premises and equipment";
                    "Documentation requirements" ] |};
    {| value := ISO_9001;
       label := "ISO 9001";
       description := "Quality management systems - Requirements";
       region := "International";
       mandatory := false;
       details := [ "Quality management system requirements";
                    "Management responsibility";
                    "Resource management";
                    "Product realization and improvement" ] |}
  ].

(** The values held by the form ([useForm]).  [frameworks] may be
    [undefined]; the handlers read it through [... || []]. *)
Record FormValues := mkFormValues {
  frameworks : option (list RegulatoryFramework);
  customRequirements : string;
  complianceNotes : string
}.

(** [getValues('frameworks') || []] and [watch('frameworks') || []] *)
Definition currentFrameworksOf (form : FormValues) : list RegulatoryFramework :=
  default [] (frameworks form).

(** [setValue('frameworks', v)] *)
Definition setValue_frameworks (v : list RegulatoryFramework)
    (form : FormValues) : FormValues :=
  {| frameworks := Some v;
     customRequirements := customRequirements form;
     complianceNotes := complianceNotes form |}.

(** [frameworkOptions.find(opt => opt.value === framework)?.mandatory];
    [None] is [undefined]. *)
Definition mandatoryFrameworkOf (framework : RegulatoryFramework) : option bool :=
  mandatory <$>
    List.find (λ opt, bool_decide (value opt = framework)) frameworkOptions.

(** [!v] on [boolean | undefined]. *)
Definition not_truthy (v : option bool) : bool :=
  match v with
  | Some b => negb b
  | None => true
  end.

Definition handleFrameworkToggle (framework : RegulatoryFramework)
    (form : FormValues) : FormValues :=
  let currentFrameworks := currentFrameworksOf form in
  let isSelected := bool_decide (framework ∈ currentFrameworks) in
  if isSelected then
    (* Remove framework (except mandatory ones) *)
    let mandatoryFramework := mandatoryFrameworkOf framework in
    if not_truthy mandatoryFramework then
      let newFrameworks := filter (λ f, f ≠ framework) currentFrameworks in
      setValue_frameworks newFrameworks form
    else form
  else
    (* Add framework *)
    let newFrameworks := currentFrameworks ++ [framework] in
    setValue_frameworks newFrameworks form.

(** [disabled={!canProceed || selectedFrameworks.length === 0}] on the
    button that submits this step. *)
Definition submitDisabled (canProceed : bool) (form : FormValues) : bool :=
  negb canProceed || bool_decide (length (currentFrameworksOf form) = 0).

End RegulatoryFrameworkStep.

(** ** [ContentDetailsStep]: sections and the three string lists *)

Module ContentDetailsStep.

Record ContentDetailsFormData := mkFormData {
  sections : option (list SOPSection);
  estimatedDuration : option string;
  equipmentRequired : option (list string);
  materialsRequired : option (list string);
  safetyConsiderations : option string;
  qualityCheckpoints : option (list string)
}.

Definition defaultSections : list SOPSection :=
  [ {| title := "Purpose"; content := ""; order := 1 |};
    {| title := "Scope"; content := ""; order := 2 |};
    {| title := "Responsibilities"; content := ""; order := 3 |};
    {| title := "Procedure"; content := ""; order := 4 |};
    {| title := "Documentation"; content := ""; order := 5 |} ].

(** The state of the component: the field array of the form and the
    three [useState] cells. *)
Record State := mkState {
  sectionFields : list SOPSection;
  equipmentItems : list string;
  materialItems : list string;
  checkpointItems : list string
}.

(** [defaultValues] of [useForm] and the initial values of [useState]:
    [data.x || fallback]. *)
Definition initialState (data : ContentDetailsFormData) : State :=
  {| sectionFields := default defaultSections (sections data);
     equipmentItems := default [] (equipmentRequired data);
     materialItems := default [] (materialsRequired data);
     checkpointItems := default [] (qualityCheckpoints data) |}.

Definition setSectionFields (v : list SOPSection) (st : State) : State :=
  {| sectionFields := v;
     equipmentItems := equipmentItems st;
     materialItems := materialItems st;
     checkpointItems := checkpointItems st |}.

Definition setEquipmentItems (v : list string) (st : State) : State :=
  {| sectionFields := sectionFields st;
     equipmentItems := v;
     materialItems := materialItems st;
     checkpointItems := checkpointItems st |}.

Definition setMaterialItems (v : list string) (st : State) : State :=
  {| sectionFields := sectionFields st;
     equipmentItems := equipmentItems st;
     materialItems := v;
     checkpointItems := checkpointItems st |}.

Definition setCheckpointItems (v : list string) (st : State) : State :=
  {| sectionFields := sectionFields st;
     equipmentItems := equipmentItems st;
     materialItems := materialItems st;
     checkpointItems := v |}.

(** [append] and [remove] of [useFieldArray] (the form library): the
    first adds an entry at the end, the second deletes the entry at the
    given index and leaves the others as they are. *)
Definition appendSection (s : SOPSection) (st : State) : State :=
  setSectionFields (sectionFields st ++ [s]) st.

Definition removeSection (index : nat) (st : State) : State :=
  setSectionFields (delete index (sectionFields st)) st.

Definition addSection (st : State) : State :=
  appendSection
    {| title := ""; content := ""; order := length (sectionFields st) + 1 |}
    st.

Definition addEquipment (st : State) : State :=
  setEquipmentItems (equipmentItems st ++ [""]) st.

Definition removeEquipmentItem (index : Z) (st : State) : State :=
  setEquipmentItems
    (JS.filter_index (λ i, negb (Z.of_nat i =? index)%Z) 0 (equipmentItems st))
    st.

Definition addMaterial (st : State) : State :=
  setMaterialItems (materialItems st ++ [""]) st.

Definition removeMaterialItem (index : Z) (st : State) : State :=
  setMaterialItems
    (JS.filter_index (λ i, negb (Z.of_nat i =? index)%Z) 0 (materialItems st))
    st.

Definition addCheckpoint (st : State) : State :=
  setCheckpointItems (checkpointItems st ++ [""]) st.

Definition removeCheckpointItem (index : Z) (st : State) : State :=
  setCheckpointItems
    (JS.filter_index (λ i, negb (Z.of_nat i =? index)%Z) 0 (checkpointItems st))
    st.

(** What the user can do to the section list: the Add Section button,
    and the trash button of the entry at [index], which is rendered for
    each entry while the list has more than one. *)
Inductive SectionEvent :=
  | ClickAddSection
  | ClickRemoveSection (index : nat).

Definition rendered (ev : SectionEvent) (st : State) : bool :=
  match ev with
  | ClickAddSection => true
  | ClickRemoveSection index =>
      bool_decide (1 < length (sectionFields st))
      && bool_decide (index < length (sectionFields st))
  end.

Definition handle (ev : SectionEvent) (st : State) : State :=
  match ev with
  | ClickAddSection => addSection st
  | ClickRemoveSection index => removeSection index st
  end.

(** A run of events; an event on a button that is not rendered cannot
    happen and is skipped. *)
Fixpoint run (evs : list SectionEvent) (st : State) : State :=
  match evs with
  | [] => st
  | ev :: evs' => run evs' (if rendered ev st then handle ev st else st)
  end.

(** [order] equals the 1-based position, for every entry. *)
Definition orderedByPosition (l : list SOPSection) : Prop :=
  ∀ i s, l !! i = Some s → order s = S i.

End ContentDetailsStep.

(** ** Field validation of the form library *)

(** The wizard steps register their inputs with react-hook-form, which is
    not part of the repository.  This module states the rules the
    components use as that library applies them: an empty value fails
    [required] and is otherwise not checked further; a non-empty value is
    checked against the length bounds, the upper bound first.  The bounds
    are inclusive: a value fails [maxLength] when it is longer and
    [minLength] when it is shorter.  The length of a string counts its
    characters, each character of a [string] standing for one code unit. *)
Module ReactHookForm.

Record LengthRule := mkLengthRule {
  ruleValue : nat;
  ruleMessage : string
}.

Record TextRules := mkTextRules {
  required : option string;
  minLength : option LengthRule;
  maxLength : option LengthRule
}.

Definition exceeds (rule : option LengthRule) (v : string) : bool :=
  match rule with
  | Some r => bool_decide (ruleValue r < String.length v)
  | None => false
  end.

Definition fallsShort (rule : option LengthRule) (v : string) : bool :=
  match rule with
  | Some r => bool_decide (String.length v < ruleValue r)
  | None => false
  end.

Definition messageOf (rule : option LengthRule) : string :=
  match rule with
  | Some r => ruleMessage r
  | None => ""
  end.

(** The error of a text input, if any. *)
Definition validateText (rules : TextRules) (v : string) : option string :=
  if String.eqb v "" then required rules
  else if exceeds (maxLength rules) v then Some (messageOf (maxLength rules))
  else if fallsShort (minLength rules) v then Some (messageOf (minLength rules))
  else None.

(** The error of a select or radio group with [required]: [None] as the
    value means that nothing is chosen (the empty option of a select, no
    radio button checked). *)
Definition validateChoice {A} (requiredMessage : string) (v : option A) : option string :=
  match v with
  | Some _ => None
  | None => Some requiredMessage
  end.

End ReactHookForm.

(** ** [BasicInfoStep]: title, description, department, priority *)

Module BasicInfoStep.

Record BasicInfoFormData := mkBasicInfo {
  title : string;
  description : string;
  department : option PharmaceuticalDepartment;
  priority : option SOPPriority
}.

Record DepartmentOption := mkDepartmentOption {
  dept_value : PharmaceuticalDepartment;
  dept_label : string
}.

Definition departmentOptions : list DepartmentOption :=
  [ {| dept_value := PRODUCTION; dept_label := "Production" |};
    {| dept_value := QUALITY_CONTROL; dept_label := "Quality Control" |};
    {| dept_value := QUALITY_ASSURANCE; dept_label := "Quality Assurance" |};
    {| dept_value := REGULATORY_AFFAIRS; dept_label := "Regulatory Affairs" |};
    {| dept_value := MANUFACTURING; dept_label := "Manufacturing" |};
    {| dept_value := PACKAGING; dept_label := "Packaging" |};
    {| dept_value := WAREHOUSE; dept_label := "Warehouse" |};
    {| dept_value := MAINTENANCE; dept_label := "Maintenance" |} ].

Record PriorityOption := mkPriorityOption {
  prio_value : SOPPriority;
  prio_label : string;
  prio_description : string
}.

Definition priorityOptions : list PriorityOption :=
  [ {| prio_value := LOW; prio_label := "Low";
       prio_description := "Routine procedures with flexible timelines" |};
    {| prio_value := MEDIUM; prio_label := "Medium";
       prio_description := "Standard operations requiring timely completion" |};
    {| prio_value := HIGH; prio_label := "High";
       prio_description := "Critical procedures affecting product quality" |};
    {| prio_value := CRITICAL; prio_label := "Critical";
       prio_description := "Urgent procedures requiring immediate attention" |} ].

(** The rules given to [register]. *)
Definition titleRules : ReactHookForm.TextRules :=
  {| ReactHookForm.required := Some "SOP title is required";
     ReactHookForm.minLength :=
       Some {| ReactHookForm.ruleValue := 5;
               ReactHookForm.ruleMessage := "Title must be at least 5 characters" |};
     ReactHookForm.maxLength :=
       Some {| ReactHookForm.ruleValue := 200;
               ReactHookForm.ruleMessage := "Title must be less than 200 characters" |} |}.

Definition descriptionRules : ReactHookForm.TextRules :=
  {| ReactHookForm.required := Some "Description is required";
     ReactHookForm.minLength :=
       Some {| ReactHookForm.ruleValue := 10;
               ReactHookForm.ruleMessage := "Description must be at least 10 characters" |};
     ReactHookForm.maxLength :=
       Some {| ReactHookForm.ruleValue := 2000;
               ReactHookForm.ruleMessage := "Description must be less than 2000 characters" |} |}.

(** [formState.errors]: the message of each field in error. *)
Record Errors := mkErrors {
  err_title : option string;
  err_description : option string;
  err_department : option string;
  err_priority : option string
}.

Definition validateForm (formData : BasicInfoFormData) : Errors :=
  {| err_title := ReactHookForm.validateText titleRules (title formData);
     err_description :=
       ReactHookForm.validateText descriptionRules (description formData);
     err_department :=
       ReactHookForm.validateChoice "Department selection is required"
         (department formData);
     err_priority :=
       ReactHookForm.validateChoice "Priority selection is required"
         (priority formData) |}.

Definition noErrors (e : Errors) : bool :=
  match err_title e, err_description e, err_department e, err_priority e with
  | None, None, None, None => true
  | _, _, _, _ => false
  end.

(** The calls the step makes on its parent. *)
Inductive ParentCall :=
  | OnUpdate (formData : BasicInfoFormData)
  | OnNext.

Definition onSubmit (formData : BasicInfoFormData) : list ParentCall :=
  [OnUpdate formData; OnNext].

(** [handleSubmit(onSubmit)]: the handler runs only when no field is in
    error. *)
Definition handleSubmit (formData : BasicInfoFormData) : list ParentCall :=
  if noErrors (validateForm formData) then onSubmit formData else [].

(** A click on the submit button, which is [disabled={!canProceed}]. *)
Definition clickSubmit (canProceed : bool) (formData : BasicInfoFormData) : list ParentCall :=
  if canProceed then handleSubmit formData else [].

(** The subscription [watch((value) => onUpdate(value))]: every change
    of a value of the form is handed to the parent as it is; no rule is
    applied and the button plays no part. *)
Definition watchCallback (value : BasicInfoFormData) : list ParentCall :=
  [OnUpdate value].

(** What the user does on the step: a change of an input, which leaves
    the form with the values [value], or a click on the submit button. *)
Inductive Event :=
  | Change (value : BasicInfoFormData)
  | ClickSubmit.

(** The form after the event, and the calls made on the parent. *)
Definition handle (canProceed : bool) (e : Event) (form : BasicInfoFormData)
    : BasicInfoFormData * list ParentCall :=
  match e with
  | Change value => (value, watchCallback value)
  | ClickSubmit => (form, clickSubmit canProceed form)
  end.

End BasicInfoStep.

(** ** [ReviewAndGenerationStep]: labels and the summary card *)

Module ReviewSummary.

Import ReviewAndGenerationStep.

(** [labels[key] || key] on an object literal: the entry of [key] when
    there is one and it is not empty, the key's own value otherwise. *)
Definition labelOr `{EqDecision K} (labels : list (K * string)) (valueOf : K → string)
    (key : K) : string :=
  match List.find (λ e, bool_decide (e.1 = key)) labels with
  | Some e => if JS.truthy_string e.2 then e.2 else valueOf key
  | None => valueOf key
  end.

Definition departmentLabels : list (PharmaceuticalDepartment * string) :=
  [ (PRODUCTION, "Production");
    (QUALITY_CONTROL, "Quality Control");
    (QUALITY_ASSURANCE, "Quality Assurance");
    (REGULATORY_AFFAIRS, "Regulatory Affairs");
    (MANUFACTURING, "Manufacturing");
    (PACKAGING, "Packaging");
    (WAREHOUSE, "Warehouse");
    (MAINTENANCE, "Maintenance") ].

Definition getDepartmentLabel (dept : PharmaceuticalDepartment) : string :=
  labelOr departmentLabels PharmaceuticalDepartment_value dept.

Definition priorityLabels : list (SOPPriority * string) :=
  [ (LOW, "Low"); (MEDIUM, "Medium"); (HIGH, "High"); (CRITICAL, "Critical") ].

Definition getPriorityLabel (priority : SOPPriority) : string :=
  labelOr priorityLabels SOPPriority_value priority.

Definition frameworkLabels : list (RegulatoryFramework * string) :=
  [ (FDA_21_CFR_211, "FDA 21 CFR Part 211");
    (ICH_Q7, "ICH Q7");
    (WHO_GMP, "WHO GMP");
    (EMA_GMP, "EMA GMP") ].

Definition getFrameworkLabel (framework : RegulatoryFramework) : string :=
  labelOr frameworkLabels RegulatoryFramework_value framework.

(** [data.title || 'Not specified'] *)
Definition titleShown (data : SOPData) : string :=
  if JS.truthy_string (data_title data) then data_title data else "Not specified".

(** [data.estimatedDuration || 'Not specified'] *)
Definition durationShown (data : SOPData) : string :=
  if JS.truthy_string (data_estimatedDuration data)
  then data_estimatedDuration data else "Not specified".

(** [data.frameworks?.map(... getFrameworkLabel(framework) ...)]: one badge
    per framework; nothing when the list is missing. *)
Definition frameworkBadges (data : SOPData) : list string :=
  match data_frameworks data with
  | Some l => getFrameworkLabel <$> l
  | None => []
  end.

(** [data.sections?.length || 0], and the same for the two counted
    lists. *)
Definition sectionsCountShown (data : SOPData) : nat :=
  JS.length_of (data_sections data).

Definition checkpointsCountShown (data : SOPData) : nat :=
  JS.length_of (data_qualityCheckpoints data).

Definition equipmentCountShown (data : SOPData) : nat :=
  JS.length_of (data_equipmentRequired data).

(** [data.sections?.map((section, index) => section.title).join(', ')
     || 'None defined'] *)
Definition sectionsShown (data : SOPData) : string :=
  match data_sections data with
  | Some l =>
      let joined := String.concat ", " (title <$> l) in
      if JS.truthy_string joined then joined else "None defined"
  | None => "None defined"
  end.

(** The class of the priority badge: a chain of [?:] on
    [data.priority === ...]. *)
Definition priorityBadgeClass (data : SOPData) : string :=
  if bool_decide (data_priority data = Some CRITICAL) then "bg-red-100 text-red-800"
  else if bool_decide (data_priority data = Some HIGH) then "bg-orange-100 text-orange-800"
  else if bool_decide (data_priority data = Some MEDIUM) then "bg-yellow-100 text-yellow-800"
  else "bg-green-100 text-green-800".

End ReviewSummary.

(** ** [RegulatoryFrameworkStep]: runs of toggles, the summary, submission *)

Module FrameworkSelection.

Import RegulatoryFrameworkStep.

(** The checkbox of an option is [disabled={isMandatory}]; a click on a
    disabled checkbox does not reach [handleFrameworkToggle]. *)
Definition checkboxDisabled (opt : FrameworkOption) : bool := mandatory opt.

(** A click on the checkbox of [framework], for a framework that has an
    option in [frameworkOptions]. *)
Definition clickCheckbox (framework : RegulatoryFramework) (form : FormValues) : FormValues :=
  match List.find (λ opt, bool_decide (value opt = framework)) frameworkOptions with
  | Some opt =>
      if checkboxDisabled opt then form else handleFrameworkToggle framework form
  | None => form
  end.

(** Calls of [handleFrameworkToggle], one after the other. *)
Definition toggleAll (fs : list RegulatoryFramework) (form : FormValues) : FormValues :=
  foldl (λ acc f, handleFrameworkToggle f acc) form fs.

(** Clicks on checkboxes, one after the other. *)
Definition clickAll (fs : list RegulatoryFramework) (form : FormValues) : FormValues :=
  foldl (λ acc f, clickCheckbox f acc) form fs.

(** The Regulatory Impact Summary is rendered when
    [selectedFrameworks.length > 0]. *)
Definition summaryShown (form : FormValues) : bool :=
  bool_decide (0 < length (currentFrameworksOf form)).

(** [framework{selectedFrameworks.length > 1 ? 's' : ''}] *)
Definition pluralSuffix (form : FormValues) : string :=
  if bool_decide (1 < length (currentFrameworksOf form)) then "s" else "".

(** The entries of the summary: [option?.label] and
    [option?.description] of each selected framework; [None] where
    [frameworkOptions] has no entry for it. *)
Definition summaryEntries (form : FormValues) : list (option string * option string) :=
  (λ framework,
     let option := List.find (λ opt, bool_decide (value opt = framework)) frameworkOptions in
     (label <$> option, description <$> option))
  <$> currentFrameworksOf form.

Definition customRequirementsRules : ReactHookForm.TextRules :=
  {| ReactHookForm.required := None;
     ReactHookForm.minLength := None;
     ReactHookForm.maxLength :=
       Some {| ReactHookForm.ruleValue := 2000;
               ReactHookForm.ruleMessage :=
                 "Custom requirements must be less than 2000 characters" |} |}.

Definition complianceNotesRules : ReactHookForm.TextRules :=
  {| ReactHookForm.required := None;
     ReactHookForm.minLength := None;
     ReactHookForm.maxLength :=
       Some {| ReactHookForm.ruleValue := 1500;
               ReactHookForm.ruleMessage :=
                 "Compliance notes must be less than 1500 characters" |} |}.

Inductive ParentCall :=
  | OnUpdate (formData : FormValues)
  | OnNext.

Definition onSubmit (formData : FormValues) : list ParentCall :=
  [OnUpdate formData; OnNext].

Definition handleSubmit (formData : FormValues) : list ParentCall :=
  match ReactHookForm.validateText customRequirementsRules (customRequirements formData),
        ReactHookForm.validateText complianceNotesRules (complianceNotes formData) with
  | None, None => onSubmit formData
  | _, _ => []
  end.

(** A click on the submit button of the step. *)
Definition clickSubmit (canProceed : bool) (formData : FormValues) : list ParentCall :=
  if submitDisabled canProceed formData then [] else handleSubmit formData.

(** The subscription [watch((value) => onUpdate(value))]: every change
    of a value of the form, by typing or by [setValue], is handed to the
    parent as it is. *)
Definition watchCallback (value : FormValues) : list ParentCall :=
  [OnUpdate value].

(** Whether [handleFrameworkToggle] reaches a call of [setValue]: always
    when it adds, and when it removes unless the framework is
    mandatory. *)
Definition reachesSetValue (framework : RegulatoryFramework) (form : FormValues) : bool :=
  if bool_decide (framework ∈ currentFrameworksOf form)
  then not_truthy (mandatoryFrameworkOf framework)
  else true.

(** What the user does on the step: a click on a checkbox, typing in one
    of the two text areas (which leaves them with the given texts), a
    click on the submit button, a click on the button Back. *)
Inductive Event :=
  | ClickCheckbox (framework : RegulatoryFramework)
  | ChangeTexts (requirements notes : string)
  | ClickSubmit
  | ClickBack.

(** The calls of a step on its parent, [onBack] included. *)
Inductive StepCall :=
  | Parent (call : ParentCall)
  | OnBack.

(** The form after the event, and the calls made on the parent. *)
Definition handle (canProceed : bool) (e : Event) (form : FormValues)
    : FormValues * list StepCall :=
  match e with
  | ClickCheckbox framework =>
      let form' := clickCheckbox framework form in
      match List.find (λ opt, bool_decide (value opt = framework)) frameworkOptions with
      | Some opt =>
          if checkboxDisabled opt then (form', [])
          else if reachesSetValue framework form
               then (form', Parent <$> watchCallback form')
               else (form', [])
      | None => (form', [])
      end
  | ChangeTexts requirements notes =>
      let form' := {| frameworks := frameworks form;
                      customRequirements := requirements;
                      complianceNotes := notes |} in
      (form', Parent <$> watchCallback form')
  | ClickSubmit => (form, Parent <$> clickSubmit canProceed form)
  | ClickBack => (form, [OnBack])
  end.

End FrameworkSelection.

(** ** [ContentDetailsStep]: editing the lists and submitting the step *)

Module ContentDetailsForm.

Import ContentDetailsStep.

(** The [onChange] of the input of entry [index]:
    [newItems = [...items]; newItems[index] = value].  The handler is
    created for the entries that are rendered, so [index] is an index of
    the list. *)
Definition changeItem (index : nat) (value : string) (items : list string) : list string :=
  <[index := value]> items.

Definition changeEquipmentItem (index : nat) (value : string) (st : State) : State :=
  setEquipmentItems (changeItem index value (equipmentItems st)) st.

Definition changeMaterialItem (index : nat) (value : string) (st : State) : State :=
  setMaterialItems (changeItem index value (materialItems st)) st.

Definition changeCheckpointItem (index : nat) (value : string) (st : State) : State :=
  setCheckpointItems (changeItem index value (checkpointItems st)) st.

(** The rules of the registered inputs. *)
Definition sectionTitleRules : ReactHookForm.TextRules :=
  {| ReactHookForm.required := Some "Section title is required";
     ReactHookForm.minLength :=
       Some {| ReactHookForm.ruleValue := 2;
               ReactHookForm.ruleMessage := "Title must be at least 2 characters" |};
     ReactHookForm.maxLength := None |}.

Definition sectionContentRules : ReactHookForm.TextRules :=
  {| ReactHookForm.required := None;
     ReactHookForm.minLength := None;
     ReactHookForm.maxLength :=
       Some {| ReactHookForm.ruleValue := 2000;
               ReactHookForm.ruleMessage := "Content must be less than 2000 characters" |} |}.

Definition estimatedDurationRules : ReactHookForm.TextRules :=
  {| ReactHookForm.required := None;
     ReactHookForm.minLength := None;
     ReactHookForm.maxLength :=
       Some {| ReactHookForm.ruleValue := 100;
               ReactHookForm.ruleMessage := "Duration must be less than 100 characters" |} |}.

Definition safetyConsiderationsRules : ReactHookForm.TextRules :=
  {| ReactHookForm.required := None;
     ReactHookForm.minLength := None;
     ReactHookForm.maxLength :=
       Some {| ReactHookForm.ruleValue := 2000;
               ReactHookForm.ruleMessage :=
                 "Safety considerations must be less than 2000 characters" |} |}.

(** [errors.sections?.[index]]: the errors of the title and of the
    content of one section. *)
Definition sectionErrors (s : SOPSection) : option string * option string :=
  (ReactHookForm.validateText sectionTitleRules (title s),
   ReactHookForm.validateText sectionContentRules (content s)).

Definition sectionValid (s : SOPSection) : bool :=
  match sectionErrors s with
  | (None, None) => true
  | _ => false
  end.

(** The values of the form: the field array and the two registered text
    inputs. *)
Record FormValues := mkFormValues {
  form_sections : list SOPSection;
  form_estimatedDuration : string;
  form_safetyConsiderations : string
}.

Definition formValid (formData : FormValues) : bool :=
  forallb sectionValid (form_sections formData)
  && bool_decide (ReactHookForm.validateText estimatedDurationRules
                    (form_estimatedDuration formData) = None)
  && bool_decide (ReactHookForm.validateText safetyConsiderationsRules
                    (form_safetyConsiderations formData) = None).

Inductive ParentCall :=
  | OnUpdate (data : ContentDetailsFormData)
  | OnNext.

(** [{...formData, equipmentRequired: equipmentItems, materialsRequired:
     materialItems, qualityCheckpoints: checkpointItems}] *)
Definition payload (formData : FormValues) (st : State) : ContentDetailsFormData :=
  {| sections := Some (form_sections formData);
     estimatedDuration := Some (form_estimatedDuration formData);
     equipmentRequired := Some (equipmentItems st);
     materialsRequired := Some (materialItems st);
     safetyConsiderations := Some (form_safetyConsiderations formData);
     qualityCheckpoints := Some (checkpointItems st) |}.

Definition onSubmit (formData : FormValues) (st : State) : list ParentCall :=
  [OnUpdate (payload formData st); OnNext].

Definition handleSubmit (formData : FormValues) (st : State) : list ParentCall :=
  if formValid formData then onSubmit formData st else [].

(** A click on the submit button, which is [disabled={!canProceed}]; the
    form holds the sections of the field array. *)
Definition clickSubmit (canProceed : bool) (duration safety : string) (st : State) : list ParentCall :=
  if canProceed
  then handleSubmit {| form_sections := sectionFields st;
                       form_estimatedDuration := duration;
                       form_safetyConsiderations := safety |} st
  else [].

(** The subscription [watch((value) => onUpdate({...value,
    equipmentRequired: equipmentItems, ...}))]: every change of a value
    of the form (typing in a registered input, [appendSection],
    [removeSection]) hands the values on as they are, with the three
    lists of the state. *)
Definition watchCallback (value : FormValues) (st : State) : list ParentCall :=
  [OnUpdate (payload value st)].

(** The form of the step, for the two texts [duration] and [safety]. *)
Definition formOf (duration safety : string) (st : State) : FormValues :=
  {| form_sections := sectionFields st;
     form_estimatedDuration := duration;
     form_safetyConsiderations := safety |}.

(** A click on Add Section: the state afterwards, and the calls made on
    the parent by the subscription. *)
Definition clickAddSection (duration safety : string) (st : State)
    : State * list ParentCall :=
  let st' := addSection st in
  (st', watchCallback (formOf duration safety st') st').

End ContentDetailsForm.

(** ** JSON values *)

(** The values [response.json()] resolves to.  A number is kept as the
    text JavaScript prints for it, so zero is the number whose text is
    ["0"].  An object is the list of its own properties, each key once. *)
Module JSON.

#[warnings="-register-all"] Inductive Value :=
  | JNull
  | JBool (b : bool)
  | JNumber (text : string)
  | JString (s : string)
  | JArray (items : list Value)
  | JObject (fields : list (string * Value)).

(** The truthiness of a value: [null], [false], zero and the empty string
    are falsy; arrays and objects are truthy. *)
Definition truthy (v : Value) : bool :=
  match v with
  | JNull => false
  | JBool b => b
  | JNumber text => negb (String.eqb text "0")
  | JString s => JS.truthy_string s
  | JArray _ => true
  | JObject _ => true
  end.

Definition lookup (name : string) (fields : list (string * Value)) : option Value :=
  snd <$> List.find (λ kv, String.eqb kv.1 name) fields.

(** The outcome of reading a property. *)
Inductive Property :=
  | PropTypeError
  | PropUndefined
  | PropValue (v : Value).

(** [v.name], for a name that is no property of booleans, numbers,
    strings and arrays (the service reads [message] and [access_token]):
    reading a property of [null] throws a [TypeError]; an object gives its
    own property or [undefined]; every other value gives [undefined]. *)
Definition getProp (name : string) (v : Value) : Property :=
  match v with
  | JNull => PropTypeError
  | JObject fields =>
      match lookup name fields with
      | Some x => PropValue x
      | None => PropUndefined
      end
  | _ => PropUndefined
  end.

(** The conversion of a value to a string, as in [new Error(v)], in a
    template literal and in [localStorage.setItem]; [None] when the
    conversion throws a [TypeError].  An array joins the texts of its
    elements with commas, [null] counting as the empty text.  An object
    is printed by [Object.prototype.toString]; when it has a property
    [toString] of its own, which is never a function, no conversion
    applies and a [TypeError] is thrown. *)
Fixpoint toString (v : Value) : option string :=
  match v with
  | JNull => Some "null"
  | JBool true => Some "true"
  | JBool false => Some "false"
  | JNumber text => Some text
  | JString s => Some s
  | JArray items =>
      String.concat ","
      <$> (fix texts (l : list Value) : option (list string) :=
             match l with
             | [] => Some []
             | x :: l' =>
                 match (match x with JNull => Some "" | _ => toString x end),
                       texts l' with
                 | Some t, Some ts => Some (t :: ts)
                 | _, _ => None
                 end
             end) items
  | JObject fields =>
      match lookup "toString" fields with
      | Some _ => None
      | None => Some "[object Object]"
      end
  end.

End JSON.

(** ** The API service *)

(** The class [APIService].  [fetch], the responses and [localStorage]
    belong to the browser; they are modelled as follows.  The server is a
    function from the URL and the request to the outcome of [fetch]:
    either the promise is rejected (no connection), or it resolves to a
    response with [ok], [status], [statusText] and a body.  The body is
    the result of [response.json()]: [None] when it is not JSON, and
    otherwise a JSON value of any kind.  [localStorage] is a finite map
    from keys to strings.  The requests sent and the lines written to the
    console are recorded in the state. *)
Module APIService.

Record Response := mkResponse {
  ok : bool;
  status : nat;
  statusText : string;
  json : option JSON.Value
}.

Inductive FetchResult :=
  | Rejected
  | Resolved (response : Response).

(** [RequestInit]; an absent key is [None]. *)
Record RequestInit := mkRequestInit {
  method : option string;
  body : option string;
  headers : option (list (string * string))
}.

Definition noOptions : RequestInit :=
  {| method := None; body := None; headers := None |}.

Definition Server : Type := string → RequestInit → FetchResult.

(** What a method throws: [new Error(message)], the rejection of
    [fetch], the rejection of [response.json()], or the [TypeError] of
    reading a property of [null] or of converting a value that has no
    text. *)
Inductive Thrown :=
  | Error (message : string)
  | FetchRejection
  | JsonRejection
  | TypeError.

Inductive ConsoleLine :=
  | ConsoleError (text : string) (error : Thrown)
  | ConsoleWarn (text : string) (error : Thrown).

Record Service := mkService {
  authToken : option string;
  localStorage : gmap string string;
  requests : list (string * RequestInit);
  console : list ConsoleLine
}.

Definition baseURL : string := "/api/v1".

(** The constructor: the token is read from [localStorage]. *)
Definition construct (storage : gmap string string) : Service :=
  {| authToken := storage !! "demo_auth_token";
     localStorage := storage;
     requests := [];
     console := [] |}.

Definition setAuthToken (token : string) (s : Service) : Service :=
  {| authToken := Some token;
     localStorage := <["demo_auth_token" := token]> (localStorage s);
     requests := requests s;
     console := console s |}.

(** [if (this.authToken)]: set and not empty. *)
Definition hasToken (s : Service) : bool :=
  match authToken s with
  | Some token => JS.truthy_string token
  | None => false
  end.

Definition getAuthHeaders (s : Service) : list (string * string) :=
  [("Content-Type", "application/json")]
  ++ (if hasToken s
      then [("Authorization", "Bearer " +:+ default "" (authToken s))]
      else []).

Definition sent (url : string) (config : RequestInit) (s : Service) : Service :=
  {| authToken := authToken s;
     localStorage := localStorage s;
     requests := requests s ++ [(url, config)];
     console := console s |}.

Definition logged (line : ConsoleLine) (s : Service) : Service :=
  {| authToken := authToken s;
     localStorage := localStorage s;
     requests := requests s;
     console := console s ++ [line] |}.

(** [{ headers: this.getAuthHeaders(), ...options }] *)
Definition configOf (options : RequestInit) (s : Service) : RequestInit :=
  {| method := method options;
     body := body options;
     headers := match headers options with
                | Some h => Some h
                | None => Some (getAuthHeaders s)
                end |}.

(** [`HTTP ${response.status}: ${response.statusText}`] *)
Definition httpMessage (response : Response) : string :=
  "HTTP " +:+ pretty (status response) +:+ ": " +:+ statusText response.

(** What the branch [if (!response.ok)] throws.  [errorData] is the
    body, or [{}] when the body is not JSON.  Reading [errorData.message]
    throws when the body is [null]; otherwise
    [new Error(errorData.message || `HTTP ...`)] is thrown, its message
    being the text of the field when the field is truthy. *)
Definition notOkThrown (response : Response) : Thrown :=
  let errorData := default (JSON.JObject []) (json response) in
  match JSON.getProp "message" errorData with
  | JSON.PropTypeError => TypeError
  | JSON.PropUndefined => Error (httpMessage response)
  | JSON.PropValue m =>
      if JSON.truthy m then
        match JSON.toString m with
        | Some text => Error text
        | None => TypeError
        end
      else Error (httpMessage response)
  end.

(** The body of the [try] block. *)
Definition attempt (server : Server) (url : string) (config : RequestInit)
    : Thrown + JSON.Value :=
  match server url config with
  | Rejected => inl FetchRejection
  | Resolved response =>
      if negb (ok response) then inl (notOkThrown response)
      else match json response with
           | Some result => inr result
           | None => inl JsonRejection
           end
  end.

(** [makeRequest]: what is thrown inside [try] is written to the console
    and thrown again. *)
Definition makeRequest (server : Server) (endpoint : string) (options : RequestInit)
    (s : Service) : Service * (Thrown + JSON.Value) :=
  let url := baseURL +:+ endpoint in
  let config := configOf options s in
  let s1 := sent url config s in
  match attempt server url config with
  | inr result => (s1, inr result)
  | inl error =>
      (logged (ConsoleError ("API Error (" +:+ endpoint +:+ "):") error) s1,
       inl error)
  end.

(** [getDemoAuthToken]: [result.access_token] is read outside any [try],
    so the [TypeError] of a body [null] is thrown without a line on the
    console.  [setAuthToken] is declared for a string; the field of a
    response can hold any value, which reaches the header and the storage
    as its text, and this text is what [authToken] holds here.  (For a
    truthy value that is no string and whose text is empty, or which has
    no text, such as the array [[]] or an object with a property
    [toString], the class keeps the value itself, which a string cannot
    render; the cases of [initializeDemo] are stated for tokens that are
    strings, as [setAuthToken] declares them.) *)
Definition getDemoAuthToken (server : Server) (s : Service)
    : Service * (Thrown + JSON.Value) :=
  match makeRequest server "/demo/demo-auth"
          {| method := Some "POST"; body := None; headers := None |} s with
  | (s1, inr result) =>
      match JSON.getProp "access_token" result with
      | JSON.PropTypeError => (s1, inl TypeError)
      | JSON.PropUndefined => (s1, inr result)
      | JSON.PropValue token =>
          if JSON.truthy token then
            match JSON.toString token with
            | Some text => (setAuthToken text s1, inr result)
            | None => (s1, inl TypeError)
            end
          else (s1, inr result)
      end
  | (s1, inl error) => (s1, inl error)
  end.

Definition getDemoStatus (server : Server) (s : Service) :=
  makeRequest server "/demo/demo-status" noOptions s.

(** [sopData] is given as its serialisation [JSON.stringify(sopData)]. *)
Definition createSOP (server : Server) (sopData : string) (s : Service) :=
  makeRequest server "/sops"
    {| method := Some "POST"; body := Some sopData; headers := None |} s.

Definition getSOPStatus (server : Server) (jobId : string) (s : Service) :=
  makeRequest server ("/sops/" +:+ jobId) noOptions s.

(** [downloadSOPPDF] calls [fetch] itself; the blob of a response that
    is [ok] is returned as the response. *)
Definition downloadSOPPDF (server : Server) (jobId : string) (s : Service)
    : Service * (Thrown + Response) :=
  let url := baseURL +:+ "/sops/" +:+ jobId +:+ "/pdf" in
  let config := {| method := None; body := None; headers := Some (getAuthHeaders s) |} in
  let s1 := sent url config s in
  match server url config with
  | Rejected => (s1, inl FetchRejection)
  | Resolved response =>
      if negb (ok response) then (s1, inl (Error "Failed to download PDF"))
      else (s1, inr response)
  end.

Definition healthCheck (server : Server) (s : Service) :=
  makeRequest server "/health"
    {| method := Some "GET"; body := None; headers := None |} s.

Definition detailedHealthCheck (server : Server) (s : Service) :=
  makeRequest server "/health/detailed"
    {| method := Some "GET"; body := None; headers := None |} s.

(** [initializeDemo]: a token is fetched when there is none; whatever is
    thrown is caught. *)
Definition initializeDemo (server : Server) (s : Service) : Service * bool :=
  if negb (hasToken s) then
    match getDemoAuthToken server s with
    | (s1, inr _) => (s1, true)
    | (s1, inl error) =>
        (logged (ConsoleWarn "Failed to initialize demo auth:" error) s1, false)
    end
  else (s, true).

(** The methods that send a JSON request, as one type. *)
Inductive Call :=
  | CallGetDemoAuthToken
  | CallGetDemoStatus
  | CallCreateSOP (sopData : string)
  | CallGetSOPStatus (jobId : string)
  | CallHealthCheck
  | CallDetailedHealthCheck.

Definition perform (server : Server) (c : Call) (s : Service)
    : Service * (Thrown + JSON.Value) :=
  match c with
  | CallGetDemoAuthToken => getDemoAuthToken server s
  | CallGetDemoStatus => getDemoStatus server s
  | CallCreateSOP sopData => createSOP server sopData s
  | CallGetSOPStatus jobId => getSOPStatus server jobId s
  | CallHealthCheck => healthCheck server s
  | CallDetailedHealthCheck => detailedHealthCheck server s
  end.

End APIService.

(** ** The start-up script of the back end *)

(** The part of the shell script that sets the compliance variables and
    reports on them.  The environment is a finite map from names to
    values. *)
Module Startup.

(** [export NAME="${NAME:-fallback}"]: the fallback replaces a value
    that is unset or empty. *)
Definition exportDefault (name fallback : string) (env : gmap string string)
    : gmap string string :=
  match env !! name with
  | Some v => if String.eqb v "" then <[name := fallback]> env else env
  | None => <[name := fallback]> env
  end.

Definition exportCompliance (env : gmap string string) : gmap string string :=
  exportDefault "DATA_INTEGRITY_LEVEL" "high"
    (exportDefault "GMP_VALIDATION" "true"
       (exportDefault "FDA_COMPLIANCE_MODE" "enabled"
          (exportDefault "PHARMACEUTICAL_ENVIRONMENT" "production" env))).

(** [os.getenv(name, fallback)] *)
Definition getenv (name fallback : string) (env : gmap string string) : string :=
  default fallback (env !! name).

(** The dictionary [compliance_checks], in the order of its keys. *)
Definition compliance_checks (env : gmap string string) : list (string * string) :=
  [ ("FDA_COMPLIANCE_MODE", getenv "FDA_COMPLIANCE_MODE" "disabled" env);
    ("GMP_VALIDATION", getenv "GMP_VALIDATION" "false" env);
    ("DATA_INTEGRITY_LEVEL", getenv "DATA_INTEGRITY_LEVEL" "standard" env);
    ("PHARMACEUTICAL_ENVIRONMENT", getenv "PHARMACEUTICAL_ENVIRONMENT" "development" env) ].

(** The two marks put before a line: the check mark and the warning
    sign. *)
Inductive Mark := CheckMark | WarningSign.

(** [value in ['enabled', 'true', 'high', 'production']] *)
Definition markOf (value : string) : Mark :=
  if bool_decide (value ∈ ["enabled"; "true"; "high"; "production"])
  then CheckMark else WarningSign.

(** One line of the report per entry: mark, key and value. *)
Definition reportLines (env : gmap string string) : list (Mark * string * string) :=
  (λ kv, (markOf kv.2, kv.1, kv.2)) <$> compliance_checks env.

(** [compliance_checks['FDA_COMPLIANCE_MODE'] == 'enabled']: the last
    line says ACTIVE, otherwise DISABLED. *)
Definition fdaActive (env : gmap string string) : bool :=
  String.eqb (getenv "FDA_COMPLIANCE_MODE" "disabled" env) "enabled".

(** The script: the exports, then the report on the exported
    environment. *)
Definition startupReport (env : gmap string string)
    : list (Mark * string * string) * bool :=
  let env' := exportCompliance env in
  (reportLines env', fdaActive env').

End Startup.

(** ** [SOPCreationWizard]: the parent of the four steps *)

(** The component that holds [wizardData] and [currentStep], hands them
    to the step that is shown, and builds the request of a generation. *)
Module SOPCreationWizard.

Import ReviewAndGenerationStep.

Definition sectionTitle (s : SOPSection) : string := title s.
Definition sectionContent (s : SOPSection) : string := content s.
Definition sectionOrder (s : SOPSection) : nat := order s.

(** The interface [SOPCreationData].  A department or a priority is
    [None] when the select or the radio group holds the empty string. *)
Record SOPCreationData := mkSOPCreationData {
  title : string;
  description : string;
  department : option PharmaceuticalDepartment;
  priority : option SOPPriority;
  frameworks : list RegulatoryFramework;
  customRequirements : string;
  complianceNotes : string;
  sections : list SOPSection;
  estimatedDuration : string;
  equipmentRequired : list string;
  materialsRequired : list string;
  safetyConsiderations : string;
  qualityCheckpoints : list string
}.

(** The initial value given to [useState]. *)
Definition initialWizardData : SOPCreationData :=
  {| title := "";
     description := "";
     department := Some PRODUCTION;
     priority := Some MEDIUM;
     frameworks := [FDA_21_CFR_211];
     customRequirements := "";
     complianceNotes := "";
     sections := [ mkSection "Purpose" "" 1;
                   mkSection "Scope" "" 2;
                   mkSection "Responsibilities" "" 3;
                   mkSection "Procedure" "" 4;
                   mkSection "Documentation" "" 5 ];
     estimatedDuration := "";
     equipmentRequired := [];
     materialsRequired := [];
     safetyConsiderations := "";
     qualityCheckpoints := [] |}.

(** [Partial<SOPCreationData>]: a key is absent ([None]) or holds a
    value. *)
Record Partial := mkPartial {
  upd_title : option string;
  upd_description : option string;
  upd_department : option (option PharmaceuticalDepartment);
  upd_priority : option (option SOPPriority);
  upd_frameworks : option (list RegulatoryFramework);
  upd_customRequirements : option string;
  upd_complianceNotes : option string;
  upd_sections : option (list SOPSection);
  upd_estimatedDuration : option string;
  upd_equipmentRequired : option (list string);
  upd_materialsRequired : option (list string);
  upd_safetyConsiderations : option string;
  upd_qualityCheckpoints : option (list string)
}.

(** [setWizardData(prev => ({...prev, ...stepData}))] *)
Definition updateWizardData (stepData : Partial) (prev : SOPCreationData)
    : SOPCreationData :=
  {| title := default (title prev) (upd_title stepData);
     description := default (description prev) (upd_description stepData);
     department := default (department prev) (upd_department stepData);
     priority := default (priority prev) (upd_priority stepData);
     frameworks := default (frameworks prev) (upd_frameworks stepData);
     customRequirements :=
       default (customRequirements prev) (upd_customRequirements stepData);
     complianceNotes := default (complianceNotes prev) (upd_complianceNotes stepData);
     sections := default (sections prev) (upd_sections stepData);
     estimatedDuration :=
       default (estimatedDuration prev) (upd_estimatedDuration stepData);
     equipmentRequired :=
       default (equipmentRequired prev) (upd_equipmentRequired stepData);
     materialsRequired :=
       default (materialsRequired prev) (upd_materialsRequired stepData);
     safetyConsiderations :=
       default (safetyConsiderations prev) (upd_safetyConsiderations stepData);
     qualityCheckpoints :=
       default (qualityCheckpoints prev) (upd_qualityCheckpoints stepData) |}.

(** What the three steps hand to [onUpdate], as partial data.  The
    forms of the first two steps are created with the whole of
    [wizardData] as their default values, so the object they hand on also
    carries the fields of the other steps, with the values [wizardData]
    had when the step was mounted; while a step is shown no other step
    changes them, so the update leaves them as they are, which is what an
    absent key does. *)
Definition ofBasicInfo (formData : BasicInfoStep.BasicInfoFormData) : Partial :=
  {| upd_title := Some (BasicInfoStep.title formData);
     upd_description := Some (BasicInfoStep.description formData);
     upd_department := Some (BasicInfoStep.department formData);
     upd_priority := Some (BasicInfoStep.priority formData);
     upd_frameworks := None;
     upd_customRequirements := None;
     upd_complianceNotes := None;
     upd_sections := None;
     upd_estimatedDuration := None;
     upd_equipmentRequired := None;
     upd_materialsRequired := None;
     upd_safetyConsiderations := None;
     upd_qualityCheckpoints := None |}.

Definition ofFrameworks (formData : RegulatoryFrameworkStep.FormValues) : Partial :=
  {| upd_title := None;
     upd_description := None;
     upd_department := None;
     upd_priority := None;
     upd_frameworks := RegulatoryFrameworkStep.frameworks formData;
     upd_customRequirements := Some (RegulatoryFrameworkStep.customRequirements formData);
     upd_complianceNotes := Some (RegulatoryFrameworkStep.complianceNotes formData);
     upd_sections := None;
     upd_estimatedDuration := None;
     upd_equipmentRequired := None;
     upd_materialsRequired := None;
     upd_safetyConsiderations := None;
     upd_qualityCheckpoints := None |}.

Definition ofContent (data : ContentDetailsStep.ContentDetailsFormData) : Partial :=
  {| upd_title := None;
     upd_description := None;
     upd_department := None;
     upd_priority := None;
     upd_frameworks := None;
     upd_customRequirements := None;
     upd_complianceNotes := None;
     upd_sections := ContentDetailsStep.sections data;
     upd_estimatedDuration := ContentDetailsStep.estimatedDuration data;
     upd_equipmentRequired := ContentDetailsStep.equipmentRequired data;
     upd_materialsRequired := ContentDetailsStep.materialsRequired data;
     upd_safetyConsiderations := ContentDetailsStep.safetyConsiderations data;
     upd_qualityCheckpoints := ContentDetailsStep.qualityCheckpoints data |}.

(** [steps.length] *)
Definition stepsLength : nat := 4.

Definition validateStep (wizardData : SOPCreationData) (stepIndex : nat) : bool :=
  match stepIndex with
  | 0 => (* Basic Info *)
      JS.truthy_string (title wizardData)
      && JS.truthy_string (description wizardData)
      && JS.truthy_opt (department wizardData)
      && JS.truthy_opt (priority wizardData)
  | 1 => (* Regulatory Framework *)
      bool_decide (0 < length (frameworks wizardData))
  | 2 => (* Content Details *)
      bool_decide (0 < length (sections wizardData))
      && forallb (λ s, bool_decide (0 < String.length (JS.trim (sectionTitle s))))
           (sections wizardData)
  | 3 => (* Review & Generation *)
      true
  | _ => false
  end.

(** The state of the component that the steps act on: the step shown
    and the data.  ([isGenerating], [generationProgress] and
    [generatedSOP] belong to [handleGenerate], of which only the request
    is modelled.) *)
Record State := mkState {
  currentStep : nat;
  wizardData : SOPCreationData
}.

Definition initialState : State :=
  {| currentStep := 0; wizardData := initialWizardData |}.

Definition setCurrentStep (f : nat → nat) (st : State) : State :=
  {| currentStep := f (currentStep st);
     wizardData := wizardData st |}.

Definition setWizardData (f : SOPCreationData → SOPCreationData) (st : State) : State :=
  {| currentStep := currentStep st;
     wizardData := f (wizardData st) |}.

(** The handlers are created in a render and read [currentStep] and
    [wizardData] as that render saw them ([seen]); the updates they queue
    apply to the state of the moment ([st]). *)
Definition handleNext (seen : State) (st : State) : State :=
  if bool_decide (currentStep seen < stepsLength - 1)
     && validateStep (wizardData seen) (currentStep seen)
  then setCurrentStep (λ prev, prev + 1) st
  else st.

Definition handleBack (seen : State) (st : State) : State :=
  if bool_decide (0 < currentStep seen)
  then setCurrentStep (λ prev, prev - 1) st
  else st.

Definition onUpdate (stepData : Partial) (st : State) : State :=
  setWizardData (updateWizardData stepData) st.

(** The props of the step that is shown. *)
Definition canProceed (st : State) : bool :=
  validateStep (wizardData st) (currentStep st).

(** [canGenerate={validateStep(0) && validateStep(1) && validateStep(2)}] *)
Definition canGenerate (wizardData : SOPCreationData) : bool :=
  validateStep wizardData 0 && validateStep wizardData 1 && validateStep wizardData 2.

(** [data: wizardData], as the review step reads it. *)
Definition dataProp (wizardData : SOPCreationData) : SOPData :=
  {| data_title := title wizardData;
     data_description := description wizardData;
     data_department := department wizardData;
     data_priority := priority wizardData;
     data_frameworks := Some (frameworks wizardData);
     data_customRequirements := customRequirements wizardData;
     data_complianceNotes := complianceNotes wizardData;
     data_sections := Some (sections wizardData);
     data_estimatedDuration := estimatedDuration wizardData;
     data_equipmentRequired := Some (equipmentRequired wizardData);
     data_materialsRequired := materialsRequired wizardData;
     data_safetyConsiderations := safetyConsiderations wizardData;
     data_qualityCheckpoints := Some (qualityCheckpoints wizardData) |}.

(** The calls of a step, applied one after the other; all of them were
    created in the render that saw [seen]. *)
Inductive StepCall :=
  | CallOnUpdate (stepData : Partial)
  | CallOnNext
  | CallOnBack.

Definition applyCall (seen : State) (st : State) (c : StepCall) : State :=
  match c with
  | CallOnUpdate stepData => onUpdate stepData st
  | CallOnNext => handleNext seen st
  | CallOnBack => handleBack seen st
  end.

Definition applyCalls (calls : list StepCall) (seen : State) : State :=
  foldl (applyCall seen) seen calls.

(** The calls of the first step, of the framework step and of the
    content step, as calls on the wizard. *)
Definition ofBasicInfoCall (c : BasicInfoStep.ParentCall) : StepCall :=
  match c with
  | BasicInfoStep.OnUpdate formData => CallOnUpdate (ofBasicInfo formData)
  | BasicInfoStep.OnNext => CallOnNext
  end.

Definition ofFrameworkCall (c : FrameworkSelection.StepCall) : StepCall :=
  match c with
  | FrameworkSelection.Parent (FrameworkSelection.OnUpdate formData) =>
      CallOnUpdate (ofFrameworks formData)
  | FrameworkSelection.Parent FrameworkSelection.OnNext => CallOnNext
  | FrameworkSelection.OnBack => CallOnBack
  end.

Definition ofContentCall (c : ContentDetailsForm.ParentCall) : StepCall :=
  match c with
  | ContentDetailsForm.OnUpdate data => CallOnUpdate (ofContent data)
  | ContentDetailsForm.OnNext => CallOnNext
  end.

(** What happens in a wizard: an event of the step that is shown.  An
    event of one of the first three steps comes with the form (for the
    content step, the two texts and the state of the component) that the
    step holds at that moment; any form is allowed for, since the steps
    keep their forms to themselves. *)
Inductive Event :=
  | OnBasicInfo (e : BasicInfoStep.Event) (form : BasicInfoStep.BasicInfoFormData)
  | OnFrameworks (e : FrameworkSelection.Event)
      (form : RegulatoryFrameworkStep.FormValues)
  | OnContentChange (duration safety : string) (content : ContentDetailsStep.State)
  | OnContentSubmit (duration safety : string) (content : ContentDetailsStep.State)
  | OnContentBack
  | OnReviewBack.

(** The calls the event makes on the wizard; an event of a step that is
    not shown cannot happen and makes none.  The step is rendered with
    [canProceed: validateStep(currentStep)]. *)
Definition eventCalls (st : State) (ev : Event) : list StepCall :=
  match ev, currentStep st with
  | OnBasicInfo e form, 0 =>
      ofBasicInfoCall <$> (BasicInfoStep.handle (canProceed st) e form).2
  | OnFrameworks e form, 1 =>
      ofFrameworkCall <$> (FrameworkSelection.handle (canProceed st) e form).2
  | OnContentChange duration safety content, 2 =>
      ofContentCall
      <$> ContentDetailsForm.watchCallback
            (ContentDetailsForm.formOf duration safety content) content
  | OnContentSubmit duration safety content, 2 =>
      ofContentCall
      <$> ContentDetailsForm.clickSubmit (canProceed st) duration safety content
  | OnContentBack, 2 => [CallOnBack]
  | OnReviewBack, 3 => [CallOnBack]
  | _, _ => []
  end.

Definition handleEvent (st : State) (ev : Event) : State :=
  applyCalls (eventCalls st ev) st.

Definition runEvents (evs : list Event) (st : State) : State :=
  foldl handleEvent st evs.

(** The object given to [JSON.stringify] for [template_content]. *)
Record TemplateContent := mkTemplateContent {
  template_sections : list SOPSection;
  equipment_required : list string;
  materials_required : list string;
  safety_considerations : string;
  quality_checkpoints : list string;
  estimated_duration : string;
  custom_requirements : string;
  compliance_notes : string
}.

(** [requestData] of [handleGenerate].  [template_content] is held as
    the object that the code serialises, [job_id] is built from the
    clock. *)
Module RequestData.

Record t := mk {
  job_id : string;
  created_by : string;
  title : string;
  description : string;
  template_type : string;
  department : option PharmaceuticalDepartment;
  priority : option SOPPriority;
  regulatory_framework : list RegulatoryFramework;
  guideline_refs : list string;
  regulatory_version : string;
  template_content : TemplateContent;
  guideline_content : string
}.

End RequestData.

(** One section of [template_content]:
    [content: section.content || `Detailed content for ...`]. *)
Definition templateSection (section : SOPSection) : SOPSection :=
  mkSection (sectionTitle section)
    (if JS.truthy_string (sectionContent section) then sectionContent section
     else "Detailed content for " +:+ sectionTitle section
          +:+ " section will be generated based on pharmaceutical best practices and regulatory requirements.")
    (sectionOrder section).

(** [items.filter(item => item.trim())] *)
Definition filterBlank (items : list string) : list string :=
  List.filter (λ item, JS.truthy_string (JS.trim item)) items.

Definition templateContent (wizardData : SOPCreationData) : TemplateContent :=
  {| template_sections := templateSection <$> sections wizardData;
     equipment_required := filterBlank (equipmentRequired wizardData);
     materials_required := filterBlank (materialsRequired wizardData);
     safety_considerations :=
       if JS.truthy_string (safetyConsiderations wizardData)
       then safetyConsiderations wizardData
       else "Safety considerations will be generated based on pharmaceutical operations and regulatory requirements.";
     quality_checkpoints := filterBlank (qualityCheckpoints wizardData);
     estimated_duration := estimatedDuration wizardData;
     custom_requirements := customRequirements wizardData;
     compliance_notes := complianceNotes wizardData |}.

(** [now] is the value of [Date.now()]. *)
Definition requestData (now : N) (wizardData : SOPCreationData) : RequestData.t :=
  {| RequestData.job_id := "sop_" +:+ pretty now;
     RequestData.created_by := "demo_user";
     RequestData.title := title wizardData;
     RequestData.description := description wizardData;
     RequestData.template_type := "pharmaceutical_standard";
     RequestData.department := department wizardData;
     RequestData.priority := priority wizardData;
     RequestData.regulatory_framework := frameworks wizardData;
     RequestData.guideline_refs :=
       if JS.truthy_string (customRequirements wizardData)
       then [customRequirements wizardData] else [];
     RequestData.regulatory_version := "1.0";
     RequestData.template_content := templateContent wizardData;
     RequestData.guideline_content :=
       if JS.truthy_string (customRequirements wizardData)
       then customRequirements wizardData else "" |}.

End SOPCreationWizard.

(** ** The job lifecycle *)

(** Modelled from the spec: the Job Orchestrator (operations Submit,
    Advance and Review, the status transitions, the retry bound and the
    error kinds).  The back end that implements it is not among the
    sources; the front end declares [SOPStatus] and the job record and
    calls the HTTP endpoints.  Every definition of this module follows the
    specification's text.  The generation engine and the validator are
    arguments of [advance]. *)
Module Orchestrator.

(** Modelled from the spec: the error kinds of the orchestrator. *)
Inductive Error :=
  | InvalidRequest
  | InvalidTransition
  | EngineUnavailable
  | EngineTimeout
  | EngineRejected.

(** Modelled from the spec: the job descriptor given to Submit, with the
    attributes its shape constraints mention. *)
Record Request := mkRequest {
  req_title : string;
  req_description : string;
  req_sections : list SOPSection;
  req_frameworks : list RegulatoryFramework
}.

(** Modelled from the spec: the shape Submit requires, "non-empty
    title/description, at least one section, at least one regulatory
    framework". *)
Definition validShape (r : Request) : bool :=
  negb (String.eqb (req_title r) "")
  && negb (String.eqb (req_description r) "")
  && bool_decide (0 < length (req_sections r))
  && bool_decide (0 < length (req_frameworks r)).

(** Modelled from the spec: the generated document body, its sections
    with title and body text. *)
Definition ContentSnapshot : Type := list (string * string).

(** Modelled from the spec: a job with its status and derived fields. *)
Record Job := mkJob {
  job_id : nat;
  job_request : Request;
  job_status : SOPStatus;
  job_content : option ContentSnapshot;
  job_score : option Z;
  job_error : option Error;
  job_attempts : nat
}.

(** Modelled from the spec: the action kinds of the audit trail that the
    operations below write. *)
Inductive AuditAction :=
  | AuditCreate
  | AuditTransition (to : SOPStatus).

(** Modelled from the spec: the job store with the audit trail. *)
Record Store := mkStore {
  jobs : gmap nat Job;
  next_id : nat;
  audit : list (nat * AuditAction)
}.

(** Modelled from the spec: the store before any submission. *)
Definition emptyStore : Store :=
  {| jobs := ∅; next_id := 0; audit := [] |}.

(** Modelled from the spec: the job Submit creates. *)
Definition newJob (id : nat) (r : Request) : Job :=
  {| job_id := id; job_request := r; job_status := PENDING;
     job_content := None; job_score := None; job_error := None;
     job_attempts := 0 |}.

(** Modelled from the spec: Submit.  A request of valid shape becomes a
    job in [PENDING] with one audit entry; any other request is refused
    with [InvalidRequest] and nothing is written. *)
Definition submit (r : Request) (st : Store) : Store * (Error + nat) :=
  if validShape r then
    let id := next_id st in
    ({| jobs := <[id := newJob id r]> (jobs st);
        next_id := S id;
        audit := audit st ++ [(id, AuditCreate)] |}, inr id)
  else (st, inl InvalidRequest).

(** Modelled from the spec: what the generation adapter returns. *)
Inductive GenerationResult :=
  | Generated (snapshot : ContentSnapshot)
  | Failure (e : Error).

(** Modelled from the spec: the external engine, as its answer to the
    n-th attempt (from 1). *)
Definition Engine : Type := nat → GenerationResult.

(** Modelled from the spec: the validator called by Advance; it gives a
    snapshot and the job's request a score. *)
Definition Validator : Type := ContentSnapshot → Request → Z.

(** Modelled from the spec: the retry bound. *)
Definition maxAttempts : nat := 3.

(** Modelled from the spec: unavailable and timeout are retried,
    rejection is not. *)
Definition retryable (e : Error) : bool :=
  match e with
  | EngineUnavailable | EngineTimeout => true
  | _ => false
  end.

(** Modelled from the spec: the retries of Advance.  The attempts from
    number [attempt] on, with [retries] further tries allowed; returns the
    number of the last attempt and its result. *)
Fixpoint generateWithRetry (engine : Engine) (attempt retries : nat)
    {struct retries} : nat * GenerationResult :=
  match engine attempt with
  | Generated snapshot => (attempt, Generated snapshot)
  | Failure e =>
      if retryable e then
        match retries with
        | 0 => (attempt, Failure e)
        | S retries' => generateWithRetry engine (S attempt) retries'
        end
      else (attempt, Failure e)
  end.

(** Modelled from the spec: a status change, the other fields kept. *)
Definition setStatus (s : SOPStatus) (j : Job) : Job :=
  {| job_id := job_id j; job_request := job_request j; job_status := s;
     job_content := job_content j; job_score := job_score j;
     job_error := job_error j; job_attempts := job_attempts j |}.

(** Modelled from the spec: the first half of Advance, from [PENDING] to
    [PROCESSING]. *)
Definition startProcessing (j : Job) : Error + Job :=
  match job_status j with
  | PENDING => inr (setStatus PROCESSING j)
  | _ => inl InvalidTransition
  end.

(** Modelled from the spec: the second half of Advance, generation with
    retries and then validation.  A generated snapshot is validated and the job is [COMPLETED]
    whatever the score; a failure that is not retried, or the last
    failure when the attempts are used up, makes it [FAILED]. *)
Definition finishProcessing (engine : Engine) (validator : Validator)
    (j : Job) : Error + Job :=
  match job_status j with
  | PROCESSING =>
      match generateWithRetry engine 1 (maxAttempts - 1) with
      | (n, Generated snapshot) =>
          inr {| job_id := job_id j; job_request := job_request j;
                 job_status := COMPLETED;
                 job_content := Some snapshot;
                 job_score := Some (validator snapshot (job_request j));
                 job_error := None; job_attempts := n |}
      | (n, Failure e) =>
          inr {| job_id := job_id j; job_request := job_request j;
                 job_status := FAILED;
                 job_content := None; job_score := None;
                 job_error := Some e; job_attempts := n |}
      end
  | _ => inl InvalidTransition
  end.

(** Modelled from the spec: Advance, both halves. *)
Definition advance (engine : Engine) (validator : Validator)
    (j : Job) : Error + Job :=
  match startProcessing j with
  | inr j' => finishProcessing engine validator j'
  | inl e => inl e
  end.

(** Modelled from the spec: the outcomes of a review. *)
Inductive ReviewOutcome := approve | reject.

(** Modelled from the spec: the reviewer takes up a completed job. *)
Definition beginReview (j : Job) : Error + Job :=
  match job_status j with
  | COMPLETED => inr (setStatus UNDER_REVIEW j)
  | _ => inl InvalidTransition
  end.

(** Modelled from the spec: Review, valid only from [COMPLETED] or
    [UNDER_REVIEW]. *)
Definition review (outcome : ReviewOutcome) (j : Job) : Error + Job :=
  match job_status j with
  | COMPLETED | UNDER_REVIEW =>
      inr (setStatus
             (match outcome with approve => APPROVED | reject => REJECTED end)
             j)
  | _ => inl InvalidTransition
  end.

(** Modelled from the spec: the status transitions of the state
    machine. *)
Inductive transition : SOPStatus → SOPStatus → Prop :=
  | t_start : transition PENDING PROCESSING
  | t_complete : transition PROCESSING COMPLETED
  | t_fail : transition PROCESSING FAILED
  | t_take_up : transition COMPLETED UNDER_REVIEW
  | t_approve_completed : transition COMPLETED APPROVED
  | t_reject_completed : transition COMPLETED REJECTED
  | t_approve : transition UNDER_REVIEW APPROVED
  | t_reject : transition UNDER_REVIEW REJECTED.

(** Modelled from the spec: the statuses a job takes, one after the
    other, from status [s]. *)
Inductive path : SOPStatus → list SOPStatus → Prop :=
  | path_nil s : path s []
  | path_cons s s' l : transition s s' → path s' l → path s (s' :: l).

(** Modelled from the spec: the operations that change a job, one status
    change each. *)
Inductive Operation :=
  | OpStartProcessing
  | OpFinishProcessing (engine : Engine) (validator : Validator)
  | OpBeginReview
  | OpReview (outcome : ReviewOutcome).

(** Modelled from the spec: the effect of one operation. *)
Definition applyOperation (op : Operation) (j : Job) : Error + Job :=
  match op with
  | OpStartProcessing => startProcessing j
  | OpFinishProcessing engine validator => finishProcessing engine validator j
  | OpBeginReview => beginReview j
  | OpReview outcome => review outcome j
  end.

(** Modelled from the spec: the statuses a job takes under a sequence of
    operations, in order; an operation that is refused changes nothing
    and adds nothing. *)
Fixpoint statusesUnder (ops : list Operation) (j : Job) : list SOPStatus :=
  match ops with
  | [] => []
  | op :: ops' =>
      match applyOperation op j with
      | inr j' => job_status j' :: statusesUnder ops' j'
      | inl _ => statusesUnder ops' j
      end
  end.

(** Modelled from the spec: the whole life of a job created by Submit. *)
Definition lifetime (id : nat) (r : Request) (ops : list Operation) : list SOPStatus :=
  PENDING :: statusesUnder ops (newJob id r).

(** Modelled from the spec: the three maximal status sequences. *)
Definition canonicalPaths : list (list SOPStatus) :=
  [ [PENDING; PROCESSING; COMPLETED; UNDER_REVIEW; APPROVED];
    [PENDING; PROCESSING; COMPLETED; UNDER_REVIEW; REJECTED];
    [PENDING; PROCESSING; FAILED] ].

End Orchestrator.

(** ** The compliance score *)

(** Modelled from the spec: the scoring rule of the Compliance Validator.
    The front end only counts the outcomes and declares the score as a
    field of the job record; no source file computes it.  The score starts
    at 100, each [Fail] takes 25 and each [Warning] takes 5, and the
    result is clamped to 0..100. *)
Module ComplianceValidator.

(** Modelled from the spec: the penalty of one outcome. *)
Definition penalty (s : ReviewAndGenerationStep.CheckStatus) : Z :=
  match s with
  | ReviewAndGenerationStep.Pass => 0
  | ReviewAndGenerationStep.Fail => 25
  | ReviewAndGenerationStep.Warning => 5
  end.

(** Modelled from the spec: clamping to an interval. *)
Definition clamp (lo hi x : Z) : Z := Z.max lo (Z.min hi x).

(** Modelled from the spec: the score of a list of checks. *)
Definition complianceScore (cs : list ReviewAndGenerationStep.CheckResult) : Z :=
  clamp 0 100
    (foldl (λ acc c, acc - penalty (ReviewAndGenerationStep.status c)) 100 cs)%Z.

End ComplianceValidator.

(** ** Specification-side definitions and sample inputs *)

Import ReviewAndGenerationStep.

(** The outcome of a check as the specification words it: [Pass] when the
    condition holds, the given outcome when it is violated. *)
Definition specOutcome (P : Prop) `{!Decision P} (violated : CheckStatus) : CheckStatus :=
  if decide P then Pass else violated.

(** The conditions of the seven checks, in the specification's words. *)
Definition requiredFieldsPresent (data : SOPData) : Prop :=
  data_title data ≠ "" ∧ data_description data ≠ ""
  ∧ is_Some (data_department data) ∧ is_Some (data_priority data).

Definition frameworkCount (data : SOPData) : nat :=
  length (default [] (data_frameworks data)).

Definition sectionCount (data : SOPData) : nat :=
  length (default [] (data_sections data)).

Definition checkpointCount (data : SOPData) : nat :=
  length (default [] (data_qualityCheckpoints data)).

Definition equipmentCount (data : SOPData) : nat :=
  length (default [] (data_equipmentRequired data)).

Definition baselineIncluded (data : SOPData) : Prop :=
  FDA_21_CFR_211 ∈ default [] (data_frameworks data).

#[global] Instance requiredFieldsPresent_dec data : Decision (requiredFieldsPresent data).
Proof. unfold requiredFieldsPresent. apply _. Defined.

#[global] Instance baselineIncluded_dec data : Decision (baselineIncluded data).
Proof. unfold baselineIncluded. apply _. Defined.

(** The scenario of the specification: title "Equipment Cleaning SOP",
    five sections, the single framework FDA 21 CFR 211, no safety text
    and no quality checkpoint.  The other fields are left open. *)
Definition cleaningScenario (data : SOPData) : Prop :=
  data_title data = "Equipment Cleaning SOP"
  ∧ sectionCount data = 5
  ∧ data_frameworks data = Some [FDA_21_CFR_211]
  ∧ data_safetyConsiderations data = ""
  ∧ checkpointCount data = 0.

(** A wizard input for that scenario with the given equipment list; the
    description, department and priority are filled in. *)
Definition cleaningData (equipment : list string) : SOPData :=
  {| data_title := "Equipment Cleaning SOP";
     data_description := "Cleaning of production equipment between batches";
     data_department := Some PRODUCTION;
     data_priority := Some MEDIUM;
     data_frameworks := Some [FDA_21_CFR_211];
     data_customRequirements := "";
     data_complianceNotes := "";
     data_sections := Some ContentDetailsStep.defaultSections;
     data_estimatedDuration := "";
     data_equipmentRequired := Some equipment;
     data_materialsRequired := [];
     data_safetyConsiderations := "";
     data_qualityCheckpoints := Some [] |}.

(** The same input with every framework deselected. *)
Definition dataWithoutFrameworks : SOPData :=
  {| data_title := "Equipment Cleaning SOP";
     data_description := "Cleaning of production equipment between batches";
     data_department := Some PRODUCTION;
     data_priority := Some MEDIUM;
     data_frameworks := Some [];
     data_customRequirements := "";
     data_complianceNotes := "";
     data_sections := Some ContentDetailsStep.defaultSections;
     data_estimatedDuration := "";
     data_equipmentRequired := Some ["Spray ball"];
     data_materialsRequired := [];
     data_safetyConsiderations := "Wear gloves";
     data_qualityCheckpoints := Some ["Visual inspection"] |}.

(** The job descriptor in the [requestData] of [handleGenerate]: the
    title, the description, [regulatory_framework] and the sections of
    [template_content].  The fields are held by the orchestrator's record
    of a request, which has them under the names of the specification. *)
Definition descriptorOf (r : SOPCreationWizard.RequestData.t) : Orchestrator.Request :=
  {| Orchestrator.req_title := SOPCreationWizard.RequestData.title r;
     Orchestrator.req_description := SOPCreationWizard.RequestData.description r;
     Orchestrator.req_sections :=
       SOPCreationWizard.template_sections
         (SOPCreationWizard.RequestData.template_content r);
     Orchestrator.req_frameworks :=
       SOPCreationWizard.RequestData.regulatory_framework r |}.

(** The same descriptor, read off the data the review step shows, which
    is [wizardData]: what [handleGenerate] sends when Generate is clicked
    on that data.  For the data of a wizard it is the descriptor of
    [requestData] (lemma [requestOf_requestData]). *)
Definition requestOf (data : SOPData) : Orchestrator.Request :=
  {| Orchestrator.req_title := data_title data;
     Orchestrator.req_description := data_description data;
     Orchestrator.req_sections :=
       SOPCreationWizard.templateSection <$> default [] (data_sections data);
     Orchestrator.req_frameworks := default [] (data_frameworks data) |}.

(** Generation succeeds within the attempts allowed. *)
Definition generationSucceeds (engine : Orchestrator.Engine)
    (snapshot : Orchestrator.ContentSnapshot) : Prop :=
  ∃ n, Orchestrator.generateWithRetry engine 1 (Orchestrator.maxAttempts - 1)
       = (n, Orchestrator.Generated snapshot).

(** An engine that answers at the second attempt. *)
Definition engineSecondTry : Orchestrator.Engine :=
  λ n, match n with
       | 1 => Orchestrator.Failure Orchestrator.EngineTimeout
       | _ => Orchestrator.Generated [("Purpose", "Cleaning.")]
       end.

(** A framework is marked mandatory by its entry in [frameworkOptions]. *)
Definition markedMandatory (framework : RegulatoryFramework) : Prop :=
  ∃ opt, opt ∈ RegulatoryFrameworkStep.frameworkOptions
         ∧ RegulatoryFrameworkStep.value opt = framework
         ∧ RegulatoryFrameworkStep.mandatory opt = true.

(** The props of [ContentDetailsStep] when nothing has been entered yet:
    every field falls back to its default. *)
Definition emptyFormData : ContentDetailsStep.ContentDetailsFormData :=
  {| ContentDetailsStep.sections := None;
     ContentDetailsStep.estimatedDuration := None;
     ContentDetailsStep.equipmentRequired := None;
     ContentDetailsStep.materialsRequired := None;
     ContentDetailsStep.safetyConsiderations := None;
     ContentDetailsStep.qualityCheckpoints := None |}.

(** What removing the entry at [index] means for a list [l] and the
    result [l']: within bounds exactly that entry goes and the rest keeps
    its order, out of bounds nothing changes. *)
Definition removesAt {A} (index : Z) (l l' : list A) : Prop :=
  ((0 ≤ index < Z.of_nat (length l))%Z →
     l' = take (Z.to_nat index) l ++ drop (S (Z.to_nat index)) l
     ∧ S (length l') = length l)
  ∧ ((index < 0 ∨ Z.of_nat (length l) ≤ index)%Z → l' = l).

(** A request without frameworks, otherwise complete. *)
Definition requestWithoutFrameworks : Orchestrator.Request :=
  requestOf dataWithoutFrameworks.

(** A validator that gives every snapshot the score 40. *)
Definition lowScoreValidator : Orchestrator.Validator := λ _ _, 40%Z.

(** A form with two frameworks selected, one of them twice. *)
Definition sampleForm : RegulatoryFrameworkStep.FormValues :=
  {| RegulatoryFrameworkStep.frameworks :=
       Some [FDA_21_CFR_211; ICH_Q7; EMA_GMP; ICH_Q7];
     RegulatoryFrameworkStep.customRequirements := "Site procedures";
     RegulatoryFrameworkStep.complianceNotes := "" |}.

(** A state of [ContentDetailsStep] with three entries in each list. *)
Definition sampleState : ContentDetailsStep.State :=
  {| ContentDetailsStep.sectionFields := ContentDetailsStep.defaultSections;
     ContentDetailsStep.equipmentItems := ["Balance"; "pH Meter"; "Autoclave"];
     ContentDetailsStep.materialItems := ["Ethanol"; "Wipes"; "Water"];
     ContentDetailsStep.checkpointItems :=
       ["Temperature verification"; "pH measurement"; "Visual inspection"] |}.

(** A form in which no framework is selected. *)
Definition emptyForm : RegulatoryFrameworkStep.FormValues :=
  {| RegulatoryFrameworkStep.frameworks := None;
     RegulatoryFrameworkStep.customRequirements := "";
     RegulatoryFrameworkStep.complianceNotes := "" |}.

(** A run of section events in which every removal takes the last
    section; [n] is the number of sections before the run.  A removal
    that is not rendered is skipped, as in [ContentDetailsStep.run]. *)
Fixpoint removesLastOnly (evs : list ContentDetailsStep.SectionEvent) (n : nat) : bool :=
  match evs with
  | [] => true
  | ContentDetailsStep.ClickAddSection :: evs' => removesLastOnly evs' (S n)
  | ContentDetailsStep.ClickRemoveSection index :: evs' =>
      if bool_decide (1 < n) && bool_decide (index < n)
      then bool_decide (index = n - 1) && removesLastOnly evs' (n - 1)
      else removesLastOnly evs' n
  end.


(** The names of the four compliance variables with the values the
    script falls back to. *)
Definition complianceDefaults : list (string * string) :=
  [ ("PHARMACEUTICAL_ENVIRONMENT", "production");
    ("FDA_COMPLIANCE_MODE", "enabled");
    ("GMP_VALIDATION", "true");
    ("DATA_INTEGRITY_LEVEL", "high") ].

(** A basic-information form that passes the rules of its step. *)
Definition sampleBasicInfo : BasicInfoStep.BasicInfoFormData :=
  {| BasicInfoStep.title := "Equipment Cleaning SOP";
     BasicInfoStep.description := "Cleaning of production equipment between batches";
     BasicInfoStep.department := Some PRODUCTION;
     BasicInfoStep.priority := Some MEDIUM |}.

(** A server that answers every request with a token. *)
Definition tokenServer : APIService.Server :=
  λ _ _, APIService.Resolved
           {| APIService.ok := true;
              APIService.status := 200;
              APIService.statusText := "OK";
              APIService.json :=
                Some (JSON.JObject [("access_token", JSON.JString "abc")]) |}.

(** A server that refuses every request with a message. *)
Definition refusingServer : APIService.Server :=
  λ _ _, APIService.Resolved
           {| APIService.ok := false;
              APIService.status := 422;
              APIService.statusText := "Unprocessable Entity";
              APIService.json :=
                Some (JSON.JObject [("message", JSON.JString "Title too short")]) |}.

(** A string that holds nothing but white space. *)
Fixpoint blank (s : string) : Prop :=
  match s with
  | EmptyString => True
  | String c s' => JS.isWhiteSpace c = true ∧ blank s'
  end.

(** A server that answers every request with the body [null]. *)
Definition nullServer : APIService.Server :=
  λ _ _, APIService.Resolved
           {| APIService.ok := true;
              APIService.status := 200;
              APIService.statusText := "OK";
              APIService.json := Some JSON.JNull |}.

(** The endpoint of each method that sends a JSON request, and the
    method and body it gives to [makeRequest]. *)
Definition endpointOf (c : APIService.Call) : string :=
  match c with
  | APIService.CallGetDemoAuthToken => "/demo/demo-auth"
  | APIService.CallGetDemoStatus => "/demo/demo-status"
  | APIService.CallCreateSOP _ => "/sops"
  | APIService.CallGetSOPStatus jobId => "/sops/" +:+ jobId
  | APIService.CallHealthCheck => "/health"
  | APIService.CallDetailedHealthCheck => "/health/detailed"
  end.

Definition methodOf (c : APIService.Call) : option string :=
  match c with
  | APIService.CallGetDemoAuthToken => Some "POST"
  | APIService.CallGetDemoStatus => None
  | APIService.CallCreateSOP _ => Some "POST"
  | APIService.CallGetSOPStatus _ => None
  | APIService.CallHealthCheck => Some "GET"
  | APIService.CallDetailedHealthCheck => Some "GET"
  end.

Definition bodyOf (c : APIService.Call) : option string :=
  match c with
  | APIService.CallCreateSOP sopData => Some sopData
  | _ => None
  end.

(** A wizard input whose only section has no title yet. *)
Definition dataOneUntitledSection : SOPData :=
  {| data_title := "Equipment Cleaning SOP";
     data_description := "Cleaning of production equipment between batches";
     data_department := Some PRODUCTION;
     data_priority := Some MEDIUM;
     data_frameworks := Some [FDA_21_CFR_211];
     data_customRequirements := "";
     data_complianceNotes := "";
     data_sections := Some [ {| title := ""; content := ""; order := 1 |} ];
     data_estimatedDuration := "";
     data_equipmentRequired := Some [];
     data_materialsRequired := [];
     data_safetyConsiderations := "";
     data_qualityCheckpoints := Some [] |}.

(** The data of the wizard once the title and the description of the
    cleaning procedure have been typed in; everything else is as the
    wizard starts. *)
Definition cleaningWizardData : SOPCreationWizard.SOPCreationData :=
  SOPCreationWizard.updateWizardData
    (SOPCreationWizard.ofBasicInfo sampleBasicInfo)
    SOPCreationWizard.initialWizardData.

(** The value a variable has after [export NAME="${NAME:-fallback}"]. *)
Definition exportedValue (env : gmap string string) (name fallback : string) : string :=
  match env !! name with
  | Some v => if String.eqb v "" then fallback else v
  | None => fallback
  end.

(** ** Properties of the validation *)

Section Scoring.

Import ComplianceValidator.
Local Open Scope Z_scope.

Lemma countStatus_cons s c cs :
  countStatus s (c :: cs) =
  ((if decide (status c = s) then 1 else 0) + countStatus s cs)%nat.
Proof.
  unfold countStatus. rewrite filter_cons.
  destruct (decide (status c = s)); reflexivity.
Qed.

(** Subtracting the penalties one by one amounts to subtracting 25 per
    failure and 5 per warning. *)
Lemma foldl_penalty cs acc :
  foldl (λ acc c, acc - penalty (status c)) acc cs =
  acc - 25 * Z.of_nat (countStatus Fail cs)
      - 5 * Z.of_nat (countStatus Warning cs).
Proof.
  revert acc. induction cs as [|c cs IH]; intros acc; simpl.
  - unfold countStatus; simpl. lia.
  - rewrite IH, !countStatus_cons.
    destruct (status c); simpl;
      repeat case_decide; try congruence; lia.
Qed.

Lemma clamp_range lo hi x : lo ≤ hi → lo ≤ clamp lo hi x ≤ hi.
Proof. unfold clamp. lia. Qed.

Lemma complianceScore_formula cs :
  complianceScore cs =
  clamp 0 100 (100 - 25 * Z.of_nat (countStatus Fail cs)
                   - 5 * Z.of_nat (countStatus Warning cs)).
Proof. unfold complianceScore. by rewrite foldl_penalty. Qed.

(** The seven outcomes add up. *)
Lemma validate_counts data :
  (passed (validate data) + failed (validate data)
   + warnings (validate data) = 7)%nat
  ∧ (failed (validate data) ≤ 2)%nat
  ∧ (warnings (validate data) ≤ 5)%nat.
Proof.
  unfold validate, buildChecks, countStatus; simpl.
  destruct (basicInformationProvided data),
           (JS.length_gt (data_frameworks data) 0),
           (JS.length_ge (data_sections data) 3),
           (JS.truthy_string (data_safetyConsiderations data)),
           (JS.length_gt (data_qualityCheckpoints data) 0),
           (JS.length_gt (data_equipmentRequired data) 0),
           (JS.includes (data_frameworks data) FDA_21_CFR_211);
    vm_compute; repeat split; lia.
Qed.

(** On the seven checks of the wizard the clamp is never reached: the
    score is at least 25. *)
Lemma complianceScore_validate_unclamped data :
  complianceScore (checks (validate data)) =
  100 - 25 * Z.of_nat (failed (validate data))
      - 5 * Z.of_nat (warnings (validate data))
  ∧ 25 ≤ complianceScore (checks (validate data)).
Proof.
  pose proof (validate_counts data) as (_ & Hf & Hw).
  rewrite complianceScore_formula.
  change (countStatus Fail (checks (validate data))) with (failed (validate data)).
  change (countStatus Warning (checks (validate data))) with (warnings (validate data)).
  unfold clamp. lia.
Qed.

(** C1. For every input, the score of the validation is 100 minus 25 for
    each check with outcome fail and minus 5 for each check with outcome
    warning, clamped to the interval from 0 to 100; the counters [failed]
    and [warnings] stored by the effect are those numbers of checks. *)
Theorem compliance_score_rule (data : SOPData) :
  let v := validate data in
  failed v = length (filter (λ c, status c = Fail) (checks v))
  ∧ warnings v = length (filter (λ c, status c = Warning) (checks v))
  ∧ complianceScore (checks v) =
      Z.max 0 (Z.min 100 (100 - 25 * Z.of_nat (failed v)
                              - 5 * Z.of_nat (warnings v)))
  ∧ 0 ≤ complianceScore (checks v) ≤ 100.
Proof.
  intros v. split; [reflexivity|]. split; [reflexivity|]. split.
  - apply complianceScore_formula.
  - unfold complianceScore. apply clamp_range. lia.
Qed.

End Scoring.

Section Checks.

(** The JavaScript tests, read as propositions. *)
Lemma truthy_string_spec s : JS.truthy_string s = bool_decide (s ≠ "").
Proof.
  unfold JS.truthy_string. symmetry.
  destruct (String.eqb_spec s "") as [->|Hne].
  - apply bool_decide_eq_false_2. intros H. by apply H.
  - by apply bool_decide_eq_true_2.
Qed.

Lemma truthy_opt_spec {A} (v : option A) : JS.truthy_opt v = bool_decide (is_Some v).
Proof.
  symmetry. destruct v as [a|].
  - apply bool_decide_eq_true_2. by exists a.
  - apply bool_decide_eq_false_2. by intros [? ?].
Qed.

Lemma length_gt_spec {A} (xs : option (list A)) n :
  JS.length_gt xs n = bool_decide (S n ≤ length (default [] xs)).
Proof.
  destruct xs as [l|].
  - apply bool_decide_ext. simpl. lia.
  - symmetry. apply bool_decide_eq_false_2. simpl. lia.
Qed.

Lemma length_ge_spec {A} (xs : option (list A)) n :
  0 < n → JS.length_ge xs n = bool_decide (n ≤ length (default [] xs)).
Proof.
  intros Hn. destruct xs as [l|]; [reflexivity|].
  symmetry. apply bool_decide_eq_false_2. simpl. lia.
Qed.

Lemma includes_spec `{EqDecision A} (xs : option (list A)) x :
  JS.includes xs x = bool_decide (x ∈ default [] xs).
Proof.
  destruct xs as [l|]; [reflexivity|].
  symmetry. apply bool_decide_eq_false_2. apply not_elem_of_nil.
Qed.

Lemma basicInformationProvided_spec data :
  basicInformationProvided data = bool_decide (requiredFieldsPresent data).
Proof.
  unfold basicInformationProvided, requiredFieldsPresent.
  rewrite !truthy_string_spec, !truthy_opt_spec.
  repeat case_bool_decide; simpl; try reflexivity; exfalso; tauto.
Qed.

Lemma specOutcome_bool (P : Prop) `{!Decision P} violated :
  (if bool_decide P then Pass else violated) = specOutcome P violated.
Proof. unfold specOutcome. by case_bool_decide; case_decide. Qed.

(** C2. For every input the validation makes exactly seven checks, in this
    order: required descriptive fields, at least one framework, at least
    three sections, safety text present, at least one quality checkpoint,
    at least one equipment item, baseline framework FDA 21 CFR 211
    included.  The first two have outcome fail when violated, the other
    five have outcome warning when violated, and each has outcome pass
    otherwise. *)
Theorem seven_checks (data : SOPData) :
  name <$> checks (validate data) =
    [ "Basic Information"; "Regulatory Framework"; "SOP Sections";
      "Safety Considerations"; "Quality Checkpoints";
      "Equipment Requirements"; "Pharmaceutical Compliance" ]
  ∧ status <$> checks (validate data) =
    [ specOutcome (requiredFieldsPresent data) Fail;
      specOutcome (1 ≤ frameworkCount data) Fail;
      specOutcome (3 ≤ sectionCount data) Warning;
      specOutcome (data_safetyConsiderations data ≠ "") Warning;
      specOutcome (1 ≤ checkpointCount data) Warning;
      specOutcome (1 ≤ equipmentCount data) Warning;
      specOutcome (baselineIncluded data) Warning ].
Proof.
  split; [reflexivity|].
  unfold validate, buildChecks; simpl.
  rewrite basicInformationProvided_spec, truthy_string_spec, includes_spec,
    !length_gt_spec, (length_ge_spec _ 3) by lia.
  rewrite !specOutcome_bool. reflexivity.
Qed.

(** The effect replaces the cell by a value computed from [data] alone. *)
Lemma validationEffect_result data st :
  validationResults (validationEffect data st) = validate data.
Proof. reflexivity. Qed.

(** C5. The validation is deterministic: whatever the component held
    before, running the effect on the same input gives the same state,
    hence the same score and the same names, outcomes and messages; and
    running it a second time changes nothing. *)
Theorem validation_deterministic (data : SOPData) (st1 st2 : ReviewState) :
  let r1 := validationResults (validationEffect data st1) in
  let r2 := validationResults (validationEffect data st2) in
  let again := validationResults (validationEffect data (validationEffect data st1)) in
  validationEffect data st1 = validationEffect data st2
  ∧ ComplianceValidator.complianceScore (checks r1)
    = ComplianceValidator.complianceScore (checks r2)
  ∧ name <$> checks r1 = name <$> checks r2
  ∧ status <$> checks r1 = status <$> checks r2
  ∧ message <$> checks r1 = message <$> checks r2
  ∧ again = r1.
Proof. repeat split. Qed.

End Checks.

(** ** Properties of the job lifecycle *)

Section Lifecycle.

Import Orchestrator.

Lemma startProcessing_inv j j' :
  startProcessing j = inr j' →
  job_status j = PENDING ∧ job_status j' = PROCESSING.
Proof.
  unfold startProcessing. destruct (job_status j) eqn:E; intros H;
    inversion H; subst; auto.
Qed.

Lemma finishProcessing_inv engine validator j j' :
  finishProcessing engine validator j = inr j' →
  job_status j = PROCESSING
  ∧ (job_status j' = COMPLETED ∨ job_status j' = FAILED).
Proof.
  unfold finishProcessing. destruct (job_status j) eqn:E; intros H;
    try discriminate.
  destruct (generateWithRetry engine 1 (maxAttempts - 1)) as [n [snapshot|e]];
    inversion H; subst; simpl; auto.
Qed.

Lemma beginReview_inv j j' :
  beginReview j = inr j' →
  job_status j = COMPLETED ∧ job_status j' = UNDER_REVIEW.
Proof.
  unfold beginReview. destruct (job_status j) eqn:E; intros H;
    inversion H; subst; auto.
Qed.

Lemma review_inv outcome j j' :
  review outcome j = inr j' →
  (job_status j = COMPLETED ∨ job_status j = UNDER_REVIEW)
  ∧ job_status j' = match outcome with approve => APPROVED | reject => REJECTED end.
Proof.
  unfold review. destruct (job_status j) eqn:E; intros H;
    inversion H; subst; auto.
Qed.

(** Every operation that is accepted makes one of the transitions. *)
Lemma apply_transition op j j' :
  applyOperation op j = inr j' → transition (job_status j) (job_status j').
Proof.
  destruct op as [|engine validator| |outcome]; simpl; intros H.
  - apply startProcessing_inv in H as [-> ->]. constructor.
  - apply finishProcessing_inv in H as [-> [-> | ->]]; constructor.
  - apply beginReview_inv in H as [-> ->]. constructor.
  - apply review_inv in H as [[-> | ->] ->]; destruct outcome; constructor.
Qed.

(** An operation that is refused is refused with [InvalidTransition]. *)
Lemma apply_refused op j e : applyOperation op j = inl e → e = InvalidTransition.
Proof.
  destruct op as [|engine validator| |outcome]; simpl;
    unfold startProcessing, finishProcessing, beginReview, review;
    destruct (job_status j); try congruence;
    destruct (generateWithRetry _ _ _) as [n [snapshot|e']]; congruence.
Qed.

Lemma statusesUnder_path ops : ∀ j, path (job_status j) (statusesUnder ops j).
Proof.
  induction ops as [|op ops IH]; intros j; simpl.
  - constructor.
  - destruct (applyOperation op j) as [e|j'] eqn:E.
    + apply IH.
    + econstructor; [by eapply apply_transition | apply IH].
Qed.

Ltac invert_path :=
  repeat match goal with
  | H : transition _ _ |- _ => inversion H; subst; clear H
  | H : path _ _ |- _ => inversion H; subst; clear H
  end.

Ltac solve_sublist :=
  repeat first [ apply sublist_nil_l | apply sublist_skip | apply sublist_cons ].

(** The paths from [PENDING] stay within the three canonical ones. *)
Lemma path_canonical l :
  path PENDING l →
  ∃ p, p ∈ canonicalPaths ∧ (PENDING :: l) `sublist_of` p.
Proof.
  intros H. invert_path;
    first
      [ by (exists [PENDING; PROCESSING; COMPLETED; UNDER_REVIEW; APPROVED];
            split; [set_solver | solve_sublist])
      | by (exists [PENDING; PROCESSING; COMPLETED; UNDER_REVIEW; REJECTED];
            split; [set_solver | solve_sublist])
      | by (exists [PENDING; PROCESSING; FAILED];
            split; [set_solver | solve_sublist]) ].
Qed.

Lemma all_statuses_complete (s : SOPStatus) : s ∈ all_statuses.
Proof. destruct s; unfold all_statuses; set_solver. Qed.

Lemma all_statuses_NoDup : NoDup all_statuses.
Proof. compute_done. Qed.

(** C7. A job's status is one of the seven members of [SOPStatus], each of
    which occurs in some lifetime; and for every job and every sequence of
    operations on it, the statuses it takes, and so every sequence of
    statuses observed among them, form a subsequence of PENDING,
    PROCESSING, COMPLETED, UNDER_REVIEW, APPROVED, or of the same with
    REJECTED at the end, or of PENDING, PROCESSING, FAILED. *)
Theorem status_sequences (id : nat) (r : Request) (ops : list Operation)
    (observed : list SOPStatus) :
  length all_statuses = 7 ∧ NoDup all_statuses
  ∧ (∀ s : SOPStatus, s ∈ all_statuses
       ∧ ∃ ops', s ∈ lifetime id r ops')
  ∧ (observed `sublist_of` lifetime id r ops →
     ∃ p, p ∈ canonicalPaths ∧ observed `sublist_of` p).
Proof.
  split; [reflexivity|]. split; [apply all_statuses_NoDup|]. split.
  - intros s. split; [apply all_statuses_complete|].
    pose (ok := (λ _, Generated []) : Engine).
    pose (ko := (λ _, Failure EngineRejected) : Engine).
    pose (v := (λ _ _, 0%Z) : Validator).
    destruct s.
    + exists []. cbn. set_solver.
    + exists [OpStartProcessing]. cbn. set_solver.
    + exists [OpStartProcessing; OpFinishProcessing ok v]. cbn. set_solver.
    + exists [OpStartProcessing; OpFinishProcessing ko v]. cbn. set_solver.
    + exists [OpStartProcessing; OpFinishProcessing ok v; OpBeginReview]. cbn. set_solver.
    + exists [OpStartProcessing; OpFinishProcessing ok v; OpReview approve]. cbn. set_solver.
    + exists [OpStartProcessing; OpFinishProcessing ok v; OpBeginReview; OpReview reject].
      cbn. set_solver.
  - intros Hobs.
    destruct (path_canonical (statusesUnder ops (newJob id r))) as (p & Hp & Hsub).
    { apply (statusesUnder_path ops (newJob id r)). }
    exists p. split; [done|]. by etrans.
Qed.

End Lifecycle.

(** ** Gating: what blocks generation and submission *)

Section Gating.

Import Orchestrator.

Lemma failed_validate data :
  failed (validate data) =
  (if bool_decide (requiredFieldsPresent data) then 0 else 1)
  + (if bool_decide (1 ≤ frameworkCount data) then 0 else 1).
Proof.
  unfold validate, buildChecks, countStatus; simpl.
  rewrite basicInformationProvided_spec, length_gt_spec.
  change (bool_decide (1 ≤ length (default [] (data_frameworks data))))
    with (bool_decide (1 ≤ frameworkCount data)).
  destruct (bool_decide (requiredFieldsPresent data)),
           (bool_decide (1 ≤ frameworkCount data)),
           (JS.length_ge (data_sections data) 3),
           (JS.truthy_string (data_safetyConsiderations data)),
           (JS.length_gt (data_qualityCheckpoints data) 0),
           (JS.length_gt (data_equipmentRequired data) 0),
           (JS.includes (data_frameworks data) FDA_21_CFR_211);
    reflexivity.
Qed.

Lemma failed_zero_iff data :
  failed (validate data) = 0 ↔
  requiredFieldsPresent data ∧ 1 ≤ frameworkCount data.
Proof.
  rewrite failed_validate. repeat case_bool_decide; split; try lia; tauto.
Qed.

Lemma generateDisabled_false_iff canGenerate st isGenerating :
  generateDisabled canGenerate st isGenerating = false ↔
  canGenerate = true ∧ failed (validationResults st) = 0 ∧ isGenerating = false.
Proof.
  unfold generateDisabled.
  destruct (decide (0 < failed (validationResults st))) as [Hf|Hf].
  - rewrite (bool_decide_eq_true_2 _ Hf), orb_true_r. simpl.
    split; [discriminate|]. intros (_ & H0 & _). lia.
  - rewrite (bool_decide_eq_false_2 _ Hf), orb_false_r.
    destruct canGenerate, isGenerating; simpl;
      split; try discriminate; try (intros (? & ? & ?); discriminate);
      intros _; repeat split; lia.
Qed.

(** A job in [PENDING] whose generation succeeds is [COMPLETED] after
    Advance, with the validator's score attached, whatever that score. *)
Lemma advance_completes engine (validator : Validator) j snapshot :
  job_status j = PENDING →
  generationSucceeds engine snapshot →
  ∃ j', advance engine validator j = inr j'
        ∧ job_status j' = COMPLETED
        ∧ job_score j' = Some (validator snapshot (job_request j)).
Proof.
  intros Hp [n Hgen]. unfold advance, startProcessing. rewrite Hp.
  unfold finishProcessing; simpl. simpl in Hgen. rewrite Hgen.
  eexists. repeat split.
Qed.

(** The two checks that can fail are the tests of the wizard's first two
    steps. *)
Lemma validateStep_basic w :
  SOPCreationWizard.validateStep w 0
  = basicInformationProvided (SOPCreationWizard.dataProp w).
Proof. reflexivity. Qed.

Lemma validateStep_frameworks w :
  SOPCreationWizard.validateStep w 1
  = JS.length_gt (data_frameworks (SOPCreationWizard.dataProp w)) 0.
Proof. reflexivity. Qed.

Lemma failed_steps w :
  failed (validate (SOPCreationWizard.dataProp w)) = 0 ↔
  SOPCreationWizard.validateStep w 0 = true
  ∧ SOPCreationWizard.validateStep w 1 = true.
Proof.
  rewrite failed_zero_iff, validateStep_basic, validateStep_frameworks.
  rewrite basicInformationProvided_spec, length_gt_spec.
  rewrite !bool_decide_eq_true. reflexivity.
Qed.

Lemma canGenerate_no_failure w :
  SOPCreationWizard.canGenerate w = true →
  failed (validate (SOPCreationWizard.dataProp w)) = 0.
Proof.
  unfold SOPCreationWizard.canGenerate. intros H.
  apply andb_true_iff in H as [H _]. apply andb_true_iff in H as [H0 H1].
  by apply failed_steps.
Qed.

(** With [canGenerate] as the wizard computes it, the test on the failed
    checks never changes the button. *)
Lemma generateDisabled_wizard w st isGenerating :
  failed (validationResults st) = 0
  ∨ validationResults st = validate (SOPCreationWizard.dataProp w) →
  generateDisabled (SOPCreationWizard.canGenerate w) st isGenerating
  = negb (SOPCreationWizard.canGenerate w) || isGenerating.
Proof.
  intros Hst. unfold generateDisabled.
  destruct (SOPCreationWizard.canGenerate w) eqn:Hc; [|reflexivity].
  assert (Hf : failed (validationResults st) = 0).
  { destruct Hst as [H|H]; [done|]. rewrite H. by apply canGenerate_no_failure. }
  rewrite Hf. reflexivity.
Qed.


(** C4. A submission whose framework list is empty is refused with
    [InvalidRequest] and the store is left as it was, so no job is
    created and none is in PENDING for it.  In the wizard the same input
    cannot be sent on: the framework step's submit button and the
    Generate button are both disabled. *)
Theorem submit_rejects_empty_frameworks (r : Request) (st : Store) :
  req_frameworks r = [] →
  submit r st = (st, inl InvalidRequest)
  ∧ jobs (submit r st).1 = jobs st
  ∧ (∀ form canProceed,
       RegulatoryFrameworkStep.currentFrameworksOf form = req_frameworks r →
       RegulatoryFrameworkStep.submitDisabled canProceed form = true)
  ∧ (∀ data rst canGenerate isGenerating,
       default [] (data_frameworks data) = req_frameworks r →
       generateDisabled canGenerate (validationEffect data rst) isGenerating = true).
Proof.
  intros Hr.
  assert (Hs : submit r st = (st, inl InvalidRequest)).
  { unfold submit, validShape. rewrite Hr. simpl.
    by rewrite !andb_false_r. }
  split; [done|]. split; [by rewrite Hs|]. split.
  - intros form canProceed Hf.
    unfold RegulatoryFrameworkStep.submitDisabled. rewrite Hf, Hr.
    simpl. apply orb_true_r.
  - intros data rst canGenerate isGenerating Hd.
    destruct (generateDisabled canGenerate (validationEffect data rst) isGenerating)
      eqn:E; [done|].
    apply generateDisabled_false_iff in E as (_ & E & _).
    rewrite validationEffect_result in E.
    apply failed_zero_iff in E as [_ E].
    unfold frameworkCount in E. rewrite Hd, Hr in E. simpl in E. lia.
Qed.

End Gating.

(** ** The equipment-cleaning scenario *)

Section Scenario.

Import Orchestrator ComplianceValidator.
Local Open Scope Z_scope.

(** What the scenario fixes of the seven tests. *)
Lemma cleaningScenario_tests data :
  cleaningScenario data →
  JS.length_gt (data_frameworks data) 0 = true
  ∧ JS.length_ge (data_sections data) 3 = true
  ∧ JS.truthy_string (data_safetyConsiderations data) = false
  ∧ JS.length_gt (data_qualityCheckpoints data) 0 = false
  ∧ JS.includes (data_frameworks data) FDA_21_CFR_211 = true.
Proof.
  unfold cleaningScenario, sectionCount, checkpointCount.
  intros (_ & Hs & Hf & Hsafe & Hc).
  rewrite !length_gt_spec, length_ge_spec, truthy_string_spec, includes_spec
    by lia.
  rewrite Hf, Hsafe, Hs, Hc. simpl. repeat split.
Qed.

Lemma submit_accepts r st :
  validShape r = true →
  submit r st =
    ({| jobs := <[next_id st := newJob (next_id st) r]> (jobs st);
        next_id := S (next_id st);
        audit := audit st ++ [(next_id st, AuditCreate)] |},
     inr (next_id st)).
Proof. intros H. unfold submit. by rewrite H. Qed.

Lemma validShape_requestOf data :
  validShape (requestOf data) =
  JS.truthy_string (data_title data) && JS.truthy_string (data_description data)
  && bool_decide (1 ≤ sectionCount data)%nat
  && bool_decide (1 ≤ frameworkCount data)%nat.
Proof.
  unfold validShape, requestOf, sectionCount, frameworkCount; simpl.
  by rewrite length_fmap.
Qed.

(** The descriptor read off the review's data is the one of the request
    that [handleGenerate] builds. *)
Lemma requestOf_requestData now w :
  requestOf (SOPCreationWizard.dataProp w)
  = descriptorOf (SOPCreationWizard.requestData now w).
Proof. reflexivity. Qed.

(** C6 (amended). For every input with title "Equipment Cleaning SOP",
    five sections, the single framework FDA 21 CFR 211, no safety text and
    no quality checkpoint: the safety and checkpoint checks have outcome
    warning; there are two or three warnings, exactly two precisely when
    at least one equipment item is listed, and these are then the two
    named; a check fails precisely when the description, the department
    or the priority is missing; the score is at most 90, and it is 90
    precisely when those three fields are given and an equipment item is
    listed.  Submit refuses the job when the description is empty;
    otherwise it accepts it, and the job is COMPLETED once its generation
    succeeds. *)
Theorem cleaning_scenario (data : SOPData) :
  cleaningScenario data →
  let v := validate data in
  (status <$> checks v) !! 3%nat = Some Warning
  ∧ (status <$> checks v) !! 4%nat = Some Warning
  ∧ (2 ≤ warnings v ≤ 3)%nat
  ∧ (warnings v = 2%nat ↔ (1 ≤ equipmentCount data)%nat)
  ∧ ((1 ≤ equipmentCount data)%nat →
     name <$> filter (λ c, status c = Warning) (checks v)
     = ["Safety Considerations"; "Quality Checkpoints"])
  ∧ (failed v = 0%nat ↔ requiredFieldsPresent data)
  ∧ complianceScore (checks v) ≤ 90
  ∧ (complianceScore (checks v) = 90 ↔
     requiredFieldsPresent data ∧ (1 ≤ equipmentCount data)%nat)
  ∧ (data_description data = "" →
     ∀ st, submit (requestOf data) st = (st, inl InvalidRequest))
  ∧ (data_description data ≠ "" →
     ∀ engine validator snapshot st,
       generationSucceeds engine snapshot →
       ∃ st' id j',
         submit (requestOf data) st = (st', inr id)
         ∧ jobs st' !! id = Some (newJob id (requestOf data))
         ∧ advance engine validator (newJob id (requestOf data)) = inr j'
         ∧ job_status j' = COMPLETED).
Proof.
  intros Hsc v.
  pose proof (cleaningScenario_tests data Hsc) as (Hf & Hs & Hsafe & Hq & Hi).
  assert (Hchecks : status <$> checks v =
    [ if basicInformationProvided data then Pass else Fail; Pass; Pass;
      Warning; Warning;
      if JS.length_gt (data_equipmentRequired data) 0 then Pass else Warning;
      Pass ]).
  { subst v. unfold validate, buildChecks; simpl.
    by rewrite Hf, Hs, Hsafe, Hq, Hi. }
  assert (He : JS.length_gt (data_equipmentRequired data) 0
               = bool_decide (1 ≤ equipmentCount data)%nat).
  { by rewrite length_gt_spec. }
  assert (Hw : warnings v =
    if bool_decide (1 ≤ equipmentCount data)%nat then 2%nat else 3%nat).
  { rewrite <- He. subst v. unfold validate, buildChecks, countStatus; simpl.
    rewrite Hf, Hs, Hsafe, Hq, Hi.
    by destruct (basicInformationProvided data),
                (JS.length_gt (data_equipmentRequired data) 0). }
  assert (Hfw : (1 ≤ frameworkCount data)%nat).
  { destruct Hsc as (_ & _ & Hfr & _). unfold frameworkCount.
    rewrite Hfr. simpl. lia. }
  assert (Hfl : failed v =
    if bool_decide (requiredFieldsPresent data) then 0%nat else 1%nat).
  { subst v. rewrite failed_validate.
    rewrite (bool_decide_eq_true_2 _ Hfw). by case_bool_decide. }
  assert (Hscore : complianceScore (checks v) =
    100 - 25 * Z.of_nat (failed v) - 5 * Z.of_nat (warnings v)).
  { apply complianceScore_validate_unclamped. }
  assert (Hshape : validShape (requestOf data)
                   = JS.truthy_string (data_description data)).
  { rewrite validShape_requestOf.
    destruct Hsc as (Ht & H5 & _). rewrite Ht, H5.
    rewrite (bool_decide_eq_true_2 _ Hfw). simpl.
    by rewrite !andb_true_r. }
  assert (Hnames : (1 ≤ equipmentCount data)%nat →
            name <$> filter (λ c, status c = Warning) (checks v)
            = ["Safety Considerations"; "Quality Checkpoints"]).
  { intros Heq. subst v. unfold validate, buildChecks; simpl.
    rewrite Hf, Hs, Hsafe, Hq, Hi, He, (bool_decide_eq_true_2 _ Heq).
    by destruct (basicInformationProvided data). }
  clearbody v.
  split; [by rewrite Hchecks|]. split; [by rewrite Hchecks|].
  split; [rewrite Hw; destruct (bool_decide _); lia|].
  split.
  { rewrite Hw. destruct (decide (1 ≤ equipmentCount data)%nat) as [Heq|Heq].
    - by rewrite (bool_decide_eq_true_2 _ Heq).
    - rewrite (bool_decide_eq_false_2 _ Heq). split; [lia|done]. }
  split; [exact Hnames|].
  split.
  { rewrite Hfl. destruct (decide (requiredFieldsPresent data)) as [Hreq|Hreq].
    - by rewrite (bool_decide_eq_true_2 _ Hreq).
    - rewrite (bool_decide_eq_false_2 _ Hreq). split; [lia|done]. }
  split.
  { rewrite Hscore, Hw, Hfl. destruct (bool_decide _), (bool_decide _); lia. }
  split.
  { rewrite Hscore, Hw, Hfl.
    destruct (decide (1 ≤ equipmentCount data)%nat) as [Heq|Heq];
      [rewrite (bool_decide_eq_true_2 _ Heq)
      |rewrite (bool_decide_eq_false_2 _ Heq)];
    (destruct (decide (requiredFieldsPresent data)) as [Hreq|Hreq];
      [rewrite (bool_decide_eq_true_2 _ Hreq)
      |rewrite (bool_decide_eq_false_2 _ Hreq)]);
    (split; [intros; try lia; done | intros [? ?]; try lia; done]). }
  split.
  { intros Hd st. unfold submit. by rewrite Hshape, Hd. }
  intros Hd engine validator snapshot st Hgen.
  destruct (advance_completes engine validator
              (newJob (next_id st) (requestOf data)) snapshot)
    as (j' & Hadv & Hst & _); [done | done |].
  eexists _, (next_id st), j'. split.
  { apply submit_accepts. rewrite Hshape, truthy_string_spec.
    by apply bool_decide_eq_true_2. }
  split; [simpl; apply lookup_insert_eq|]. by split.
Qed.

(** C6, as stated, fails: an input of the scenario whose equipment list
    is empty, as the wizard leaves it by default, has three warnings and
    the score 85.  This input is the data of the wizard once the title
    and the description have been typed in, and the wizard lets it be
    generated. *)
Lemma cleaning_scenario_three_warnings :
  cleaningScenario (cleaningData [])
  ∧ warnings (validate (cleaningData [])) = 3%nat
  ∧ name <$> filter (λ c, status c = Warning) (checks (validate (cleaningData [])))
    = ["Safety Considerations"; "Quality Checkpoints"; "Equipment Requirements"]
  ∧ complianceScore (checks (validate (cleaningData []))) = 85
  ∧ cleaningData [] = SOPCreationWizard.dataProp cleaningWizardData
  ∧ SOPCreationWizard.canGenerate cleaningWizardData = true.
Proof. repeat split. Qed.

End Scenario.

(** ** Sections: the [order] field *)

Section Sections.

Import ContentDetailsStep.

Lemma defaultSections_ordered : orderedByPosition defaultSections.
Proof.
  intros i s H. unfold defaultSections in H.
  do 5 (destruct i as [|i]; simpl in H; [by inversion H|]).
  discriminate.
Qed.

(** Adding a section keeps [order] equal to the position. *)
Lemma addSection_ordered st :
  orderedByPosition (sectionFields st) →
  orderedByPosition (sectionFields (addSection st)).
Proof.
  intros Hord i s. unfold addSection, appendSection; simpl.
  intros H. apply lookup_app_Some in H as [H | [Hle H]].
  - by apply Hord.
  - destruct (i - length (sectionFields st)) as [|k] eqn:E; simpl in H;
      [|by destruct k]. inversion H; subst; simpl. lia.
Qed.

(** So does removing the last section. *)
Lemma removeSection_last_ordered st :
  orderedByPosition (sectionFields st) →
  orderedByPosition
    (sectionFields (removeSection (length (sectionFields st) - 1) st)).
Proof.
  intros Hord i s. unfold removeSection; simpl. intros H.
  apply Hord. pose proof (lookup_lt_Some _ _ _ H) as Hlt.
  destruct (sectionFields st) as [|x l] eqn:E; [done|].
  rewrite length_delete in Hlt by (apply lookup_lt_is_Some; simpl; lia).
  rewrite list_lookup_delete_lt in H; [done|]. simpl in *. lia.
Qed.

(** [order] equals the position exactly when the [order] values read
    1, 2, 3 and so on. *)
Lemma orderedByPosition_orders l :
  orderedByPosition l ↔ order <$> l = seq 1 (length l).
Proof.
  split.
  - intros H. apply list_eq. intros i. rewrite list_lookup_fmap.
    destruct (l !! i) as [s|] eqn:E; simpl.
    + rewrite (H i s E). symmetry. apply lookup_seq.
      split; [lia|]. by eapply lookup_lt_Some.
    + symmetry. apply lookup_seq_ge. by apply lookup_ge_None.
  - intros H i s E.
    assert (Hi : (order <$> l) !! i = Some (order s))
      by (by rewrite list_lookup_fmap, E).
    rewrite H in Hi. apply lookup_seq in Hi as [-> _]. lia.
Qed.

(** C8 (evaluation at the failing input). From the default sections,
    removing the first section and then adding one leaves the [order]
    values 2, 3, 4, 5, 5: they are not the positions 1 to 5, and two
    sections share the value 5.  Removing the first section alone already
    leaves 2, 3, 4, 5; and adding two sections gives two sections the
    empty title. *)
Theorem order_after_remove_then_add :
  let st1 := run [ClickRemoveSection 0] (initialState emptyFormData) in
  let st2 := run [ClickRemoveSection 0; ClickAddSection] (initialState emptyFormData) in
  let st3 := run [ClickAddSection; ClickAddSection] (initialState emptyFormData) in
  order <$> sectionFields st1 = [2; 3; 4; 5]
  ∧ order <$> sectionFields st2 = [2; 3; 4; 5; 5]
  ∧ seq 1 (length (sectionFields st2)) = [1; 2; 3; 4; 5]
  ∧ bool_decide (NoDup (order <$> sectionFields st2)) = false
  ∧ title <$> sectionFields st3
    = ["Purpose"; "Scope"; "Responsibilities"; "Procedure"; "Documentation"; ""; ""]
  ∧ bool_decide (NoDup (title <$> sectionFields st3)) = false.
Proof. repeat split. Qed.

(** Hence the invariant is lost at that input. *)
Lemma order_invariant_lost :
  ¬ orderedByPosition
      (sectionFields
         (run [ClickRemoveSection 0; ClickAddSection] (initialState emptyFormData))).
Proof. rewrite orderedByPosition_orders. discriminate. Qed.

(** As long as only sections are added, the invariant holds. *)
Lemma add_only_ordered n :
  orderedByPosition
    (sectionFields (run (replicate n ClickAddSection) (initialState emptyFormData))).
Proof.
  assert (H : ∀ st, orderedByPosition (sectionFields st) →
    orderedByPosition (sectionFields (run (replicate n ClickAddSection) st))).
  { induction n as [|n IH]; intros st Hst; simpl; [done|].
    by apply IH, addSection_ordered. }
  apply H, defaultSections_ordered.
Qed.

End Sections.

(** ** Framework selection *)

Section Frameworks.

Import RegulatoryFrameworkStep.

(** Only FDA 21 CFR 211 is marked mandatory. *)
Lemma markedMandatory_iff framework :
  markedMandatory framework ↔ framework = FDA_21_CFR_211.
Proof.
  split.
  - intros (opt & Hin & Hv & Hm). unfold frameworkOptions in Hin.
    repeat (apply elem_of_cons in Hin as [-> | Hin];
            [simpl in *; congruence|]).
    by apply elem_of_nil in Hin.
  - intros ->. eexists. split; [apply list_elem_of_here|]. by split.
Qed.

(** The test of [handleFrameworkToggle] that allows removal. *)
Lemma not_truthy_mandatory framework :
  not_truthy (mandatoryFrameworkOf framework)
  = bool_decide (framework ≠ FDA_21_CFR_211).
Proof. by destruct framework. Qed.

Lemma currentFrameworksOf_setValue v form :
  currentFrameworksOf (setValue_frameworks v form) = v.
Proof. reflexivity. Qed.

Lemma filter_ne_not_elem (framework : RegulatoryFramework)
    (l : list RegulatoryFramework) :
  framework ∉ filter (λ f, f ≠ framework) l.
Proof. rewrite list_elem_of_filter. tauto. Qed.

Lemma filter_ne_other (framework g : RegulatoryFramework)
    (l : list RegulatoryFramework) :
  g ≠ framework →
  filter (λ f, f = g) (filter (λ f, f ≠ framework) l) = filter (λ f, f = g) l.
Proof.
  intros Hne. rewrite list_filter_filter. apply list_filter_iff.
  intros f. split; [tauto|]. intros ->. done.
Qed.

(** C9. Toggling a framework that is marked mandatory (FDA 21 CFR 211) and
    is in the list leaves the form, and so the list, unchanged; toggling
    a framework that is not in the list appends it at the end; toggling a
    selected framework that is not mandatory removes every occurrence of
    it and nothing else.  The other form values are never touched, and a
    selected FDA 21 CFR 211 stays selected under every toggle. *)
Theorem handleFrameworkToggle_spec (framework : RegulatoryFramework)
    (form : FormValues) :
  let current := currentFrameworksOf form in
  let form' := handleFrameworkToggle framework form in
  (markedMandatory framework → framework ∈ current →
     form' = form ∧ currentFrameworksOf form' = current)
  ∧ (framework ∉ current →
     currentFrameworksOf form' = current ++ [framework])
  ∧ (¬ markedMandatory framework → framework ∈ current →
     currentFrameworksOf form' = filter (λ f, f ≠ framework) current
     ∧ (framework ∉ currentFrameworksOf form')
     ∧ (∀ g, g ≠ framework →
          filter (λ f, f = g) (currentFrameworksOf form')
          = filter (λ f, f = g) current))
  ∧ customRequirements form' = customRequirements form
  ∧ complianceNotes form' = complianceNotes form
  ∧ (FDA_21_CFR_211 ∈ current → FDA_21_CFR_211 ∈ currentFrameworksOf form').
Proof.
  intros current form'. subst form'. unfold handleFrameworkToggle.
  fold current. rewrite not_truthy_mandatory.
  destruct (decide (framework ∈ current)) as [Hin|Hnin].
  - rewrite (bool_decide_eq_true_2 _ Hin).
    destruct (decide (framework = FDA_21_CFR_211)) as [Hm|Hm].
    + rewrite bool_decide_eq_false_2 by (intros H; by apply H).
      split; [|split; [|split; [|split; [|split]]]]; try done.
      intros Hn _. exfalso. by apply Hn, markedMandatory_iff.
    + rewrite (bool_decide_eq_true_2 _ Hm).
      rewrite currentFrameworksOf_setValue.
      split; [|split; [|split; [|split; [|split]]]]; try done.
      * intros Hmm. by apply markedMandatory_iff in Hmm.
      * intros _ _. split; [done|]. split; [apply filter_ne_not_elem|].
        intros g Hg. by apply filter_ne_other.
      * intros Hfda. apply list_elem_of_filter. split; [|done]. congruence.
  - rewrite (bool_decide_eq_false_2 _ Hnin).
    rewrite currentFrameworksOf_setValue.
    repeat split; try done.
    intros Hfda. apply elem_of_app. by left.
Qed.

End Frameworks.

(** ** Removing an item from a list *)

Section Items.

Import ContentDetailsStep.

(** [filter] on the position, for the test [i !== index]. *)
Lemma filter_index_delete {A} (index : Z) (l : list A) : ∀ k,
  JS.filter_index (λ i, negb (Z.of_nat i =? index)%Z) k l =
  if decide (Z.of_nat k ≤ index < Z.of_nat k + Z.of_nat (length l))%Z
  then delete (Z.to_nat index - k) l
  else l.
Proof.
  induction l as [|x l IH]; intros k; simpl.
  - by case_decide.
  - rewrite IH. destruct (Z.eqb_spec (Z.of_nat k) index) as [Heq|Hne]; simpl.
    + rewrite decide_False by lia. rewrite decide_True by lia.
      by replace (Z.to_nat index - k) with 0 by lia.
    + destruct (decide (Z.of_nat (S k) ≤ index
                        < Z.of_nat (S k) + Z.of_nat (length l))%Z) as [Hin|Hout].
      * rewrite decide_True by lia.
        by replace (Z.to_nat index - k) with (S (Z.to_nat index - S k)) by lia.
      * by rewrite decide_False by lia.
Qed.

Lemma filter_index_removesAt {A} (index : Z) (l : list A) :
  removesAt index l (JS.filter_index (λ i, negb (Z.of_nat i =? index)%Z) 0 l).
Proof.
  rewrite filter_index_delete. split.
  - intros Hin. rewrite decide_True by lia.
    rewrite Nat.sub_0_r, delete_take_drop. split; [done|].
    rewrite <- delete_take_drop, length_delete.
    + lia.
    + apply lookup_lt_is_Some. lia.
  - intros Hout. by rewrite decide_False by lia.
Qed.

(** C10. For every list and every integer index the three removal
    handlers return a result (they are functions): with the index within
    bounds, the list from which exactly the entry at that index is taken
    out, the other entries in their order and the length one less; with
    the index out of bounds, the list as it was.  Each handler changes its
    own list only. *)
Theorem remove_item_total (st : State) (index : Z) :
  let eq := removeEquipmentItem index st in
  let mt := removeMaterialItem index st in
  let cp := removeCheckpointItem index st in
  (((0 ≤ index < Z.of_nat (length (equipmentItems st)))%Z →
      equipmentItems eq = take (Z.to_nat index) (equipmentItems st)
                          ++ drop (S (Z.to_nat index)) (equipmentItems st)
      ∧ S (length (equipmentItems eq)) = length (equipmentItems st))
   ∧ ((index < 0 ∨ Z.of_nat (length (equipmentItems st)) ≤ index)%Z →
      equipmentItems eq = equipmentItems st))
  ∧ (((0 ≤ index < Z.of_nat (length (materialItems st)))%Z →
      materialItems mt = take (Z.to_nat index) (materialItems st)
                         ++ drop (S (Z.to_nat index)) (materialItems st)
      ∧ S (length (materialItems mt)) = length (materialItems st))
   ∧ ((index < 0 ∨ Z.of_nat (length (materialItems st)) ≤ index)%Z →
      materialItems mt = materialItems st))
  ∧ (((0 ≤ index < Z.of_nat (length (checkpointItems st)))%Z →
      checkpointItems cp = take (Z.to_nat index) (checkpointItems st)
                           ++ drop (S (Z.to_nat index)) (checkpointItems st)
      ∧ S (length (checkpointItems cp)) = length (checkpointItems st))
   ∧ ((index < 0 ∨ Z.of_nat (length (checkpointItems st)) ≤ index)%Z →
      checkpointItems cp = checkpointItems st))
  ∧ (sectionFields eq = sectionFields st
     ∧ materialItems eq = materialItems st
     ∧ checkpointItems eq = checkpointItems st)
  ∧ (sectionFields mt = sectionFields st
     ∧ equipmentItems mt = equipmentItems st
     ∧ checkpointItems mt = checkpointItems st)
  ∧ (sectionFields cp = sectionFields st
     ∧ equipmentItems cp = equipmentItems st
     ∧ materialItems cp = materialItems st).
Proof.
  intros eq mt cp.
  split; [apply (filter_index_removesAt index (equipmentItems st))|].
  split; [apply (filter_index_removesAt index (materialItems st))|].
  split; [apply (filter_index_removesAt index (checkpointItems st))|].
  repeat split.
Qed.

End Items.

(** ** Instances on sample inputs *)

Section Instances.

Import Orchestrator ComplianceValidator.


Lemma submit_rejects_empty_frameworks_witness :
  req_frameworks requestWithoutFrameworks = []
  ∧ submit requestWithoutFrameworks emptyStore = (emptyStore, inl InvalidRequest)
  ∧ RegulatoryFrameworkStep.submitDisabled true emptyForm = true
  ∧ generateDisabled true
      (validationEffect dataWithoutFrameworks initialReviewState) false = true.
Proof.
  split; [reflexivity|].
  destruct (submit_rejects_empty_frameworks requestWithoutFrameworks emptyStore
              eq_refl) as (Hsubmit & _ & Hform & Hgen).
  split; [exact Hsubmit|]. split.
  - apply (Hform emptyForm true). reflexivity.
  - apply (Hgen dataWithoutFrameworks initialReviewState true false).
    reflexivity.
Defined.

Lemma cleaning_scenario_witness :
  cleaningScenario (cleaningData ["Spray ball"])
  ∧ warnings (validate (cleaningData ["Spray ball"])) = 2
  ∧ complianceScore (checks (validate (cleaningData ["Spray ball"]))) = 90%Z
  ∧ ∃ st' id j',
      submit (requestOf (cleaningData ["Spray ball"])) emptyStore = (st', inr id)
      ∧ jobs st' !! id = Some (newJob id (requestOf (cleaningData ["Spray ball"])))
      ∧ advance engineSecondTry lowScoreValidator
          (newJob id (requestOf (cleaningData ["Spray ball"]))) = inr j'
      ∧ job_status j' = COMPLETED.
Proof.
  assert (Hsc : cleaningScenario (cleaningData ["Spray ball"])).
  { repeat split. }
  split; [exact Hsc|].
  destruct (cleaning_scenario (cleaningData ["Spray ball"]) Hsc)
    as (_ & _ & _ & Hw & _ & _ & _ & Hscore & _ & Hjob).
  assert (Heq : 1 ≤ equipmentCount (cleaningData ["Spray ball"])).
  { vm_compute. lia. }
  split; [apply Hw, Heq|]. split.
  - apply Hscore. split; [|exact Heq].
    repeat split; [discriminate | discriminate | by eexists | by eexists].
  - apply (Hjob ltac:(discriminate) engineSecondTry lowScoreValidator
             [("Purpose", "Cleaning.")]).
    exists 2. reflexivity.
Defined.

Lemma status_sequences_witness :
  [PENDING; COMPLETED; APPROVED]
    `sublist_of` lifetime 0 requestWithoutFrameworks
                   [OpStartProcessing;
                    OpFinishProcessing engineSecondTry lowScoreValidator;
                    OpReview approve]
  ∧ ∃ p, p ∈ canonicalPaths ∧ [PENDING; COMPLETED; APPROVED] `sublist_of` p.
Proof.
  assert (Hobs : [PENDING; COMPLETED; APPROVED]
    `sublist_of` lifetime 0 requestWithoutFrameworks
                   [OpStartProcessing;
                    OpFinishProcessing engineSecondTry lowScoreValidator;
                    OpReview approve]).
  { vm_compute.
    apply sublist_skip, sublist_cons, sublist_skip, sublist_skip, sublist_nil. }
  split; [exact Hobs|].
  destruct (status_sequences 0 requestWithoutFrameworks
              [OpStartProcessing;
               OpFinishProcessing engineSecondTry lowScoreValidator;
               OpReview approve]
              [PENDING; COMPLETED; APPROVED]) as (_ & _ & _ & Hseq).
  exact (Hseq Hobs).
Defined.

Lemma handleFrameworkToggle_spec_witness :
  RegulatoryFrameworkStep.handleFrameworkToggle FDA_21_CFR_211 sampleForm = sampleForm
  ∧ RegulatoryFrameworkStep.currentFrameworksOf
      (RegulatoryFrameworkStep.handleFrameworkToggle WHO_GMP sampleForm)
    = [FDA_21_CFR_211; ICH_Q7; EMA_GMP; ICH_Q7; WHO_GMP]
  ∧ RegulatoryFrameworkStep.currentFrameworksOf
      (RegulatoryFrameworkStep.handleFrameworkToggle ICH_Q7 sampleForm)
    = [FDA_21_CFR_211; EMA_GMP]
  ∧ FDA_21_CFR_211 ∈ RegulatoryFrameworkStep.currentFrameworksOf
      (RegulatoryFrameworkStep.handleFrameworkToggle ICH_Q7 sampleForm).
Proof.
  destruct (handleFrameworkToggle_spec FDA_21_CFR_211 sampleForm)
    as (Hmandatory & _).
  destruct (handleFrameworkToggle_spec WHO_GMP sampleForm)
    as (_ & Happend & _).
  destruct (handleFrameworkToggle_spec ICH_Q7 sampleForm)
    as (_ & _ & Hremove & _ & _ & Hkeep).
  split; [|split; [|split]].
  - apply Hmandatory.
    + apply markedMandatory_iff. reflexivity.
    + vm_compute. apply list_elem_of_here.
  - apply Happend. vm_compute. intros H.
    by apply (bool_decide_pack (WHO_GMP ∈ [FDA_21_CFR_211; ICH_Q7; EMA_GMP; ICH_Q7])) in H.
  - apply Hremove.
    + intros H. apply markedMandatory_iff in H. discriminate.
    + vm_compute. apply list_elem_of_further, list_elem_of_here.
  - apply Hkeep. vm_compute. apply list_elem_of_here.
Defined.

Lemma remove_item_total_witness :
  ContentDetailsStep.equipmentItems
    (ContentDetailsStep.removeEquipmentItem 1 sampleState)
  = ["Balance"; "Autoclave"]
  ∧ ContentDetailsStep.materialItems
      (ContentDetailsStep.removeMaterialItem 7 sampleState)
    = ["Ethanol"; "Wipes"; "Water"]
  ∧ ContentDetailsStep.checkpointItems
      (ContentDetailsStep.removeCheckpointItem (-1) sampleState)
    = ["Temperature verification"; "pH measurement"; "Visual inspection"].
Proof.
  destruct (remove_item_total sampleState 1) as ((Hin & _) & _).
  destruct (remove_item_total sampleState 7) as (_ & (_ & Hhigh) & _).
  destruct (remove_item_total sampleState (-1)) as (_ & _ & (_ & Hlow) & _).
  split; [|split].
  - apply Hin. simpl. lia.
  - apply Hhigh. simpl. lia.
  - apply Hlow. simpl. lia.
Defined.

End Instances.

(** ** The review step: counters, labels, summary *)

Section ReviewCard.

Import ReviewSummary.

(** The three outcomes partition any list of checks. *)
Lemma countStatus_partition cs :
  countStatus Pass cs + countStatus Fail cs + countStatus Warning cs = length cs.
Proof.
  induction cs as [|c cs IH]; [reflexivity|].
  rewrite !countStatus_cons. simpl. destruct (status c);
    repeat case_decide; try congruence; lia.
Qed.

(** X1. The three counters of the validation always add up to the seven
    checks; at most two checks fail and at most five give a warning, and
    the first two checks never give a warning. *)
Theorem validation_counters (data : SOPData) :
  passed (validate data) + failed (validate data) + warnings (validate data)
    = length (checks (validate data))
  ∧ length (checks (validate data)) = 7
  ∧ failed (validate data) ≤ 2
  ∧ warnings (validate data) ≤ 5
  ∧ (status <$> checks (validate data)) !! 0 ∈ [Some Pass; Some Fail]
  ∧ (status <$> checks (validate data)) !! 1 ∈ [Some Pass; Some Fail].
Proof.
  split; [apply countStatus_partition|]. split; [reflexivity|].
  pose proof (validate_counts data) as (_ & Hf & Hw).
  split; [exact Hf|]. split; [exact Hw|].
  unfold validate, buildChecks; simpl.
  split; case_match;
    repeat first [ apply list_elem_of_here | apply list_elem_of_further ].
Qed.

(** X2. For a framework with an entry in the label table of the review
    step (FDA 21 CFR 211, ICH Q7, WHO GMP, EMA GMP) the label shown is
    the label of its option in the framework step; for every other
    framework the raw value is shown.  So ISO 9001, which the framework
    step offers as "ISO 9001", is shown as "iso_9001". *)
Theorem getFrameworkLabel_options (opt : RegulatoryFrameworkStep.FrameworkOption) :
  opt ∈ RegulatoryFrameworkStep.frameworkOptions →
  (RegulatoryFrameworkStep.value opt ≠ ISO_9001 →
     getFrameworkLabel (RegulatoryFrameworkStep.value opt)
     = RegulatoryFrameworkStep.label opt)
  ∧ (RegulatoryFrameworkStep.value opt = ISO_9001 →
     RegulatoryFrameworkStep.label opt = "ISO 9001"
     ∧ getFrameworkLabel (RegulatoryFrameworkStep.value opt) = "iso_9001")
  ∧ (∀ framework,
       framework ∉ [FDA_21_CFR_211; ICH_Q7; WHO_GMP; EMA_GMP] →
       getFrameworkLabel framework = RegulatoryFramework_value framework).
Proof.
  intros Hin. unfold RegulatoryFrameworkStep.frameworkOptions in Hin.
  split; [|split].
  - repeat (apply elem_of_cons in Hin as [-> | Hin]; [simpl; try done|]).
    by apply elem_of_nil in Hin.
  - repeat (apply elem_of_cons in Hin as [-> | Hin]; [simpl; try done|]).
    by apply elem_of_nil in Hin.
  - intros framework Hnot.
    destruct framework; try reflexivity; exfalso; apply Hnot;
      repeat first [ apply list_elem_of_here | apply list_elem_of_further ].
Qed.

Lemma getFrameworkLabel_options_witness :
  getFrameworkLabel WHO_GMP = "WHO GMP"
  ∧ getFrameworkLabel ISO_9001 = "iso_9001"
  ∧ getFrameworkLabel ISO_13485 = "iso_13485".
Proof.
  assert (Hwho : {| RegulatoryFrameworkStep.value := WHO_GMP;
                    RegulatoryFrameworkStep.label := "WHO GMP";
                    RegulatoryFrameworkStep.description :=
                      "World Health Organization Good Manufacturing Practices";
                    RegulatoryFrameworkStep.region := "International";
                    RegulatoryFrameworkStep.mandatory := false;
                    RegulatoryFrameworkStep.details :=
                      [ "Quality assurance systems";
                        "Sanitation and hygiene standards";
                        "Qualification and validation";
                        "Complaints and product recalls" ] |}
                ∈ RegulatoryFrameworkStep.frameworkOptions).
  { do 2 apply list_elem_of_further. apply list_elem_of_here. }
  assert (Hiso : {| RegulatoryFrameworkStep.value := ISO_9001;
                    RegulatoryFrameworkStep.label := "ISO 9001";
                    RegulatoryFrameworkStep.description :=
                      "Quality management systems - Requirements";
                    RegulatoryFrameworkStep.region := "International";
                    RegulatoryFrameworkStep.mandatory := false;
                    RegulatoryFrameworkStep.details :=
                      [ "Quality management system requirements";
                        "Management responsibility";
                        "Resource management";
                        "Product realization and improvement" ] |}
                ∈ RegulatoryFrameworkStep.frameworkOptions).
  { do 4 apply list_elem_of_further. apply list_elem_of_here. }
  destruct (getFrameworkLabel_options _ Hwho) as (Hlabel & _ & Hraw).
  destruct (getFrameworkLabel_options _ Hiso) as (_ & Hiso9001 & _).
  split; [apply Hlabel; discriminate|].
  split; [apply Hiso9001; reflexivity|].
  apply Hraw. intros H.
  by apply (bool_decide_pack (ISO_13485 ∈ [FDA_21_CFR_211; ICH_Q7; WHO_GMP; EMA_GMP])) in H.
Defined.

Ltac pick_option l :=
  match l with
  | ?x :: ?r =>
      first [ exists x; split;
              [ repeat first [ apply list_elem_of_here | apply list_elem_of_further ]
              | split; reflexivity ]
            | pick_option r ]
  end.

(** X3. Every department and every priority has an option in the first
    step, and the review step shows it under the label of that option;
    the label is never the raw value. *)
Theorem department_priority_labels (dept : PharmaceuticalDepartment)
    (priority : SOPPriority) :
  (∃ opt, opt ∈ BasicInfoStep.departmentOptions
          ∧ BasicInfoStep.dept_value opt = dept
          ∧ getDepartmentLabel dept = BasicInfoStep.dept_label opt)
  ∧ (∃ opt, opt ∈ BasicInfoStep.priorityOptions
            ∧ BasicInfoStep.prio_value opt = priority
            ∧ getPriorityLabel priority = BasicInfoStep.prio_label opt)
  ∧ bool_decide (getDepartmentLabel dept = PharmaceuticalDepartment_value dept) = false
  ∧ bool_decide (getPriorityLabel priority = SOPPriority_value priority) = false.
Proof.
  split; [|split; [|split]].
  - let l := eval unfold BasicInfoStep.departmentOptions
             in BasicInfoStep.departmentOptions in
    destruct dept; pick_option l.
  - let l := eval unfold BasicInfoStep.priorityOptions
             in BasicInfoStep.priorityOptions in
    destruct priority; pick_option l.
  - by destruct dept.
  - by destruct priority.
Qed.

Lemma append_empty (a b : string) : a +:+ b = "" → a = "" ∧ b = "".
Proof. destruct a; simpl; [done|discriminate]. Qed.

(** Joining with ", " gives the empty string only for no title at all
    or for one empty title. *)
Lemma concat_empty (titles : list string) :
  String.concat ", " titles = "" ↔ titles = [] ∨ titles = [""].
Proof.
  split.
  - destruct titles as [|x [|y l]]; simpl; intros H.
    + by left.
    + right. by rewrite H.
    + apply append_empty in H as [_ H]. discriminate.
  - by intros [-> | ->].
Qed.

(** X4. The summary card shows the section titles joined by ", ", and
    "None defined" exactly when that text is empty: when the sections are
    missing, when there are none, and also when there is one section
    whose title is empty, although the card then counts one section. *)
Theorem sectionsShown_none (data : SOPData) :
  let titles := title <$> default [] (data_sections data) in
  (titles = [] ∨ titles = [""] → sectionsShown data = "None defined")
  ∧ (titles ≠ [] → titles ≠ [""] →
     sectionsShown data = String.concat ", " titles
     ∧ sectionsShown data ≠ "")
  ∧ (titles = [""] → sectionsCountShown data = 1).
Proof.
  intros titles. subst titles. unfold sectionsShown, sectionsCountShown.
  destruct (data_sections data) as [l|]; simpl.
  - split; [|split].
    + intros H. apply concat_empty in H. by rewrite H.
    + intros H1 H2.
      assert (Hne : String.concat ", " (title <$> l) ≠ "").
      { intros H. apply concat_empty in H as [H | H]; done. }
      rewrite truthy_string_spec, bool_decide_eq_true_2 by done. done.
    + intros H. by destruct l as [|s [|s' l]].
  - split; [done|]. split; [done|]. discriminate.
Qed.

Lemma sectionsShown_none_witness :
  sectionsShown (cleaningData []) =
    "Purpose, Scope, Responsibilities, Procedure, Documentation"
  ∧ sectionsShown dataOneUntitledSection = "None defined"
  ∧ sectionsCountShown dataOneUntitledSection = 1.
Proof.
  destruct (sectionsShown_none (cleaningData [])) as (_ & Hjoin & _).
  destruct (sectionsShown_none dataOneUntitledSection) as (Hnone & _ & Hcount).
  split; [apply Hjoin; discriminate|].
  split; [apply Hnone; by right | by apply Hcount].
Defined.

End ReviewCard.

(** ** The framework step: toggles and clicks *)

Section FrameworkToggles.

Import RegulatoryFrameworkStep FrameworkSelection.

(** The list after a toggle, by cases. *)
Lemma toggle_current (framework : RegulatoryFramework) (form : FormValues) :
  currentFrameworksOf (handleFrameworkToggle framework form) =
  if decide (framework ∈ currentFrameworksOf form) then
    if decide (framework = FDA_21_CFR_211) then currentFrameworksOf form
    else filter (λ f, f ≠ framework) (currentFrameworksOf form)
  else currentFrameworksOf form ++ [framework].
Proof.
  unfold handleFrameworkToggle. rewrite not_truthy_mandatory.
  destruct (decide (framework ∈ currentFrameworksOf form)) as [Hin|Hnin].
  - rewrite (bool_decide_eq_true_2 _ Hin).
    destruct (decide (framework = FDA_21_CFR_211)) as [Hm|Hm].
    + by rewrite bool_decide_eq_false_2 by (intros H; by apply H).
    + by rewrite (bool_decide_eq_true_2 _ Hm).
  - by rewrite (bool_decide_eq_false_2 _ Hnin).
Qed.

Lemma filter_ne_id (framework : RegulatoryFramework)
    (l : list RegulatoryFramework) :
  framework ∉ l → filter (λ f, f ≠ framework) l = l.
Proof.
  induction l as [|x l IH]; intros Hnin; [reflexivity|].
  apply not_elem_of_cons in Hnin as [Hne Hnin].
  rewrite filter_cons_True by congruence. by rewrite IH.
Qed.

(** X5. After a toggle of [framework], every other framework is selected
    exactly when it was before, and [framework] itself is selected
    exactly when it was not selected before or is FDA 21 CFR 211. *)
Theorem toggle_membership (framework g : RegulatoryFramework) (form : FormValues) :
  let current := currentFrameworksOf form in
  let next := currentFrameworksOf (handleFrameworkToggle framework form) in
  (g ≠ framework → (g ∈ next ↔ g ∈ current))
  ∧ (framework ∈ next ↔ framework ∉ current ∨ framework = FDA_21_CFR_211).
Proof.
  intros current next. subst next. rewrite toggle_current. fold current.
  destruct (decide (framework ∈ current)) as [Hin|Hnin];
    [destruct (decide (framework = FDA_21_CFR_211)) as [Hm|Hm]|].
  - split; [done|]. split; [by right | done].
  - split.
    + intros Hne. rewrite list_elem_of_filter. tauto.
    + rewrite list_elem_of_filter. split; [tauto|]. intros [H | H]; done.
  - split.
    + intros Hne. rewrite elem_of_app, list_elem_of_singleton. tauto.
    + rewrite elem_of_app, list_elem_of_singleton. split; [by left | by right].
Qed.

Lemma toggle_membership_witness :
  (EMA_GMP ∈ currentFrameworksOf (handleFrameworkToggle ICH_Q7 sampleForm)
   ↔ EMA_GMP ∈ currentFrameworksOf sampleForm)
  ∧ FDA_21_CFR_211 ∈ currentFrameworksOf (handleFrameworkToggle FDA_21_CFR_211 sampleForm).
Proof.
  destruct (toggle_membership ICH_Q7 EMA_GMP sampleForm) as (Hother & _).
  destruct (toggle_membership FDA_21_CFR_211 FDA_21_CFR_211 sampleForm) as (_ & Hself).
  split; [apply Hother; discriminate | apply Hself; by right].
Defined.

(** X6. A toggle keeps a selection free of duplicates. *)
Theorem toggle_NoDup (framework : RegulatoryFramework) (form : FormValues) :
  NoDup (currentFrameworksOf form) →
  NoDup (currentFrameworksOf (handleFrameworkToggle framework form)).
Proof.
  intros Hnd. rewrite toggle_current. repeat case_decide.
  - done.
  - by apply NoDup_filter.
  - apply NoDup_app. split; [done|]. split; [|apply NoDup_singleton].
    intros x Hx Hx'. apply list_elem_of_singleton in Hx'. by subst.
Qed.

Lemma toggle_NoDup_witness :
  NoDup (currentFrameworksOf emptyForm)
  ∧ NoDup (currentFrameworksOf (handleFrameworkToggle WHO_GMP emptyForm)).
Proof.
  assert (H : NoDup (currentFrameworksOf emptyForm)) by (simpl; apply NoDup_nil_2).
  split; [exact H | exact (toggle_NoDup WHO_GMP emptyForm H)].
Defined.

(** X7. Toggling twice a framework that was not selected gives the list
    back, unless the framework is FDA 21 CFR 211, which then stays at the
    end.  Toggling twice a selected framework other than FDA 21 CFR 211
    moves it: all its occurrences go and one comes back at the end. *)
Theorem toggle_twice (framework : RegulatoryFramework) (form : FormValues) :
  let current := currentFrameworksOf form in
  let twice :=
    currentFrameworksOf
      (handleFrameworkToggle framework (handleFrameworkToggle framework form)) in
  (framework ∉ current → framework ≠ FDA_21_CFR_211 → twice = current)
  ∧ (framework ∉ current → framework = FDA_21_CFR_211 →
     twice = current ++ [framework])
  ∧ (framework ∈ current → framework ≠ FDA_21_CFR_211 →
     twice = filter (λ f, f ≠ framework) current ++ [framework])
  ∧ (framework ∈ current → framework = FDA_21_CFR_211 → twice = current).
Proof.
  intros current twice. subst twice. rewrite !toggle_current. fold current.
  split; [|split; [|split]]; intros Hc Hm.
  - rewrite (decide_False _ _ Hc).
    rewrite decide_True by (apply elem_of_app; right; apply list_elem_of_here).
    rewrite (decide_False _ _ Hm).
    rewrite filter_app, filter_ne_id by done.
    rewrite filter_cons_False by (intros H; by apply H).
    by rewrite filter_nil, app_nil_r.
  - rewrite (decide_False _ _ Hc).
    rewrite decide_True by (apply elem_of_app; right; apply list_elem_of_here).
    by rewrite (decide_True _ _ Hm).
  - rewrite (decide_True _ _ Hc), (decide_False _ _ Hm).
    by rewrite decide_False by apply filter_ne_not_elem.
  - rewrite (decide_True _ _ Hc), (decide_True _ _ Hm).
    by rewrite (decide_True _ _ Hc), (decide_True _ _ Hm).
Qed.

Lemma toggle_twice_witness :
  currentFrameworksOf
    (handleFrameworkToggle WHO_GMP (handleFrameworkToggle WHO_GMP sampleForm))
  = currentFrameworksOf sampleForm
  ∧ currentFrameworksOf
      (handleFrameworkToggle FDA_21_CFR_211
         (handleFrameworkToggle FDA_21_CFR_211 emptyForm))
    = [FDA_21_CFR_211]
  ∧ currentFrameworksOf
      (handleFrameworkToggle ICH_Q7 (handleFrameworkToggle ICH_Q7 sampleForm))
    = [FDA_21_CFR_211; EMA_GMP; ICH_Q7]
  ∧ currentFrameworksOf
      (handleFrameworkToggle FDA_21_CFR_211
         (handleFrameworkToggle FDA_21_CFR_211 sampleForm))
    = currentFrameworksOf sampleForm.
Proof.
  destruct (toggle_twice WHO_GMP sampleForm) as (Hback & _).
  destruct (toggle_twice FDA_21_CFR_211 emptyForm) as (_ & Hstays & _).
  destruct (toggle_twice ICH_Q7 sampleForm) as (_ & _ & Hmoves & _).
  destruct (toggle_twice FDA_21_CFR_211 sampleForm) as (_ & _ & _ & Hsame).
  split; [|split; [|split]].
  - apply Hback; [|discriminate]. intros H.
    by apply (bool_decide_pack (WHO_GMP ∈ [FDA_21_CFR_211; ICH_Q7; EMA_GMP; ICH_Q7])) in H.
  - apply Hstays; [|reflexivity]. apply not_elem_of_nil.
  - apply Hmoves; [|discriminate].
    apply list_elem_of_further, list_elem_of_here.
  - apply Hsame; [|reflexivity]. apply list_elem_of_here.
Defined.

End FrameworkToggles.

Section FrameworkRuns.

Import RegulatoryFrameworkStep FrameworkSelection.

Lemma toggle_keeps_other (framework g : RegulatoryFramework) (form : FormValues) :
  g ≠ framework →
  g ∈ currentFrameworksOf (handleFrameworkToggle framework form)
  ↔ g ∈ currentFrameworksOf form.
Proof.
  intros Hne. rewrite toggle_current. repeat case_decide.
  - done.
  - rewrite list_elem_of_filter. tauto.
  - rewrite elem_of_app, list_elem_of_singleton. tauto.
Qed.

Lemma toggle_keeps_fda (framework : RegulatoryFramework) (form : FormValues) :
  FDA_21_CFR_211 ∈ currentFrameworksOf form →
  FDA_21_CFR_211 ∈ currentFrameworksOf (handleFrameworkToggle framework form).
Proof.
  intros Hin. destruct (decide (FDA_21_CFR_211 = framework)) as [<-|Hne].
  - rewrite toggle_current. by rewrite !decide_True.
  - by apply toggle_keeps_other.
Qed.

Lemma toggleAll_keeps_fda fs : ∀ form,
  FDA_21_CFR_211 ∈ currentFrameworksOf form →
  FDA_21_CFR_211 ∈ currentFrameworksOf (toggleAll fs form).
Proof.
  induction fs as [|f fs IH]; intros form Hin; [done|].
  apply (IH (handleFrameworkToggle f form)). by apply toggle_keeps_fda.
Qed.

(** X8. When FDA 21 CFR 211 is selected, it stays selected under every
    sequence of toggles; the selection is therefore never empty, the
    step's submit button depends on [canProceed] alone, the impact
    summary is shown, and the review step's checks "Regulatory
    Framework" and "Pharmaceutical Compliance" pass on that selection. *)
Theorem toggles_keep_baseline (fs : list RegulatoryFramework) (form : FormValues)
    (canProceed : bool) (data : SOPData) :
  FDA_21_CFR_211 ∈ currentFrameworksOf form →
  let form' := toggleAll fs form in
  FDA_21_CFR_211 ∈ currentFrameworksOf form'
  ∧ submitDisabled canProceed form' = negb canProceed
  ∧ summaryShown form' = true
  ∧ (data_frameworks data = Some (currentFrameworksOf form') →
     (status <$> checks (validate data)) !! 1 = Some Pass
     ∧ (status <$> checks (validate data)) !! 6 = Some Pass).
Proof.
  intros Hin form'.
  assert (Hfda : FDA_21_CFR_211 ∈ currentFrameworksOf form')
    by (by apply toggleAll_keeps_fda).
  assert (Hlen : 0 < length (currentFrameworksOf form')).
  { destruct (currentFrameworksOf form'); [by apply elem_of_nil in Hfda|].
    simpl. lia. }
  split; [done|]. split; [|split].
  - unfold submitDisabled.
    rewrite bool_decide_eq_false_2 by lia. apply orb_false_r.
  - unfold summaryShown. by apply bool_decide_eq_true_2.
  - intros Hd. unfold validate, buildChecks; simpl. rewrite Hd; simpl.
    by rewrite !bool_decide_eq_true_2.
Qed.

Lemma toggles_keep_baseline_witness :
  FDA_21_CFR_211 ∈ currentFrameworksOf
    (toggleAll [ICH_Q7; FDA_21_CFR_211; EMA_GMP] sampleForm)
  ∧ submitDisabled true (toggleAll [ICH_Q7; FDA_21_CFR_211; EMA_GMP] sampleForm)
    = false
  ∧ (status <$> checks (validate (cleaningData []))) !! 6 = Some Pass.
Proof.
  assert (Hin : FDA_21_CFR_211 ∈ currentFrameworksOf sampleForm)
    by apply list_elem_of_here.
  destruct (toggles_keep_baseline [ICH_Q7; FDA_21_CFR_211; EMA_GMP] sampleForm
              true (cleaningData []) Hin) as (Hfda & Hbutton & _ & Hchecks).
  split; [exact Hfda|]. split; [exact Hbutton|].
  apply Hchecks. reflexivity.
Defined.

(** The effect of one click, by the framework clicked. *)
Lemma clickCheckbox_cases (framework : RegulatoryFramework) (form : FormValues) :
  clickCheckbox framework form =
  if bool_decide (framework ∈ [ICH_Q7; WHO_GMP; EMA_GMP; ISO_9001])
  then handleFrameworkToggle framework form
  else form.
Proof. by destruct framework. Qed.

(** X9. Clicks on the checkboxes never change whether FDA 21 CFR 211 is
    selected (its checkbox is disabled), nor whether a framework without
    an option (ICH Q10, ISO 14001, ISO 13485) is: a selection that lacks
    the mandatory framework cannot be given it in this step. *)
Theorem clicks_fix_baseline (fs : list RegulatoryFramework) (form : FormValues)
    (g : RegulatoryFramework) :
  g ∈ [FDA_21_CFR_211; ICH_Q10; ISO_14001; ISO_13485] →
  g ∈ currentFrameworksOf (clickAll fs form) ↔ g ∈ currentFrameworksOf form.
Proof.
  intros Hg. revert form. induction fs as [|f fs IH]; intros form; [done|].
  change (clickAll (f :: fs) form) with (clickAll fs (clickCheckbox f form)).
  rewrite IH, clickCheckbox_cases. case_bool_decide as Hf; [|done].
  apply toggle_keeps_other. intros ->.
  revert Hg Hf. rewrite !elem_of_cons, !elem_of_nil.
  intros [-> | [-> | [-> | [-> | []]]]] [? | [? | [? | [? | []]]]]; discriminate.
Qed.

Lemma clicks_fix_baseline_witness :
  FDA_21_CFR_211 ∈ currentFrameworksOf
    (clickAll [FDA_21_CFR_211; WHO_GMP; FDA_21_CFR_211] emptyForm)
  ↔ FDA_21_CFR_211 ∈ currentFrameworksOf emptyForm.
Proof.
  apply (clicks_fix_baseline [FDA_21_CFR_211; WHO_GMP; FDA_21_CFR_211] emptyForm
           FDA_21_CFR_211).
  apply list_elem_of_here.
Defined.

End FrameworkRuns.

(** ** The content step: sections, items, submission *)

Section ContentRuns.

Import ContentDetailsStep ContentDetailsForm.

Lemma handle_section_frame ev st :
  equipmentItems (handle ev st) = equipmentItems st
  ∧ materialItems (handle ev st) = materialItems st
  ∧ checkpointItems (handle ev st) = checkpointItems st.
Proof. by destruct ev. Qed.

(** X10. The section list never becomes empty: under every run of Add
    Section and trash-button clicks, a list with at least one section
    keeps at least one (the trash buttons are not rendered for a single
    section), and the three item lists are not touched. *)
Theorem sections_never_empty (evs : list SectionEvent) (st : State) :
  1 ≤ length (sectionFields st) →
  1 ≤ length (sectionFields (run evs st))
  ∧ equipmentItems (run evs st) = equipmentItems st
  ∧ materialItems (run evs st) = materialItems st
  ∧ checkpointItems (run evs st) = checkpointItems st.
Proof.
  revert st. induction evs as [|ev evs IH]; intros st Hlen; [done|].
  simpl. destruct (rendered ev st) eqn:Hr; [|by apply IH].
  destruct (handle_section_frame ev st) as (He & Hm & Hc).
  destruct (IH (handle ev st)) as (Hlen' & He' & Hm' & Hc').
  - destruct ev as [|index]; simpl in *.
    + rewrite length_app. simpl. lia.
    + apply andb_prop in Hr as [H1 H2].
      apply bool_decide_eq_true in H1, H2.
      rewrite length_delete by (by apply lookup_lt_is_Some). lia.
  - split; [done|]. by rewrite He', Hm', Hc', He, Hm, Hc.
Qed.

Lemma sections_never_empty_witness :
  1 ≤ length (sectionFields (initialState emptyFormData))
  ∧ length (sectionFields
              (run [ClickRemoveSection 0; ClickRemoveSection 0; ClickRemoveSection 0;
                    ClickRemoveSection 0; ClickRemoveSection 0; ClickRemoveSection 0]
                 (initialState emptyFormData))) = 1.
Proof.
  assert (H : 1 ≤ length (sectionFields (initialState emptyFormData)))
    by (simpl; lia).
  split; [exact H|].
  destruct (sections_never_empty
              [ClickRemoveSection 0; ClickRemoveSection 0; ClickRemoveSection 0;
               ClickRemoveSection 0; ClickRemoveSection 0; ClickRemoveSection 0]
              (initialState emptyFormData) H) as (Hlen & _).
  reflexivity.
Defined.

Lemma filter_index_last {A} (l : list A) (x : A) :
  JS.filter_index (λ i, negb (Z.of_nat i =? Z.of_nat (length l))%Z) 0 (l ++ [x]) = l.
Proof.
  rewrite filter_index_delete, length_app. simpl.
  rewrite decide_True by lia.
  rewrite Nat2Z.id, Nat.sub_0_r, (delete_middle l [] x).
  apply app_nil_r.
Qed.

(** X11. Adding an item and then removing the item at the last index
    restores the state, for each of the three lists. *)
Theorem add_then_remove_last (st : State) :
  removeEquipmentItem (Z.of_nat (length (equipmentItems st))) (addEquipment st) = st
  ∧ removeMaterialItem (Z.of_nat (length (materialItems st))) (addMaterial st) = st
  ∧ removeCheckpointItem (Z.of_nat (length (checkpointItems st))) (addCheckpoint st) = st.
Proof.
  destruct st as [secs eq mt cp].
  unfold removeEquipmentItem, removeMaterialItem, removeCheckpointItem,
    addEquipment, addMaterial, addCheckpoint,
    setEquipmentItems, setMaterialItems, setCheckpointItems; simpl.
  by rewrite !filter_index_last.
Qed.

End ContentRuns.

Section ContentSubmission.

Import ContentDetailsStep ContentDetailsForm.

Lemma length_addSection st :
  length (sectionFields (addSection st)) = S (length (sectionFields st)).
Proof. unfold addSection, appendSection; simpl. rewrite length_app. simpl. lia. Qed.

(** X12. While sections are only added, or removed at the end, every
    section's [order] stays equal to its position: the [order] values
    read 1, 2, 3 and so on. *)
Theorem order_kept_at_the_end (evs : list SectionEvent) (st : State) :
  orderedByPosition (sectionFields st) →
  removesLastOnly evs (length (sectionFields st)) = true →
  orderedByPosition (sectionFields (run evs st))
  ∧ order <$> sectionFields (run evs st)
    = seq 1 (length (sectionFields (run evs st))).
Proof.
  intros Hord Hevs.
  assert (H : orderedByPosition (sectionFields (run evs st))).
  { revert st Hord Hevs. induction evs as [|ev evs IH]; intros st Hord Hevs; [done|].
    destruct ev as [|index].
    - change (run (ClickAddSection :: evs) st) with (run evs (addSection st)).
      change (removesLastOnly evs (S (length (sectionFields st))) = true) in Hevs.
      apply IH; [by apply addSection_ordered|].
      by rewrite length_addSection.
    - change (run (ClickRemoveSection index :: evs) st)
        with (run evs (if bool_decide (1 < length (sectionFields st))
                          && bool_decide (index < length (sectionFields st))
                       then removeSection index st else st)).
      change ((if bool_decide (1 < length (sectionFields st))
                  && bool_decide (index < length (sectionFields st))
               then bool_decide (index = length (sectionFields st) - 1)
                    && removesLastOnly evs (length (sectionFields st) - 1)
               else removesLastOnly evs (length (sectionFields st))) = true) in Hevs.
      destruct (bool_decide (1 < length (sectionFields st))
                && bool_decide (index < length (sectionFields st))) eqn:Hr.
      + apply andb_prop in Hevs as [Hlast Hrest].
        apply bool_decide_eq_true in Hlast. subst index.
        apply andb_prop in Hr as [H1 _]. apply bool_decide_eq_true in H1.
        apply IH; [by apply removeSection_last_ordered|].
        unfold removeSection; simpl. rewrite length_delete; [done|].
        apply lookup_lt_is_Some. lia.
      + by apply IH. }
  split; [exact H | by apply orderedByPosition_orders].
Qed.

Lemma order_kept_at_the_end_witness :
  order <$> sectionFields
    (run [ClickAddSection; ClickRemoveSection 5; ClickRemoveSection 4; ClickAddSection]
       (initialState emptyFormData))
  = [1; 2; 3; 4; 5].
Proof.
  destruct (order_kept_at_the_end
              [ClickAddSection; ClickRemoveSection 5; ClickRemoveSection 4; ClickAddSection]
              (initialState emptyFormData)) as (_ & Horders).
  - apply defaultSections_ordered.
  - reflexivity.
  - exact Horders.
Defined.

(** When a text passes its rules. *)
Lemma validateText_None rules v :
  ReactHookForm.validateText rules v = None ↔
  (v = "" ∧ ReactHookForm.required rules = None)
  ∨ (v ≠ "" ∧ ReactHookForm.exceeds (ReactHookForm.maxLength rules) v = false
     ∧ ReactHookForm.fallsShort (ReactHookForm.minLength rules) v = false).
Proof.
  unfold ReactHookForm.validateText.
  destruct (String.eqb_spec v "") as [->|Hne].
  - split; [by left|]. intros [[_ H] | [H _]]; done.
  - destruct (ReactHookForm.exceeds _ v), (ReactHookForm.fallsShort _ v);
      split; try discriminate; try (intros [[? _] | (_ & ? & ?)]; done).
    intros _. by right.
Qed.

Lemma length_nonempty (v : string) : 1 ≤ String.length v → v ≠ "".
Proof. intros H ->. simpl in H. lia. Qed.

Lemma sectionValid_spec s :
  sectionValid s = true ↔
  2 ≤ String.length (title s) ∧ String.length (content s) ≤ 2000.
Proof.
  unfold sectionValid, sectionErrors.
  destruct (ReactHookForm.validateText sectionTitleRules (title s)) as [e|] eqn:Et.
  - split; [discriminate|]. intros [Ht _].
    assert (H : ReactHookForm.validateText sectionTitleRules (title s) = None).
    { apply validateText_None. right. split; [apply length_nonempty; lia|].
      split; [reflexivity|]. simpl. apply bool_decide_eq_false_2. lia. }
    congruence.
  - apply validateText_None in Et as [[_ Et] | (Hne & _ & Et)]; [discriminate|].
    simpl in Et. apply bool_decide_eq_false in Et.
    destruct (ReactHookForm.validateText sectionContentRules (content s)) as [e|] eqn:Ec.
    + split; [discriminate|]. intros [_ Hc].
      assert (H : ReactHookForm.validateText sectionContentRules (content s) = None).
      { apply validateText_None.
        destruct (String.eqb_spec (content s) "") as [E|E]; [by left|].
        right. split; [done|]. split; [|reflexivity].
        simpl. apply bool_decide_eq_false_2. lia. }
      congruence.
    + split; [|done]. intros _. split; [lia|].
      apply validateText_None in Ec as [[-> _] | (_ & Ec & _)]; [simpl; lia|].
      simpl in Ec. apply bool_decide_eq_false in Ec. lia.
Qed.

Lemma content_submit_accepted canProceed duration safety st :
  clickSubmit canProceed duration safety st ≠ [] →
  canProceed = true
  ∧ Forall (λ s, 2 ≤ String.length (title s) ∧ String.length (content s) ≤ 2000)
      (sectionFields st)
  ∧ clickSubmit canProceed duration safety st
    = [OnUpdate (payload (formOf duration safety st) st); OnNext].
Proof.
  unfold clickSubmit, handleSubmit. destruct canProceed; [|done].
  destruct (formValid _) eqn:Hv; [|done]. intros _.
  split; [done|]. split; [|reflexivity].
  unfold formValid in Hv. simpl in Hv.
  apply andb_prop in Hv as [Hv _]. apply andb_prop in Hv as [Hv _].
  apply Forall_forall. intros s Hs. apply sectionValid_spec.
  rewrite forallb_forall in Hv. apply Hv. by apply list_elem_of_In.
Qed.

(** X13. The content step calls [onNext] only from its submit button,
    and only when the button is enabled and every section has a title of
    at least 2 characters and a content of at most 2000; it then calls
    [onUpdate] with the sections of the form and the three lists of the
    state, and [onNext]; a wizard that shows the content step with the
    button enabled is moved to the review by these calls and holds the
    sections and the three lists.  The subscription of the step hands
    every change of the form on without any check: a click on Add
    Section calls [onUpdate], and nothing else, with the section list
    that now ends in a section without title.  Right after it a click on
    the submit button calls nothing, and the data of the wizard so
    updated fails [validateStep(2)], so that the step cannot be left and
    [canGenerate] is false. *)
Theorem content_submit_checked (canProceed : bool) (duration safety : string)
    (st : State) :
  (OnNext ∈ clickSubmit canProceed duration safety st →
     canProceed = true
     ∧ Forall (λ s, 2 ≤ String.length (title s) ∧ String.length (content s) ≤ 2000)
         (sectionFields st)
     ∧ ∃ data,
         clickSubmit canProceed duration safety st = [OnUpdate data; OnNext]
         ∧ sections data = Some (sectionFields st)
         ∧ equipmentRequired data = Some (equipmentItems st)
         ∧ materialsRequired data = Some (materialItems st)
         ∧ qualityCheckpoints data = Some (checkpointItems st)
         ∧ ∀ wst : SOPCreationWizard.State,
             SOPCreationWizard.currentStep wst = 2 →
             SOPCreationWizard.canProceed wst = canProceed →
             let wst' := SOPCreationWizard.applyCalls
                           (SOPCreationWizard.ofContentCall
                            <$> clickSubmit canProceed duration safety st) wst in
             SOPCreationWizard.currentStep wst' = 3
             ∧ SOPCreationWizard.sections (SOPCreationWizard.wizardData wst')
               = sectionFields st
             ∧ SOPCreationWizard.equipmentRequired (SOPCreationWizard.wizardData wst')
               = equipmentItems st
             ∧ SOPCreationWizard.materialsRequired (SOPCreationWizard.wizardData wst')
               = materialItems st
             ∧ SOPCreationWizard.qualityCheckpoints (SOPCreationWizard.wizardData wst')
               = checkpointItems st)
  ∧ (∃ data,
       (clickAddSection duration safety st).2 = [OnUpdate data]
       ∧ sections data
         = Some (sectionFields st
                 ++ [mkSection "" "" (length (sectionFields st) + 1)])
       ∧ equipmentRequired data = Some (equipmentItems st)
       ∧ materialsRequired data = Some (materialItems st)
       ∧ qualityCheckpoints data = Some (checkpointItems st)
       ∧ ∀ w,
           let w' := SOPCreationWizard.updateWizardData
                       (SOPCreationWizard.ofContent data) w in
           SOPCreationWizard.sections w'
           = sectionFields st ++ [mkSection "" "" (length (sectionFields st) + 1)]
           ∧ SOPCreationWizard.validateStep w' 2 = false
           ∧ SOPCreationWizard.canGenerate w' = false)
  ∧ clickSubmit canProceed duration safety (clickAddSection duration safety st).1 = [].
Proof.
  split; [|split].
  - intros Hin.
    assert (Hne : clickSubmit canProceed duration safety st ≠ []).
    { intros E. rewrite E in Hin. by apply not_elem_of_nil in Hin. }
    destruct (content_submit_accepted _ _ _ _ Hne) as (Hcp & Hall & Hcalls).
    split; [done|]. split; [done|].
    eexists. split; [exact Hcalls|].
    do 4 (split; [reflexivity|]).
    intros wst Hstep Hproceed. rewrite Hcalls. simpl.
    unfold SOPCreationWizard.applyCalls; simpl.
    unfold SOPCreationWizard.handleNext.
    unfold SOPCreationWizard.canProceed in Hproceed.
    rewrite Hstep in Hproceed |- *. rewrite Hproceed, Hcp. simpl.
    split; [by rewrite Hstep|]. by repeat split.
  - eexists. split; [reflexivity|]. split; [reflexivity|].
    split; [reflexivity|]. split; [reflexivity|]. split; [reflexivity|].
    intros w w'.
    assert (Hs : SOPCreationWizard.sections w'
                 = sectionFields st
                   ++ [mkSection "" "" (length (sectionFields st) + 1)]).
    { reflexivity. }
    assert (H2 : SOPCreationWizard.validateStep w' 2 = false).
    { unfold SOPCreationWizard.validateStep. rewrite Hs, forallb_app.
      simpl. by rewrite !andb_false_r. }
    split; [done|]. split; [done|].
    unfold SOPCreationWizard.canGenerate. rewrite H2. apply andb_false_r.
  - unfold clickAddSection, clickSubmit, handleSubmit; simpl.
    destruct canProceed; [|done].
    unfold formValid, addSection, appendSection; simpl.
    rewrite forallb_app. simpl. by rewrite andb_false_r.
Qed.

Lemma content_submit_checked_witness :
  Forall (λ s, 2 ≤ String.length (title s) ∧ String.length (content s) ≤ 2000)
    (sectionFields (initialState emptyFormData))
  ∧ clickSubmit true "2 hours" "" (initialState emptyFormData)
    = [OnUpdate (payload (formOf "2 hours" "" (initialState emptyFormData))
                   (initialState emptyFormData));
       OnNext]
  ∧ clickSubmit true "2 hours" ""
      (clickAddSection "2 hours" "" (initialState emptyFormData)).1 = [].
Proof.
  destruct (content_submit_checked true "2 hours" "" (initialState emptyFormData))
    as (Hsub & _ & Hadd).
  destruct Hsub as (_ & Hall & data & Hcalls & _).
  { apply list_elem_of_further, list_elem_of_here. }
  split; [exact Hall|]. split; [reflexivity | exact Hadd].
Defined.

Lemma delete_insert_commute {A} (l : list A) : ∀ i j v,
  i ≠ j →
  delete j (<[i := v]> l) = <[(if bool_decide (i < j) then i else i - 1) := v]> (delete j l).
Proof.
  induction l as [|x l IH]; intros i j v Hne; [by destruct j|].
  destruct i as [|i], j as [|j]; try done; simpl.
  - by rewrite Nat.sub_0_r.
  - rewrite IH by lia.
    destruct (decide (i < j)) as [Hlt|Hge].
    + by rewrite !bool_decide_eq_true_2 by lia.
    + rewrite !bool_decide_eq_false_2 by lia.
      destruct i as [|i]; [lia|]. simpl. by rewrite Nat.sub_0_r.
Qed.

(** X14. An edit and a removal of another entry commute: editing entry
    [i] of the equipment list and then removing entry [j] gives the same
    list as removing [j] first and then editing the entry that was at
    [i], which has moved down by one when [j] was before it.  An edit of
    the entry that is then removed leaves no trace. *)
Theorem change_then_remove (i j : nat) (v : string) (st : State) :
  i < length (equipmentItems st) →
  (i ≠ j →
   removeEquipmentItem (Z.of_nat j) (changeEquipmentItem i v st)
   = changeEquipmentItem (if bool_decide (i < j) then i else i - 1) v
       (removeEquipmentItem (Z.of_nat j) st))
  ∧ removeEquipmentItem (Z.of_nat i) (changeEquipmentItem i v st)
    = removeEquipmentItem (Z.of_nat i) st.
Proof.
  intros _. destruct st as [secs eq mt cp].
  unfold removeEquipmentItem, changeEquipmentItem, changeItem, setEquipmentItems;
    simpl.
  rewrite !filter_index_delete, !length_insert.
  split.
  - intros Hne. f_equal. case_decide.
    + rewrite Nat2Z.id, Nat.sub_0_r. by apply delete_insert_commute.
    + case_bool_decide; [done|]. by rewrite !list_insert_ge by lia.
  - f_equal. case_decide; [|apply list_insert_ge; lia].
    rewrite Nat2Z.id, Nat.sub_0_r.
    rewrite !delete_take_drop, take_insert_ge, drop_insert_lt by lia. done.
Qed.

Lemma change_then_remove_witness :
  equipmentItems
    (removeEquipmentItem 0 (changeEquipmentItem 2 "Oven" sampleState))
  = ["pH Meter"; "Oven"].
Proof.
  destruct (change_then_remove 2 0 "Oven" sampleState) as (Hcomm & _);
    [simpl; lia|].
  assert (Hne : 2 ≠ 0) by lia.
  exact (f_equal equipmentItems (Hcomm Hne)).
Defined.

End ContentSubmission.

(** ** The first step and the review *)

Section BasicInfo.

Lemma validateChoice_None {A} message (v : option A) :
  ReactHookForm.validateChoice message v = None ↔ is_Some v.
Proof.
  destruct v as [a|]; simpl; split; intros H;
    first [ done | by eexists | by destruct H ].
Qed.

Lemma titleRules_None v :
  ReactHookForm.validateText BasicInfoStep.titleRules v = None ↔
  5 ≤ String.length v ≤ 200.
Proof.
  rewrite validateText_None. simpl. split.
  - intros [[_ H] | (_ & Hmax & Hmin)]; [discriminate|].
    apply bool_decide_eq_false in Hmax, Hmin. lia.
  - intros H. right. split; [apply length_nonempty; lia|].
    split; apply bool_decide_eq_false_2; lia.
Qed.

Lemma descriptionRules_None v :
  ReactHookForm.validateText BasicInfoStep.descriptionRules v = None ↔
  10 ≤ String.length v ≤ 2000.
Proof.
  rewrite validateText_None. simpl. split.
  - intros [[_ H] | (_ & Hmax & Hmin)]; [discriminate|].
    apply bool_decide_eq_false in Hmax, Hmin. lia.
  - intros H. right. split; [apply length_nonempty; lia|].
    split; apply bool_decide_eq_false_2; lia.
Qed.

Lemma basicInfo_checked canProceed formData :
  BasicInfoStep.clickSubmit canProceed formData ≠ [] →
  canProceed = true
  ∧ 5 ≤ String.length (BasicInfoStep.title formData) ≤ 200
  ∧ 10 ≤ String.length (BasicInfoStep.description formData) ≤ 2000
  ∧ is_Some (BasicInfoStep.department formData)
  ∧ is_Some (BasicInfoStep.priority formData)
  ∧ BasicInfoStep.clickSubmit canProceed formData
    = [BasicInfoStep.OnUpdate formData; BasicInfoStep.OnNext].
Proof.
  unfold BasicInfoStep.clickSubmit, BasicInfoStep.handleSubmit.
  destruct canProceed; [|done].
  unfold BasicInfoStep.noErrors, BasicInfoStep.validateForm; simpl.
  destruct (ReactHookForm.validateText BasicInfoStep.titleRules _) eqn:Et; [done|].
  destruct (ReactHookForm.validateText BasicInfoStep.descriptionRules _) eqn:Ed; [done|].
  destruct (ReactHookForm.validateChoice _ (BasicInfoStep.department formData))
    eqn:Edep; [done|].
  destruct (ReactHookForm.validateChoice _ (BasicInfoStep.priority formData))
    eqn:Eprio; [done|].
  intros _.
  apply titleRules_None in Et. apply descriptionRules_None in Ed.
  apply validateChoice_None in Edep, Eprio.
  repeat split; try done; lia.
Qed.

(** X15. The subscription of the first step hands every change of the
    form to the wizard as it is: [onUpdate] is called with the new
    values, valid or not, and [onNext] is not.  [onNext] is called only
    by a click on the submit button, and only when the button is enabled,
    the title has 5 to 200 characters, the description 10 to 2000 (both
    bounds included), and a department and a priority are chosen; the
    calls are then [onUpdate] with the form and [onNext].  A wizard that
    shows the first step with the button enabled is moved to the second
    step by these calls, holds the four values of the form, and the
    review step's check "Basic Information" passes on its data. *)
Theorem basic_info_handed_on (canProceed : bool) (e : BasicInfoStep.Event)
    (form : BasicInfoStep.BasicInfoFormData) :
  (∀ value,
     BasicInfoStep.handle canProceed (BasicInfoStep.Change value) form
     = (value, [BasicInfoStep.OnUpdate value]))
  ∧ (BasicInfoStep.OnNext ∈ (BasicInfoStep.handle canProceed e form).2 →
     e = BasicInfoStep.ClickSubmit
     ∧ canProceed = true
     ∧ 5 ≤ String.length (BasicInfoStep.title form) ≤ 200
     ∧ 10 ≤ String.length (BasicInfoStep.description form) ≤ 2000
     ∧ is_Some (BasicInfoStep.department form)
     ∧ is_Some (BasicInfoStep.priority form)
     ∧ BasicInfoStep.handle canProceed e form
       = (form, [BasicInfoStep.OnUpdate form; BasicInfoStep.OnNext])
     ∧ ∀ st : SOPCreationWizard.State,
         SOPCreationWizard.currentStep st = 0 →
         SOPCreationWizard.canProceed st = canProceed →
         let st' := SOPCreationWizard.applyCalls
                      (SOPCreationWizard.ofBasicInfoCall
                       <$> (BasicInfoStep.handle canProceed e form).2) st in
         SOPCreationWizard.currentStep st' = 1
         ∧ SOPCreationWizard.wizardData st'
           = SOPCreationWizard.updateWizardData
               (SOPCreationWizard.ofBasicInfo form) (SOPCreationWizard.wizardData st)
         ∧ (status <$> checks (validate (SOPCreationWizard.dataProp
                                           (SOPCreationWizard.wizardData st'))))
           !! 0 = Some Pass).
Proof.
  split; [reflexivity|].
  destruct e as [value|]; simpl.
  { intros Hin. apply list_elem_of_singleton in Hin. discriminate. }
  intros Hin.
  assert (Hne : BasicInfoStep.clickSubmit canProceed form ≠ []).
  { intros E. rewrite E in Hin. by apply not_elem_of_nil in Hin. }
  destruct (basicInfo_checked _ _ Hne) as (Hcp & Ht & Hd & Hdep & Hprio & Hcalls).
  split; [done|]. split; [done|]. split; [done|]. split; [done|].
  split; [done|]. split; [done|]. split; [by rewrite Hcalls|].
  intros st Hstep Hproceed. rewrite Hcalls. simpl.
  unfold SOPCreationWizard.applyCalls; simpl.
  unfold SOPCreationWizard.handleNext.
  unfold SOPCreationWizard.canProceed in Hproceed.
  rewrite Hstep in Hproceed |- *. rewrite Hproceed, Hcp. simpl.
  split; [by rewrite Hstep|]. split; [reflexivity|].
  unfold validate, buildChecks; simpl.
  rewrite basicInformationProvided_spec, bool_decide_eq_true_2; [done|].
  unfold requiredFieldsPresent; simpl.
  repeat split; try done; apply length_nonempty; lia.
Qed.

Lemma basic_info_handed_on_witness :
  BasicInfoStep.handle true BasicInfoStep.ClickSubmit sampleBasicInfo
  = (sampleBasicInfo, [BasicInfoStep.OnUpdate sampleBasicInfo; BasicInfoStep.OnNext])
  ∧ SOPCreationWizard.currentStep
      (SOPCreationWizard.applyCalls
         (SOPCreationWizard.ofBasicInfoCall
          <$> (BasicInfoStep.handle true BasicInfoStep.ClickSubmit sampleBasicInfo).2)
         {| SOPCreationWizard.currentStep := 0;
            SOPCreationWizard.wizardData := cleaningWizardData |}) = 1.
Proof.
  destruct (basic_info_handed_on true BasicInfoStep.ClickSubmit sampleBasicInfo)
    as (_ & Hnext).
  destruct Hnext as (_ & _ & _ & _ & _ & _ & Hcalls & Hwizard).
  { apply list_elem_of_further, list_elem_of_here. }
  split; [exact Hcalls|].
  apply (Hwizard {| SOPCreationWizard.currentStep := 0;
                    SOPCreationWizard.wizardData := cleaningWizardData |});
    reflexivity.
Defined.

End BasicInfo.

(** ** The API service *)

Section Service.

Import APIService.

Lemma makeRequest_frame server endpoint options s :
  authToken (makeRequest server endpoint options s).1 = authToken s
  ∧ localStorage (makeRequest server endpoint options s).1 = localStorage s.
Proof. unfold makeRequest. by destruct (attempt _ _ _). Qed.

Lemma makeRequest_sent server endpoint options s :
  requests (makeRequest server endpoint options s).1
  = requests s ++ [(baseURL +:+ endpoint, configOf options s)].
Proof. unfold makeRequest. by destruct (attempt _ _ _). Qed.

Lemma makeRequest_console server endpoint options s :
  console (makeRequest server endpoint options s).1 =
  match (makeRequest server endpoint options s).2 with
  | inl e => console s ++ [ConsoleError ("API Error (" +:+ endpoint +:+ "):") e]
  | inr _ => console s
  end.
Proof. unfold makeRequest. by destruct (attempt _ _ _). Qed.




(** X17. The headers always carry the JSON content type, and they carry
    an Authorization header exactly when a token is set and is not
    empty; its value is then "Bearer " followed by the token. *)
Theorem auth_header_iff (s : Service) (v : string) :
  ("Content-Type", "application/json") ∈ getAuthHeaders s
  ∧ (("Authorization", v) ∈ getAuthHeaders s ↔
     ∃ token, authToken s = Some token ∧ token ≠ "" ∧ v = "Bearer " +:+ token).
Proof.
  unfold getAuthHeaders, hasToken. split; [apply list_elem_of_here|].
  destruct (authToken s) as [token|]; simpl.
  - rewrite truthy_string_spec. case_bool_decide as Ht; simpl.
    + rewrite !elem_of_cons, elem_of_nil. split.
      * intros [H | [H | []]]; [discriminate|]. inversion H; subst. by exists token.
      * intros (t & Ht' & _ & ->). inversion Ht'; subst. by right; left.
    + rewrite list_elem_of_singleton. split; [discriminate|].
      intros (t & Ht' & Hne & _). inversion Ht'; subst. done.
  - rewrite list_elem_of_singleton. split; [discriminate|].
    by intros (t & Ht' & _).
Qed.

Lemma auth_header_iff_witness :
  ("Authorization", "Bearer abc") ∈ getAuthHeaders (setAuthToken "abc" (construct ∅)).
Proof.
  destruct (auth_header_iff (setAuthToken "abc" (construct ∅)) "Bearer abc")
    as (_ & Hiff).
  apply Hiff. exists "abc". repeat split. discriminate.
Defined.

(** X18. Every method that sends a JSON request sends exactly one
    request: the URL given to [fetch] is the string "/api/v1" followed by
    the endpoint of the method (for [getSOPStatus], "/sops/" followed by
    the job id as it is), with the method and the body of the call and
    the headers of [getAuthHeaders].  When the method returns, nothing is
    written to the console.  When it throws, what is thrown has been
    written to the console with the endpoint, with one exception:
    [getDemoAuthToken] reads the token off the body outside
    [makeRequest], and the [TypeError] it throws there, as on the body
    [null], is not written.  No method but [getDemoAuthToken] changes the
    token or the storage. *)
Theorem calls_send_auth_headers (server : Server) (c : Call) (s : Service) :
  let s' := (perform server c s).1 in
  let line e := ConsoleError ("API Error (" +:+ endpointOf c +:+ "):") e in
  requests s'
  = requests s
    ++ [(baseURL +:+ endpointOf c,
         {| method := methodOf c; body := bodyOf c;
            headers := Some (getAuthHeaders s) |})]
  ∧ (∀ result, (perform server c s).2 = inr result → console s' = console s)
  ∧ (∀ e, (perform server c s).2 = inl e →
       console s' = console s ++ [line e]
       ∨ (c = CallGetDemoAuthToken ∧ e = TypeError ∧ console s' = console s))
  ∧ (c ≠ CallGetDemoAuthToken →
     (∀ e, (perform server c s).2 = inl e → console s' = console s ++ [line e])
     ∧ authToken s' = authToken s
     ∧ localStorage s' = localStorage s)
  ∧ (c = CallGetDemoAuthToken →
     ∀ response,
       server (baseURL +:+ endpointOf c)
         {| method := methodOf c; body := bodyOf c;
            headers := Some (getAuthHeaders s) |}
       = Resolved response →
       ok response = true → json response = Some JSON.JNull →
       (perform server c s).2 = inl TypeError ∧ console s' = console s).
Proof.
  intros s' line. subst s' line.
  destruct c; simpl;
    unfold getDemoStatus, createSOP, getSOPStatus, healthCheck, detailedHealthCheck.
  2-6: split; [apply makeRequest_sent|];
       match goal with
       | |- context [makeRequest ?sv ?e ?o ?s0] =>
           pose proof (makeRequest_console sv e o s0) as Hcons;
           pose proof (makeRequest_frame sv e o s0) as Hframe;
           destruct (makeRequest sv e o s0) as [s1 [e'|r]]; cbn [fst snd] in *
       end;
       (split; [by intros ? [=]|]); (split; [intros ? [= <-]; by left|]);
       (split; [intros _; split; [by intros ? [= <-] | exact Hframe]|]);
       by intros [=].
  unfold getDemoAuthToken.
  pose proof (makeRequest_sent server "/demo/demo-auth"
    {| method := Some "POST"; body := None; headers := None |} s) as Hsent.
  pose proof (makeRequest_console server "/demo/demo-auth"
    {| method := Some "POST"; body := None; headers := None |} s) as Hcons.
  unfold makeRequest, attempt in *. unfold configOf in *. simpl in *.
  destruct (server _ _) as [|response]; cbn [fst snd] in *.
  { split; [exact Hsent|]. split; [by intros ? [=]|].
    split; [intros ? [= <-]; by left|]. split; [done|]. by intros _ ? [=]. }
  destruct (ok response) eqn:Hok; cbn [negb fst snd] in *.
  2:{ split; [exact Hsent|]. split; [by intros ? [=]|].
      split; [intros ? [= <-]; by left|]. split; [done|].
      intros _ ? [= <-] ?. congruence. }
  destruct (json response) as [result|] eqn:Hjson; cbn [fst snd] in *.
  2:{ split; [exact Hsent|]. split; [by intros ? [=]|].
      split; [intros ? [= <-]; by left|]. split; [done|].
      intros _ ? [= <-] _ ?. congruence. }
  assert (Hnull : ∀ r, Resolved response = Resolved r →
                       json r = Some JSON.JNull → result = JSON.JNull).
  { intros r [= <-] H. congruence. }
  destruct (JSON.getProp "access_token" result) as [| |token] eqn:Hp;
    cbn [fst snd].
  - split; [exact Hsent|]. split; [by intros ? [=]|].
    split; [intros ? [= <-]; by right|]. split; [done|]. by intros _ ? _ _ _.
  - split; [exact Hsent|]. split; [by intros ? [=]|].
    split; [by intros ? [=]|]. split; [done|].
    intros _ r Hr _ Hj. rewrite (Hnull r Hr Hj) in Hp. discriminate.
  - destruct (JSON.truthy token); [destruct (JSON.toString token)|]; cbn [fst snd].
    + split; [exact Hsent|]. split; [by intros ? [=]|].
      split; [by intros ? [=]|]. split; [done|].
      intros _ r Hr _ Hj. rewrite (Hnull r Hr Hj) in Hp. discriminate.
    + split; [exact Hsent|]. split; [by intros ? [=]|].
      split; [intros ? [= <-]; by right|]. split; [done|]. by intros _ ? _ _ _.
    + split; [exact Hsent|]. split; [by intros ? [=]|].
      split; [by intros ? [=]|]. split; [done|].
      intros _ r Hr _ Hj. rewrite (Hnull r Hr Hj) in Hp. discriminate.
Qed.

Lemma calls_send_auth_headers_witness :
  requests (perform refusingServer (CallCreateSOP "{}") (setAuthToken "abc" (construct ∅))).1
  = [("/api/v1/sops",
      {| method := Some "POST"; body := Some "{}";
         headers := Some [("Content-Type", "application/json");
                          ("Authorization", "Bearer abc")] |})]
  ∧ authToken (perform refusingServer (CallCreateSOP "{}")
                 (setAuthToken "abc" (construct ∅))).1 = Some "abc"
  ∧ console (perform refusingServer (CallCreateSOP "{}")
               (setAuthToken "abc" (construct ∅))).1
    = [ConsoleError "API Error (/sops):" (Error "Title too short")]
  ∧ (perform nullServer CallGetDemoAuthToken (construct ∅)).2 = inl TypeError
  ∧ console (perform nullServer CallGetDemoAuthToken (construct ∅)).1 = [].
Proof.
  destruct (calls_send_auth_headers refusingServer (CallCreateSOP "{}")
              (setAuthToken "abc" (construct ∅)))
    as (Hsent & _ & _ & Hother & _).
  destruct (calls_send_auth_headers nullServer CallGetDemoAuthToken (construct ∅))
    as (_ & _ & _ & _ & Hnull).
  split; [exact Hsent|].
  destruct Hother as (Hcons & Htoken & _); [discriminate|].
  split; [rewrite Htoken; reflexivity|].
  split; [apply (Hcons (Error "Title too short")); reflexivity|].
  apply (Hnull eq_refl
           {| ok := true; status := 200; statusText := "OK";
              json := Some JSON.JNull |}); reflexivity.
Defined.

(** X19. [makeRequest] returns a body exactly when [fetch] resolves to a
    response that is [ok] and whose body is JSON, and it then returns
    that body, whatever JSON value it is.  For a response that is not
    [ok]: when the body is [null], reading its [message] throws a
    [TypeError]; when the body has a truthy [message], an error is thrown
    whose message is the text of that value (the string itself when it
    is a string), or a [TypeError] when the value has no text; in every
    other case (the body is not JSON, is no object, has no [message], or
    a falsy one) the error says "HTTP", the status and the status text.
    A rejected [fetch] is thrown again.  Whatever is thrown has been
    written to the console. *)
Theorem makeRequest_outcome (server : Server) (endpoint : string)
    (options : RequestInit) (s : Service) :
  let result := (makeRequest server endpoint options s).2 in
  let answer := server (baseURL +:+ endpoint) (configOf options s) in
  (∀ b, result = inr b ↔
        ∃ response, answer = Resolved response
                    ∧ ok response = true ∧ json response = Some b)
  ∧ (∀ response, answer = Resolved response → ok response = false →
       (json response = Some JSON.JNull → result = inl TypeError)
       ∧ (∀ fields m, json response = Some (JSON.JObject fields) →
            JSON.lookup "message" fields = Some (JSON.JString m) → m ≠ "" →
            result = inl (Error m))
       ∧ (∀ fields m, json response = Some (JSON.JObject fields) →
            JSON.lookup "message" fields = Some m → JSON.truthy m = true →
            result = inl (match JSON.toString m with
                          | Some text => Error text
                          | None => TypeError
                          end))
       ∧ (∀ fields, json response = Some (JSON.JObject fields) →
            (JSON.lookup "message" fields = None
             ∨ ∃ m, JSON.lookup "message" fields = Some m ∧ JSON.truthy m = false) →
            result = inl (Error ("HTTP " +:+ pretty (status response) +:+ ": "
                                 +:+ statusText response)))
       ∧ ((json response = None
           ∨ ∃ b, json response = Some b ∧ b ≠ JSON.JNull
                  ∧ ∀ fields, b ≠ JSON.JObject fields) →
          result = inl (Error ("HTTP " +:+ pretty (status response) +:+ ": "
                               +:+ statusText response))))
  ∧ (answer = Rejected → result = inl FetchRejection)
  ∧ (∀ e, result = inl e →
       console (makeRequest server endpoint options s).1
       = console s ++ [ConsoleError ("API Error (" +:+ endpoint +:+ "):") e]).
Proof.
  intros result answer. subst result answer.
  pose proof (makeRequest_console server endpoint options s) as Hcons.
  unfold makeRequest, attempt in *.
  destruct (server _ _) as [|response] eqn:Hserver; cbn [fst snd] in *.
  - split; [|split; [done|split; [done|]]].
    + intros b. split; [discriminate|]. by intros (r & Hr & _).
    + by intros e [= <-].
  - split; [|split; [|split; [discriminate|]]].
    + intros b. destruct (ok response) eqn:Hok; simpl.
      * destruct (json response) as [b'|] eqn:Hj; simpl.
        -- split.
           ++ intros H. inversion H; subst. by exists response.
           ++ intros (r & Hr & _ & Hb). inversion Hr; subst. congruence.
        -- split; [discriminate|].
           intros (r & Hr & _ & Hb). inversion Hr; subst. congruence.
      * split; [discriminate|].
        intros (r & Hr & Hok' & _). inversion Hr; subst. congruence.
    + intros r Hr Hok. inversion Hr; subst r. rewrite Hok; simpl.
      unfold notOkThrown, httpMessage.
      split; [by intros ->|]. split.
      { intros fields m -> Hm Hne. simpl. rewrite Hm. simpl.
        by rewrite truthy_string_spec, bool_decide_eq_true_2. }
      split.
      { intros fields m -> Hm Ht. simpl. rewrite Hm, Ht.
        by destruct (JSON.toString m). }
      split.
      { intros fields -> [Hm | (m & Hm & Ht)]; simpl; rewrite Hm; [done|].
        by rewrite Ht. }
      intros [-> | (b & -> & Hnull & Hobj)]; [done|].
      destruct b; simpl; try done. by destruct (Hobj fields).
    + destruct (negb (ok response)); cbn [fst snd] in *.
      * by intros e [= <-].
      * destruct (json response); cbn [fst snd] in *; [done|]. by intros e [= <-].
Qed.

Lemma makeRequest_outcome_witness :
  (makeRequest refusingServer "/sops" noOptions (construct ∅)).2
  = inl (Error "Title too short")
  ∧ console (makeRequest refusingServer "/sops" noOptions (construct ∅)).1
    = [ConsoleError "API Error (/sops):" (Error "Title too short")].
Proof.
  destruct (makeRequest_outcome refusingServer "/sops" noOptions (construct ∅))
    as (_ & Hrefused & _ & Hlogged).
  destruct (Hrefused
              {| ok := false; status := 422; statusText := "Unprocessable Entity";
                 json := Some (JSON.JObject
                                 [("message", JSON.JString "Title too short")]) |})
    as (_ & Hmessage & _); [reflexivity | reflexivity |].
  assert (H : (makeRequest refusingServer "/sops" noOptions (construct ∅)).2
              = inl (Error "Title too short")).
  { apply (Hmessage [("message", JSON.JString "Title too short")] "Title too short").
    - reflexivity.
    - reflexivity.
    - discriminate. }
  split; [exact H|]. apply (Hlogged _ H).
Defined.

(** X20. [initializeDemo] with a token that is set and not empty sends
    nothing and returns true.  Without one it sends exactly one request.
    When the request throws, it returns false and the console holds the
    error of the request and the warning.  When the request returns the
    body [null], reading the token throws: it returns false, and only
    the warning is written.  When the request returns a body without
    [access_token], or with a falsy one, it returns true and still has no
    token.  When the body has an [access_token] that is a string and not
    empty, it returns true and holds that token, which is also in the
    storage. *)
Theorem initializeDemo_cases (server : Server) (s : Service) :
  let answer :=
    makeRequest server "/demo/demo-auth"
      {| method := Some "POST"; body := None; headers := None |} s in
  let after := initializeDemo server s in
  (hasToken s = true → after = (s, true))
  ∧ (hasToken s = false →
     length (requests after.1) = S (length (requests s))
     ∧ (∀ e, answer.2 = inl e →
          after.2 = false
          ∧ hasToken after.1 = false
          ∧ console after.1
            = console s ++ [ConsoleError "API Error (/demo/demo-auth):" e;
                            ConsoleWarn "Failed to initialize demo auth:" e])
     ∧ (answer.2 = inr JSON.JNull →
          after.2 = false
          ∧ hasToken after.1 = false
          ∧ console after.1
            = console s ++ [ConsoleWarn "Failed to initialize demo auth:" TypeError])
     ∧ (∀ result, answer.2 = inr result →
          (JSON.getProp "access_token" result = JSON.PropUndefined
           ∨ ∃ v, JSON.getProp "access_token" result = JSON.PropValue v
                  ∧ JSON.truthy v = false) →
          after.2 = true
          ∧ hasToken after.1 = false
          ∧ console after.1 = console s)
     ∧ (∀ result token, answer.2 = inr result →
          JSON.getProp "access_token" result = JSON.PropValue (JSON.JString token) →
          token ≠ "" →
          after.2 = true
          ∧ authToken after.1 = Some token
          ∧ localStorage after.1 !! "demo_auth_token" = Some token
          ∧ console after.1 = console s)).
Proof.
  intros answer after. subst answer after. unfold initializeDemo.
  split; [by intros ->|].
  intros Hno. rewrite Hno. cbn [negb].
  pose proof (makeRequest_sent server "/demo/demo-auth"
    {| method := Some "POST"; body := None; headers := None |} s) as Hsent.
  pose proof (makeRequest_frame server "/demo/demo-auth"
    {| method := Some "POST"; body := None; headers := None |} s) as [Htok _].
  pose proof (makeRequest_console server "/demo/demo-auth"
    {| method := Some "POST"; body := None; headers := None |} s) as Hcons.
  unfold getDemoAuthToken.
  assert (Hlen : ∀ s1, requests s1 = requests s ++ [(baseURL +:+ "/demo/demo-auth",
                   configOf {| method := Some "POST"; body := None; headers := None |} s)] →
                 length (requests s1) = S (length (requests s))).
  { intros s1 ->. rewrite length_app. simpl. lia. }
  destruct (makeRequest _ _ _ s) as [s1 [e|result]] eqn:Hm; cbn [fst snd] in *.
  - split; [by apply Hlen|]. split.
    { intros e' [= <-]. split; [done|]. split.
      - unfold hasToken in *. simpl. by rewrite Htok.
      - simpl. rewrite Hcons. by rewrite <- app_assoc. }
    split; [discriminate|]. split; [discriminate|]. discriminate.
  - assert (Hno1 : hasToken s1 = false).
    { unfold hasToken in *. by rewrite Htok. }
    destruct (JSON.getProp "access_token" result) as [| |token] eqn:Hp;
      cbn [fst snd].
    + split; [by apply Hlen|]. split; [discriminate|].
      split.
      { intros _. split; [done|]. split; [exact Hno1|]. simpl. by rewrite Hcons. }
      split.
      { intros r [= <-] [H | (v & H & _)]; congruence. }
      intros r t [= <-] H. congruence.
    + split; [by apply Hlen|]. split; [discriminate|].
      split; [intros [= ->]; simpl in Hp; congruence|].
      split.
      { intros r [= <-] _. by repeat split. }
      intros r t [= <-] H. congruence.
    + destruct (JSON.truthy token) eqn:Ht;
        [destruct (JSON.toString token) as [text|] eqn:Etext|]; cbn [fst snd].
      * split; [simpl; by apply Hlen|]. split; [discriminate|].
        split; [intros [= ->]; simpl in Hp; congruence|].
        split.
        { intros r [= <-] [H | (v & H & Hv)]; [congruence|].
          rewrite Hp in H. inversion H; subst. congruence. }
        intros r t [= <-] H Hne. rewrite Hp in H. inversion H; subst.
        simpl in Etext. inversion Etext; subst.
        split; [done|]. split; [done|].
        split; [simpl; apply lookup_insert_eq|]. simpl. exact Hcons.
      * split; [by apply Hlen|]. split; [discriminate|].
        split; [intros [= ->]; simpl in Hp; congruence|].
        split.
        { intros r [= <-] [H | (v & H & Hv)]; [congruence|].
          rewrite Hp in H. inversion H; subst. congruence. }
        intros r t [= <-] H Hne. rewrite Hp in H. inversion H; subst.
        simpl in Etext. discriminate.
      * split; [by apply Hlen|]. split; [discriminate|].
        split; [intros [= ->]; simpl in Hp; congruence|].
        split.
        { intros r [= <-] _. by repeat split. }
        intros r t [= <-] H Hne. rewrite Hp in H. inversion H; subst.
        simpl in Ht.
        rewrite truthy_string_spec in Ht. apply bool_decide_eq_false in Ht.
        exfalso. by apply Ht.
Qed.

Lemma initializeDemo_cases_witness :
  initializeDemo refusingServer (setAuthToken "abc" (construct ∅))
  = (setAuthToken "abc" (construct ∅), true)
  ∧ (initializeDemo refusingServer (construct ∅)).2 = false
  ∧ (initializeDemo nullServer (construct ∅)).2 = false
  ∧ console (initializeDemo nullServer (construct ∅)).1
    = [ConsoleWarn "Failed to initialize demo auth:" TypeError]
  ∧ authToken (initializeDemo tokenServer (construct ∅)).1 = Some "abc".
Proof.
  destruct (initializeDemo_cases refusingServer (setAuthToken "abc" (construct ∅)))
    as (Hhas & _).
  destruct (initializeDemo_cases refusingServer (construct ∅)) as (_ & Hrefused).
  destruct (initializeDemo_cases nullServer (construct ∅)) as (_ & Hnull).
  destruct (initializeDemo_cases tokenServer (construct ∅)) as (_ & Htoken).
  split; [apply Hhas; reflexivity|]. split.
  { destruct (Hrefused eq_refl) as (_ & Hthrow & _).
    apply (Hthrow (Error "Title too short")). reflexivity. }
  destruct (Hnull eq_refl) as (_ & _ & Hn & _).
  destruct (Hn eq_refl) as (Hfalse & _ & Hwarn).
  split; [exact Hfalse|]. split; [exact Hwarn|].
  destruct (Htoken eq_refl) as (_ & _ & _ & _ & Hstring).
  apply (Hstring (JSON.JObject [("access_token", JSON.JString "abc")]) "abc").
  - reflexivity.
  - reflexivity.
  - discriminate.
Defined.

End Service.

(** ** The start-up script *)

Section StartupReport.

Import Startup.

Lemma exportDefault_lookup_eq name fallback env :
  exportDefault name fallback env !! name = Some (exportedValue env name fallback).
Proof.
  unfold exportDefault, exportedValue.
  destruct (env !! name) as [v|] eqn:E; [|apply lookup_insert_eq].
  destruct (String.eqb v ""); [apply lookup_insert_eq | exact E].
Qed.

Lemma exportDefault_lookup_ne name fallback env k :
  k ≠ name → exportDefault name fallback env !! k = env !! k.
Proof.
  intros Hne. unfold exportDefault.
  destruct (env !! name) as [v|]; [destruct (String.eqb v "")|];
    try done; by apply lookup_insert_ne.
Qed.

Lemma exportedValue_ne k name fallback fallback' env :
  k ≠ name →
  exportedValue (exportDefault name fallback env) k fallback'
  = exportedValue env k fallback'.
Proof.
  intros Hne. unfold exportedValue. by rewrite exportDefault_lookup_ne.
Qed.

(** The four variables after the exports. *)
Lemma exportCompliance_lookup env name fallback :
  (name, fallback) ∈ complianceDefaults →
  exportCompliance env !! name = Some (exportedValue env name fallback).
Proof.
  unfold complianceDefaults, exportCompliance.
  rewrite !elem_of_cons, elem_of_nil.
  intros [H | [H | [H | [H | []]]]]; inversion H; subst; clear H.
  - do 3 (rewrite exportDefault_lookup_ne by discriminate).
    apply exportDefault_lookup_eq.
  - do 2 (rewrite exportDefault_lookup_ne by discriminate).
    rewrite exportDefault_lookup_eq. f_equal.
    by rewrite exportedValue_ne by discriminate.
  - rewrite exportDefault_lookup_ne by discriminate.
    rewrite exportDefault_lookup_eq. f_equal.
    by rewrite !exportedValue_ne by discriminate.
  - rewrite exportDefault_lookup_eq. f_equal.
    by rewrite !exportedValue_ne by discriminate.
Qed.

Lemma exportedValue_cases env name fallback :
  fallback ≠ "" →
  exportedValue env name fallback ≠ ""
  ∧ (env !! name = Some (exportedValue env name fallback)
     ∨ ((env !! name = None ∨ env !! name = Some "")
        ∧ exportedValue env name fallback = fallback)).
Proof.
  intros Hf. unfold exportedValue.
  destruct (env !! name) as [v|]; [|split; [done | right; split; [by left | done]]].
  destruct (String.eqb_spec v "") as [->|Hne].
  - split; [done|]. right. split; [by right | done].
  - split; [done | by left].
Qed.

(** X21. After the script's exports each of the four compliance
    variables is set and not empty: it keeps the value it had, and gets
    the script's fallback when it was unset or empty.  The fallbacks of
    the Python part are therefore never used, whatever they are. *)
Theorem exports_set_all (env : gmap string string) (name fallback : string) :
  (name, fallback) ∈ complianceDefaults →
  ∃ v, exportCompliance env !! name = Some v
       ∧ v ≠ ""
       ∧ (env !! name = Some v
          ∨ ((env !! name = None ∨ env !! name = Some "") ∧ v = fallback))
       ∧ ∀ pythonFallback, getenv name pythonFallback (exportCompliance env) = v.
Proof.
  intros Hin. exists (exportedValue env name fallback).
  pose proof (exportCompliance_lookup env name fallback Hin) as Hl.
  assert (Hf : fallback ≠ "").
  { revert Hin. unfold complianceDefaults. rewrite !elem_of_cons, elem_of_nil.
    intros [H | [H | [H | [H | []]]]]; inversion H; subst; discriminate. }
  destruct (exportedValue_cases env name fallback Hf) as [Hne Hcases].
  split; [done|]. split; [done|]. split; [done|].
  intros pythonFallback. unfold getenv. by rewrite Hl.
Qed.

Lemma exports_set_all_witness :
  exportCompliance {[ "GMP_VALIDATION" := "" ]} !! "GMP_VALIDATION" = Some "true"
  ∧ getenv "GMP_VALIDATION" "false" (exportCompliance {[ "GMP_VALIDATION" := "" ]})
    = "true".
Proof.
  destruct (exports_set_all {[ "GMP_VALIDATION" := "" ]} "GMP_VALIDATION" "true")
    as (v & Hl & Hne & Hcases & Hget).
  - do 2 apply list_elem_of_further. apply list_elem_of_here.
  - assert (Hv : v = "true").
    { destruct Hcases as [H | [_ H]]; [|exact H].
      rewrite lookup_singleton_eq in H. inversion H; subst. by destruct Hne. }
    subst v. split; [exact Hl | apply Hget].
Defined.

Lemma compliance_checks_exported env :
  compliance_checks (exportCompliance env) =
  [ ("FDA_COMPLIANCE_MODE", exportedValue env "FDA_COMPLIANCE_MODE" "enabled");
    ("GMP_VALIDATION", exportedValue env "GMP_VALIDATION" "true");
    ("DATA_INTEGRITY_LEVEL", exportedValue env "DATA_INTEGRITY_LEVEL" "high");
    ("PHARMACEUTICAL_ENVIRONMENT",
     exportedValue env "PHARMACEUTICAL_ENVIRONMENT" "production") ].
Proof.
  unfold compliance_checks, getenv.
  rewrite (exportCompliance_lookup env "FDA_COMPLIANCE_MODE" "enabled"),
    (exportCompliance_lookup env "GMP_VALIDATION" "true"),
    (exportCompliance_lookup env "DATA_INTEGRITY_LEVEL" "high"),
    (exportCompliance_lookup env "PHARMACEUTICAL_ENVIRONMENT" "production");
    [done|..]; unfold complianceDefaults;
    repeat first [ apply list_elem_of_here | apply list_elem_of_further ].
Qed.

(** X22. When none of the four variables is set, or they are set to the
    empty string, the report marks all four lines with the check mark
    and says that FDA compliance is active. *)
Theorem startup_defaults_report (env : gmap string string) :
  (∀ name fallback, (name, fallback) ∈ complianceDefaults →
     env !! name = None ∨ env !! name = Some "") →
  startupReport env =
    ([ (CheckMark, "FDA_COMPLIANCE_MODE", "enabled");
       (CheckMark, "GMP_VALIDATION", "true");
       (CheckMark, "DATA_INTEGRITY_LEVEL", "high");
       (CheckMark, "PHARMACEUTICAL_ENVIRONMENT", "production") ], true).
Proof.
  intros Hunset.
  assert (Hv : ∀ name fallback, (name, fallback) ∈ complianceDefaults →
                 exportedValue env name fallback = fallback).
  { intros name fallback Hin. unfold exportedValue.
    by destruct (Hunset name fallback Hin) as [-> | ->]. }
  unfold startupReport, reportLines, fdaActive, getenv.
  rewrite compliance_checks_exported.
  rewrite (exportCompliance_lookup env "FDA_COMPLIANCE_MODE" "enabled")
    by (unfold complianceDefaults;
        repeat first [ apply list_elem_of_here | apply list_elem_of_further ]).
  rewrite (Hv "FDA_COMPLIANCE_MODE" "enabled"), (Hv "GMP_VALIDATION" "true"),
    (Hv "DATA_INTEGRITY_LEVEL" "high"), (Hv "PHARMACEUTICAL_ENVIRONMENT" "production");
    [done|..]; unfold complianceDefaults;
    repeat first [ apply list_elem_of_here | apply list_elem_of_further ].
Qed.

Lemma startup_defaults_report_witness :
  (startupReport ∅).2 = true
  ∧ (startupReport ∅).1 !! 1 = Some (CheckMark, "GMP_VALIDATION", "true").
Proof.
  assert (H : startupReport ∅ =
    ([ (CheckMark, "FDA_COMPLIANCE_MODE", "enabled");
       (CheckMark, "GMP_VALIDATION", "true");
       (CheckMark, "DATA_INTEGRITY_LEVEL", "high");
       (CheckMark, "PHARMACEUTICAL_ENVIRONMENT", "production") ], true)).
  { apply (startup_defaults_report ∅). intros name fallback _. by left. }
  rewrite H. split; reflexivity.
Defined.

(** X23. The message "FDA compliance is ACTIVE" is printed exactly when
    the exported FDA_COMPLIANCE_MODE is "enabled", and its line then
    carries the check mark.  The converse fails: with the value "true",
    "high" or "production" the line carries the check mark and the
    message says DISABLED. *)
Theorem fda_mark_and_message (env : gmap string string) (v : string) :
  ((startupReport env).2 = true ↔
     exportedValue env "FDA_COMPLIANCE_MODE" "enabled" = "enabled")
  ∧ ((startupReport env).2 = true →
     (startupReport env).1 !! 0 = Some (CheckMark, "FDA_COMPLIANCE_MODE", "enabled"))
  ∧ (v ∈ ["true"; "high"; "production"] →
     env !! "FDA_COMPLIANCE_MODE" = Some v →
     (startupReport env).1 !! 0 = Some (CheckMark, "FDA_COMPLIANCE_MODE", v)
     ∧ (startupReport env).2 = false).
Proof.
  unfold startupReport, reportLines, fdaActive, getenv. cbn [fst snd].
  rewrite compliance_checks_exported.
  rewrite (exportCompliance_lookup env "FDA_COMPLIANCE_MODE" "enabled")
    by (unfold complianceDefaults;
        repeat first [ apply list_elem_of_here | apply list_elem_of_further ]).
  simpl. split; [|split].
  - apply String.eqb_eq.
  - intros H. apply String.eqb_eq in H. by rewrite H.
  - intros Hv Henv. unfold exportedValue. rewrite Henv.
    revert Hv. rewrite !elem_of_cons, elem_of_nil.
    by intros [-> | [-> | [-> | []]]].
Qed.

Lemma fda_mark_and_message_witness :
  (startupReport {[ "FDA_COMPLIANCE_MODE" := "true" ]}).1 !! 0
  = Some (CheckMark, "FDA_COMPLIANCE_MODE", "true")
  ∧ (startupReport {[ "FDA_COMPLIANCE_MODE" := "true" ]}).2 = false.
Proof.
  destruct (fda_mark_and_message {[ "FDA_COMPLIANCE_MODE" := "true" ]} "true")
    as (_ & _ & Hconverse).
  apply Hconverse.
  - apply list_elem_of_here.
  - apply lookup_singleton_eq.
Defined.

End StartupReport.

(** ** From the steps to the review *)

Section Wizard.

Lemma basicInfo_accepted canProceed formData :
  BasicInfoStep.clickSubmit canProceed formData ≠ [] →
  BasicInfoStep.title formData ≠ ""
  ∧ BasicInfoStep.description formData ≠ ""
  ∧ is_Some (BasicInfoStep.department formData)
  ∧ is_Some (BasicInfoStep.priority formData).
Proof.
  unfold BasicInfoStep.clickSubmit, BasicInfoStep.handleSubmit.
  destruct canProceed; [|done].
  unfold BasicInfoStep.noErrors, BasicInfoStep.validateForm; simpl.
  destruct (ReactHookForm.validateText BasicInfoStep.titleRules _) eqn:Et; [done|].
  destruct (ReactHookForm.validateText BasicInfoStep.descriptionRules _) eqn:Ed; [done|].
  destruct (ReactHookForm.validateChoice _ (BasicInfoStep.department formData))
    eqn:Edep; [done|].
  destruct (ReactHookForm.validateChoice _ (BasicInfoStep.priority formData))
    eqn:Eprio; [done|].
  intros _.
  apply titleRules_None in Et. apply descriptionRules_None in Ed.
  apply validateChoice_None in Edep, Eprio.
  repeat split; try done; apply length_nonempty; lia.
Qed.

Lemma maxOnly_None n message v :
  ReactHookForm.validateText
    {| ReactHookForm.required := None;
       ReactHookForm.minLength := None;
       ReactHookForm.maxLength :=
         Some {| ReactHookForm.ruleValue := n;
                 ReactHookForm.ruleMessage := message |} |} v = None
  ↔ String.length v ≤ n.
Proof.
  rewrite validateText_None. simpl. split.
  - intros [[-> _] | (_ & H & _)]; [simpl; lia|].
    apply bool_decide_eq_false in H. lia.
  - intros H. destruct (String.eqb_spec v "") as [->|Hne]; [by left|].
    right. split; [done|]. split; [|done]. apply bool_decide_eq_false_2. lia.
Qed.

Lemma frameworks_accepted canProceed formData :
  FrameworkSelection.clickSubmit canProceed formData ≠ [] →
  canProceed = true
  ∧ 1 ≤ length (RegulatoryFrameworkStep.currentFrameworksOf formData)
  ∧ String.length (RegulatoryFrameworkStep.customRequirements formData) ≤ 2000
  ∧ String.length (RegulatoryFrameworkStep.complianceNotes formData) ≤ 1500
  ∧ FrameworkSelection.clickSubmit canProceed formData
    = [FrameworkSelection.OnUpdate formData; FrameworkSelection.OnNext].
Proof.
  unfold FrameworkSelection.clickSubmit, RegulatoryFrameworkStep.submitDisabled.
  destruct canProceed; simpl; [|done].
  case_bool_decide as Hlen; [done|].
  unfold FrameworkSelection.handleSubmit.
  destruct (ReactHookForm.validateText FrameworkSelection.customRequirementsRules _)
    eqn:Ec; [done|].
  destruct (ReactHookForm.validateText FrameworkSelection.complianceNotesRules _)
    eqn:En; [done|].
  intros _. apply maxOnly_None in Ec, En.
  split; [done|]. split; [lia|]. by repeat split.
Qed.

(** X24. The subscription of the framework step hands every change of
    the form to the wizard as it is: typing in one of the two text areas
    and a click on the checkbox of a framework that is not mandatory each
    call [onUpdate] with the new values, and nothing else.  [onNext] is
    called only by a click on the submit button, and only when the button
    is enabled, at least one framework is selected, the custom
    requirements have at most 2000 characters and the compliance notes at
    most 1500; the calls are then [onUpdate] with the form and [onNext].
    A wizard that shows the framework step with the button enabled is
    moved to the content step by these calls, holds the selection of the
    form, and the review step's check "Regulatory Framework" passes on
    its data. *)
Theorem frameworks_handed_on (canProceed : bool) (e : FrameworkSelection.Event)
    (form : RegulatoryFrameworkStep.FormValues) :
  (∀ requirements notes,
     (FrameworkSelection.handle canProceed
        (FrameworkSelection.ChangeTexts requirements notes) form).2
     = [FrameworkSelection.Parent
          (FrameworkSelection.OnUpdate
             {| RegulatoryFrameworkStep.frameworks :=
                  RegulatoryFrameworkStep.frameworks form;
                RegulatoryFrameworkStep.customRequirements := requirements;
                RegulatoryFrameworkStep.complianceNotes := notes |})])
  ∧ (∀ opt,
       opt ∈ RegulatoryFrameworkStep.frameworkOptions →
       RegulatoryFrameworkStep.mandatory opt = false →
       FrameworkSelection.handle canProceed
         (FrameworkSelection.ClickCheckbox (RegulatoryFrameworkStep.value opt)) form
       = (RegulatoryFrameworkStep.handleFrameworkToggle
            (RegulatoryFrameworkStep.value opt) form,
          [FrameworkSelection.Parent
             (FrameworkSelection.OnUpdate
                (RegulatoryFrameworkStep.handleFrameworkToggle
                   (RegulatoryFrameworkStep.value opt) form))]))
  ∧ (FrameworkSelection.Parent FrameworkSelection.OnNext
       ∈ (FrameworkSelection.handle canProceed e form).2 →
     e = FrameworkSelection.ClickSubmit
     ∧ canProceed = true
     ∧ 1 ≤ length (RegulatoryFrameworkStep.currentFrameworksOf form)
     ∧ String.length (RegulatoryFrameworkStep.customRequirements form) ≤ 2000
     ∧ String.length (RegulatoryFrameworkStep.complianceNotes form) ≤ 1500
     ∧ FrameworkSelection.handle canProceed e form
       = (form, [FrameworkSelection.Parent (FrameworkSelection.OnUpdate form);
                 FrameworkSelection.Parent FrameworkSelection.OnNext])
     ∧ ∀ st : SOPCreationWizard.State,
         SOPCreationWizard.currentStep st = 1 →
         SOPCreationWizard.canProceed st = canProceed →
         let st' := SOPCreationWizard.applyCalls
                      (SOPCreationWizard.ofFrameworkCall
                       <$> (FrameworkSelection.handle canProceed e form).2) st in
         SOPCreationWizard.currentStep st' = 2
         ∧ SOPCreationWizard.frameworks (SOPCreationWizard.wizardData st')
           = RegulatoryFrameworkStep.currentFrameworksOf form
         ∧ (status <$> checks (validate (SOPCreationWizard.dataProp
                                           (SOPCreationWizard.wizardData st'))))
           !! 1 = Some Pass).
Proof.
  split; [reflexivity|]. split.
  { intros opt Hin Hm. unfold RegulatoryFrameworkStep.frameworkOptions in Hin.
    repeat (apply elem_of_cons in Hin as [->|Hin]; [try discriminate Hm|]);
      try (by apply not_elem_of_nil in Hin).
    all: unfold FrameworkSelection.handle, FrameworkSelection.clickCheckbox,
           FrameworkSelection.reachesSetValue; simpl.
    all: by destruct (bool_decide _). }
  destruct e as [framework|requirements notes| |].
  - unfold FrameworkSelection.handle.
    destruct (List.find _ _) as [opt|]; [|intros Hin; by apply not_elem_of_nil in Hin].
    destruct (FrameworkSelection.checkboxDisabled opt);
      [intros Hin; by apply not_elem_of_nil in Hin|].
    destruct (FrameworkSelection.reachesSetValue framework form);
      [|intros Hin; by apply not_elem_of_nil in Hin].
    simpl. intros Hin. apply list_elem_of_singleton in Hin. discriminate.
  - simpl. intros Hin. apply list_elem_of_singleton in Hin. discriminate.
  - simpl. intros Hin.
    assert (Hne : FrameworkSelection.clickSubmit canProceed form ≠ []).
    { intros E. rewrite E in Hin. by apply not_elem_of_nil in Hin. }
    destruct (frameworks_accepted _ _ Hne) as (Hcp & Hlen & Hc & Hn & Hcalls).
    split; [done|]. split; [done|]. split; [done|]. split; [done|].
    split; [done|]. split; [by rewrite Hcalls|].
    intros st Hstep Hproceed. rewrite Hcalls. simpl.
    unfold SOPCreationWizard.applyCalls; simpl.
    unfold SOPCreationWizard.handleNext.
    unfold SOPCreationWizard.canProceed in Hproceed.
    rewrite Hstep in Hproceed |- *. rewrite Hproceed, Hcp. simpl.
    split; [by rewrite Hstep|].
    unfold RegulatoryFrameworkStep.currentFrameworksOf in Hlen |- *.
    destruct (RegulatoryFrameworkStep.frameworks form) as [l|] eqn:Hl;
      [|simpl in Hlen; lia].
    split; [reflexivity|].
    unfold validate, buildChecks; simpl.
    rewrite bool_decide_eq_true_2; [done | exact Hlen].
  - simpl. intros Hin. apply list_elem_of_singleton in Hin. discriminate.
Qed.

Lemma frameworks_handed_on_witness :
  FrameworkSelection.handle true FrameworkSelection.ClickSubmit sampleForm
  = (sampleForm, [FrameworkSelection.Parent (FrameworkSelection.OnUpdate sampleForm);
                  FrameworkSelection.Parent FrameworkSelection.OnNext])
  ∧ 1 ≤ length (RegulatoryFrameworkStep.currentFrameworksOf sampleForm)
  ∧ FrameworkSelection.handle true (FrameworkSelection.ClickCheckbox ICH_Q7) sampleForm
    = (RegulatoryFrameworkStep.handleFrameworkToggle ICH_Q7 sampleForm,
       [FrameworkSelection.Parent
          (FrameworkSelection.OnUpdate
             (RegulatoryFrameworkStep.handleFrameworkToggle ICH_Q7 sampleForm))]).
Proof.
  destruct (frameworks_handed_on true FrameworkSelection.ClickSubmit sampleForm)
    as (_ & Hclick & Hnext).
  destruct Hnext as (_ & _ & Hlen & _ & _ & Hcalls & _).
  { apply list_elem_of_further, list_elem_of_here. }
  split; [exact Hcalls|]. split; [exact Hlen|].
  apply (Hclick
           {| RegulatoryFrameworkStep.value := ICH_Q7;
              RegulatoryFrameworkStep.label := "ICH Q7";
              RegulatoryFrameworkStep.description :=
                "Good Manufacturing Practice Guide for Active Pharmaceutical Ingredients";
              RegulatoryFrameworkStep.region := "International";
              RegulatoryFrameworkStep.mandatory := false;
              RegulatoryFrameworkStep.details :=
                [ "Quality management system";
                  "Personnel and training requirements";
                  "Buildings and facilities standards";
                  "Equipment maintenance and calibration" ] |}).
  - apply list_elem_of_further, list_elem_of_here.
  - reflexivity.
Defined.

(** X25. Data that the first step and the framework step have both
    handed on has no failed check at the review, whatever the content
    step adds: the Generate button is then disabled only by
    [canGenerate] or by a generation that is running, and the checks the
    review can still object to are warnings. *)
Theorem steps_leave_no_failure (cp1 cp2 : bool)
    (basic : BasicInfoStep.BasicInfoFormData)
    (selection : RegulatoryFrameworkStep.FormValues)
    (data : SOPData) (st : ReviewState) (canGenerate isGenerating : bool) :
  BasicInfoStep.clickSubmit cp1 basic ≠ [] →
  FrameworkSelection.clickSubmit cp2 selection ≠ [] →
  data_title data = BasicInfoStep.title basic →
  data_description data = BasicInfoStep.description basic →
  data_department data = BasicInfoStep.department basic →
  data_priority data = BasicInfoStep.priority basic →
  data_frameworks data = RegulatoryFrameworkStep.frameworks selection →
  failed (validate data) = 0
  ∧ passed (validate data) + warnings (validate data) = 7
  ∧ generateDisabled canGenerate (validationEffect data st) isGenerating
    = negb canGenerate || isGenerating.
Proof.
  intros Hb Hs Ht Hd Hdep Hprio Hf.
  apply basicInfo_accepted in Hb as (Hb1 & Hb2 & Hb3 & Hb4).
  apply frameworks_accepted in Hs as (_ & Hlen & _).
  assert (Hz : failed (validate data) = 0).
  { apply failed_zero_iff. split.
    - unfold requiredFieldsPresent. by rewrite Ht, Hd, Hdep, Hprio.
    - unfold frameworkCount. by rewrite Hf. }
  split; [done|]. split.
  - pose proof (validate_counts data) as (Hsum & _). lia.
  - unfold generateDisabled. rewrite validationEffect_result, Hz. simpl.
    by rewrite orb_false_r.
Qed.

Lemma steps_leave_no_failure_witness :
  failed (validate (cleaningData [])) = 0
  ∧ generateDisabled true (validationEffect (cleaningData []) initialReviewState) false
    = false.
Proof.
  destruct (steps_leave_no_failure true true sampleBasicInfo
              {| RegulatoryFrameworkStep.frameworks := Some [FDA_21_CFR_211];
                 RegulatoryFrameworkStep.customRequirements := "";
                 RegulatoryFrameworkStep.complianceNotes := "" |}
              (cleaningData []) initialReviewState true false)
    as (Hfailed & _ & Hbutton); try reflexivity; try discriminate.
  split; [exact Hfailed | exact Hbutton].
Defined.

End Wizard.

Section Download.

Import APIService.

(** X26. [downloadSOPPDF] sends one request, to the PDF of the job under
    "/api/v1", with the headers of [getAuthHeaders].  It returns the
    response exactly when [fetch] resolves to a response that is [ok];
    for every other response it throws "Failed to download PDF",
    whatever the body says; it writes nothing to the console and leaves
    the token alone. *)
Theorem downloadSOPPDF_outcome (server : Server) (jobId : string) (s : Service) :
  let url := baseURL +:+ "/sops/" +:+ jobId +:+ "/pdf" in
  let config := {| method := None; body := None; headers := Some (getAuthHeaders s) |} in
  let s' := (downloadSOPPDF server jobId s).1 in
  let result := (downloadSOPPDF server jobId s).2 in
  requests s' = requests s ++ [(url, config)]
  ∧ console s' = console s
  ∧ authToken s' = authToken s
  ∧ localStorage s' = localStorage s
  ∧ (∀ response, result = inr response ↔
       server url config = Resolved response ∧ ok response = true)
  ∧ (∀ response, server url config = Resolved response → ok response = false →
       result = inl (Error "Failed to download PDF"))
  ∧ (server url config = Rejected → result = inl FetchRejection).
Proof.
  intros url config s' result. subst s' result. unfold downloadSOPPDF.
  fold url. fold config.
  destruct (server url config) as [|response] eqn:Hserver.
  - simpl. do 4 (split; [reflexivity|]). split; [|split; [done|done]].
    intros r. split; [discriminate | by intros [? _]].
  - destruct (ok response) eqn:Hok; simpl.
    + do 4 (split; [reflexivity|]). split; [|split; [|discriminate]].
      * intros r. split.
        -- intros Hr. inversion Hr; subst. by split.
        -- intros [Hr _]. inversion Hr; subst. reflexivity.
      * intros r Hr Hno. inversion Hr; subst. congruence.
    + do 4 (split; [reflexivity|]). split; [|split; [|discriminate]].
      * intros r. split; [discriminate|].
        intros [Hr Hyes]. inversion Hr; subst. congruence.
      * intros r _ _. reflexivity.
Qed.

Lemma downloadSOPPDF_outcome_witness :
  (downloadSOPPDF refusingServer "job-1" (construct ∅)).2
  = inl (Error "Failed to download PDF").
Proof.
  destruct (downloadSOPPDF_outcome refusingServer "job-1" (construct ∅))
    as (_ & _ & _ & _ & _ & Hrefused & _).
  apply (Hrefused
           {| ok := false; status := 422; statusText := "Unprocessable Entity";
              json := Some (JSON.JObject
                              [("message", JSON.JString "Title too short")]) |});
    reflexivity.
Defined.

End Download.

(** ** The wizard: navigation, updates and the request of a generation *)

Section WizardRuns.

Import SOPCreationWizard.

Lemma trimStart_blank s : blank (JS.trimStart s) ↔ blank s.
Proof.
  induction s as [|c s IH]; [done|]. simpl.
  destruct (JS.isWhiteSpace c) eqn:Hc; simpl.
  - rewrite IH. tauto.
  - rewrite Hc. reflexivity.
Qed.

Lemma trimEnd_empty s : JS.trimEnd s = "" ↔ blank s.
Proof.
  induction s as [|c s IH]; [done|]. simpl.
  destruct (JS.trimEnd s) as [|c' t] eqn:Ht.
  - destruct (JS.isWhiteSpace c); split; try done.
    + intros _. split; [done|]. by apply IH.
    + by intros [? _].
  - split; [done|]. intros [_ Hb]. apply IH in Hb. discriminate.
Qed.

Lemma trim_blank s : JS.trim s = "" ↔ blank s.
Proof. unfold JS.trim. by rewrite trimEnd_empty, trimStart_blank. Qed.

Lemma validateStep_sections w :
  validateStep w 2 = true ↔
  sections w ≠ [] ∧ Forall (λ s, ¬ blank (sectionTitle s)) (sections w).
Proof.
  unfold validateStep. rewrite andb_true_iff, bool_decide_eq_true.
  rewrite forallb_forall, Forall_forall. split.
  - intros [Hlen Hall]. split.
    { intros E. rewrite E in Hlen. simpl in Hlen. lia. }
    intros s Hs Hb. apply list_elem_of_In in Hs. specialize (Hall s Hs).
    apply bool_decide_eq_true in Hall. apply trim_blank in Hb.
    rewrite Hb in Hall. simpl in Hall. lia.
  - intros [Hne Hall]. split; [destruct (sections w); [done | simpl; lia]|].
    intros s Hs. apply list_elem_of_In in Hs. specialize (Hall s Hs).
    apply bool_decide_eq_true_2.
    destruct (JS.trim (sectionTitle s)) eqn:Ht; [|simpl; lia].
    exfalso. apply Hall. by apply trim_blank.
Qed.

(** X27. The wizard moves between its four steps one at a time and never
    leaves them.  Next moves one step forward exactly when the step shown
    is not the last and its test holds; otherwise nothing changes.  Back
    moves one step back from every step but the first.  Neither changes
    the data.  The test of the content step holds exactly when there is a
    section and no section title is blank; a wizard that has just
    started cannot move on, its title being empty. *)
Theorem wizard_navigation (st : State) :
  currentStep st ≤ 3 →
  let next := handleNext st st in
  let back := handleBack st st in
  wizardData next = wizardData st
  ∧ wizardData back = wizardData st
  ∧ currentStep next ≤ 3
  ∧ (currentStep st < 3 ∧ validateStep (wizardData st) (currentStep st) = true →
     currentStep next = currentStep st + 1)
  ∧ (¬ (currentStep st < 3 ∧ validateStep (wizardData st) (currentStep st) = true) →
     next = st)
  ∧ (0 < currentStep st → currentStep back = currentStep st - 1)
  ∧ (currentStep st = 0 → back = st)
  ∧ (currentStep st = 2 → currentStep next = 3 →
     sections (wizardData st) ≠ []
     ∧ Forall (λ s, ¬ blank (sectionTitle s)) (sections (wizardData st)))
  ∧ handleNext initialState initialState = initialState.
Proof.
  intros Hle next back. subst next back. unfold handleNext, handleBack.
  unfold stepsLength. change (4 - 1) with 3.
  split; [by destruct (_ && _)|]. split; [by destruct (bool_decide _)|].
  split.
  { destruct (bool_decide (currentStep st < 3)) eqn:Hlt; simpl; [|done].
    apply bool_decide_eq_true in Hlt.
    destruct (validateStep _ _); simpl; lia. }
  split.
  { intros [Hlt Hv]. by rewrite (bool_decide_eq_true_2 _ Hlt), Hv. }
  split.
  { intros Hn. destruct (bool_decide (currentStep st < 3)) eqn:Hlt; simpl; [|done].
    apply bool_decide_eq_true in Hlt.
    destruct (validateStep _ _) eqn:Hv; [|done]. by destruct Hn. }
  split.
  { intros Hpos. by rewrite (bool_decide_eq_true_2 _ Hpos). }
  split.
  { intros H0. rewrite bool_decide_eq_false_2; [done|lia]. }
  split; [|reflexivity].
  intros H2 H3. apply validateStep_sections.
  rewrite H2 in H3.
  destruct (validateStep (wizardData st) 2); [done|].
  rewrite andb_false_r in H3. lia.
Qed.

Lemma wizard_navigation_witness :
  currentStep (handleNext
                 {| currentStep := 2; wizardData := cleaningWizardData |}
                 {| currentStep := 2; wizardData := cleaningWizardData |}) = 3
  ∧ currentStep (handleBack
                   {| currentStep := 2; wizardData := cleaningWizardData |}
                   {| currentStep := 2; wizardData := cleaningWizardData |}) = 1.
Proof.
  destruct (wizard_navigation {| currentStep := 2; wizardData := cleaningWizardData |})
    as (_ & _ & _ & Hnext & _ & Hback & _); [simpl; lia|].
  split.
  - apply Hnext. split; [simpl; lia | reflexivity].
  - apply Hback. simpl. lia.
Defined.



(** What holds of the wizard whatever has happened: it shows one of its
    four steps, and the steps before the one shown have passed their
    tests for the first two steps. *)
Lemma handleEvent_invariant st ev :
  (currentStep st ≤ 3
   ∧ (1 ≤ currentStep st → validateStep (wizardData st) 0 = true)
   ∧ (2 ≤ currentStep st → validateStep (wizardData st) 1 = true)) →
  currentStep (handleEvent st ev) ≤ 3
  ∧ (1 ≤ currentStep (handleEvent st ev) →
     validateStep (wizardData (handleEvent st ev)) 0 = true)
  ∧ (2 ≤ currentStep (handleEvent st ev) →
     validateStep (wizardData (handleEvent st ev)) 1 = true).
Proof.
  intros (Hle & H0 & H1). unfold handleEvent, eventCalls.
  destruct ev as [e form|e form|duration safety content|duration safety content| |].
  - destruct (currentStep st) as [|n] eqn:Hstep; [|by rewrite <- Hstep in *].
    destruct e as [value|]; simpl.
    { unfold applyCalls; simpl. rewrite Hstep. repeat split; lia. }
    destruct (decide (BasicInfoStep.clickSubmit (canProceed st) form = []))
      as [E|Hne].
    { rewrite E. unfold applyCalls; simpl. rewrite Hstep. repeat split; lia. }
    destruct (basicInfo_checked _ _ Hne) as (Hcp & Ht & Hd & Hdep & Hprio & Hcalls).
    rewrite Hcalls. unfold applyCalls; simpl. unfold handleNext.
    unfold canProceed in Hcp. rewrite Hstep in Hcp |- *. rewrite Hcp. simpl.
    rewrite Hstep. split; [lia|]. split; [|lia]. intros _.
    rewrite !truthy_string_spec.
    rewrite !bool_decide_eq_true_2 by (apply length_nonempty; lia).
    destruct Hdep as [? ->], Hprio as [? ->]. reflexivity.
  - destruct (currentStep st) as [|[|n]] eqn:Hstep;
      [by rewrite <- Hstep in * | | by rewrite <- Hstep in *].
    specialize (H0 ltac:(lia)).
    assert (Hupd : ∀ f : RegulatoryFrameworkStep.FormValues,
              currentStep (applyCalls
                 [CallOnUpdate (ofFrameworks f)] st) ≤ 3
              ∧ (1 ≤ currentStep (applyCalls [CallOnUpdate (ofFrameworks f)] st) →
                 validateStep (wizardData
                   (applyCalls [CallOnUpdate (ofFrameworks f)] st)) 0 = true)
              ∧ (2 ≤ currentStep (applyCalls [CallOnUpdate (ofFrameworks f)] st) →
                 validateStep (wizardData
                   (applyCalls [CallOnUpdate (ofFrameworks f)] st)) 1 = true)).
    { intros f. unfold applyCalls; simpl. rewrite Hstep.
      split; [lia|]. split; [by intros _ | lia]. }
    destruct e as [framework|requirements notes| |].
    + unfold FrameworkSelection.handle.
      destruct (List.find _ _) as [opt|];
        [|unfold applyCalls; simpl; rewrite Hstep; repeat split; (done || lia)].
      destruct (FrameworkSelection.checkboxDisabled opt);
        [unfold applyCalls; simpl; rewrite Hstep; repeat split; (done || lia)|].
      destruct (FrameworkSelection.reachesSetValue framework form);
        [|unfold applyCalls; simpl; rewrite Hstep; repeat split; (done || lia)].
      apply Hupd.
    + apply Hupd.
    + simpl.
      destruct (decide (FrameworkSelection.clickSubmit (canProceed st) form = []))
        as [E|Hne].
      { rewrite E. unfold applyCalls; simpl. rewrite Hstep.
        repeat split; (done || lia). }
      destruct (frameworks_accepted _ _ Hne) as (Hcp & Hlen & _ & _ & Hcalls).
      rewrite Hcalls. unfold applyCalls; simpl. unfold handleNext.
      unfold canProceed in Hcp. rewrite Hstep in Hcp |- *. rewrite Hcp. simpl.
      rewrite Hstep. split; [lia|]. split; [by intros _|]. intros _.
      unfold RegulatoryFrameworkStep.currentFrameworksOf in Hlen.
      destruct (RegulatoryFrameworkStep.frameworks form) as [l|];
        [|simpl in Hlen; lia].
      simpl. by apply bool_decide_eq_true_2.
    + simpl. unfold applyCalls; simpl. unfold handleBack. rewrite Hstep. simpl.
      rewrite Hstep. repeat split; (done || lia).
  - destruct (currentStep st) as [|[|[|n]]] eqn:Hstep;
      try by rewrite <- Hstep in *.
    all: specialize (H0 ltac:(lia)); specialize (H1 ltac:(lia));
      unfold applyCalls; simpl; rewrite Hstep; repeat split; (done || lia).
  - destruct (currentStep st) as [|[|[|n]]] eqn:Hstep;
      try by rewrite <- Hstep in *.
    specialize (H0 ltac:(lia)). specialize (H1 ltac:(lia)).
    destruct (decide (ContentDetailsForm.clickSubmit (canProceed st) duration safety
                        content = [])) as [E|Hne].
    { rewrite E. unfold applyCalls; simpl. rewrite Hstep.
      repeat split; (done || lia). }
    destruct (content_submit_accepted _ _ _ _ Hne) as (Hcp & _ & Hcalls).
    rewrite Hcalls. unfold applyCalls; simpl. unfold handleNext.
    unfold canProceed in Hcp. rewrite Hstep in Hcp |- *. rewrite Hcp. simpl.
    rewrite Hstep. repeat split; (done || lia).
  - destruct (currentStep st) as [|[|[|n]]] eqn:Hstep;
      try by rewrite <- Hstep in *.
    specialize (H0 ltac:(lia)).
    unfold applyCalls; simpl. unfold handleBack. rewrite Hstep. simpl.
    rewrite Hstep. repeat split; (done || lia).
  - destruct (currentStep st) as [|[|[|[|n]]]] eqn:Hstep;
      try by rewrite <- Hstep in *.
    specialize (H0 ltac:(lia)). specialize (H1 ltac:(lia)).
    unfold applyCalls; simpl. unfold handleBack. rewrite Hstep. simpl.
    rewrite Hstep. repeat split; (done || lia).
Qed.

Lemma warnings_at_most_five data : warnings (validate data) ≤ 5.
Proof.
  unfold validate, buildChecks, countStatus; simpl.
  destruct (basicInformationProvided data),
           (JS.length_gt (data_frameworks data) 0),
           (JS.length_ge (data_sections data) 3),
           (JS.truthy_string (data_safetyConsiderations data)),
           (JS.length_gt (data_qualityCheckpoints data) 0),
           (JS.length_gt (data_equipmentRequired data) 0),
           (JS.includes (data_frameworks data) FDA_21_CFR_211);
    simpl; lia.
Qed.

(** X29. Whatever happens in a wizard from its start (changes of the
    forms, clicks on checkboxes, on the submit buttons and on Back, in
    any order and with any values), it shows one of its four steps, and
    when it shows the review step no check of the review has failed: the
    required fields of the first step are present and a framework is
    selected.  The Generate button is then disabled only when
    [canGenerate] is false or a generation is running, and the score of
    the checks is at least 75. *)
Theorem review_has_no_failed_check (evs : list Event) :
  let st := runEvents evs initialState in
  let data := dataProp (wizardData st) in
  currentStep st ≤ 3
  ∧ (currentStep st = 3 →
     failed (validate data) = 0
     ∧ data_title data ≠ "" ∧ data_description data ≠ ""
     ∧ is_Some (data_department data) ∧ is_Some (data_priority data)
     ∧ 1 ≤ length (frameworks (wizardData st))
     ∧ (75 ≤ ComplianceValidator.complianceScore (checks (validate data)))%Z
     ∧ ∀ rst isGenerating,
         generateDisabled (canGenerate (wizardData st))
           (validationEffect data rst) isGenerating
         = negb (canGenerate (wizardData st)) || isGenerating).
Proof.
  intros st data.
  assert (Hinv : currentStep st ≤ 3
                 ∧ (1 ≤ currentStep st → validateStep (wizardData st) 0 = true)
                 ∧ (2 ≤ currentStep st → validateStep (wizardData st) 1 = true)).
  { subst st. unfold runEvents.
    assert (Hinit : currentStep initialState ≤ 3
              ∧ (1 ≤ currentStep initialState →
                 validateStep (wizardData initialState) 0 = true)
              ∧ (2 ≤ currentStep initialState →
                 validateStep (wizardData initialState) 1 = true)).
    { simpl. repeat split; lia. }
    revert Hinit. generalize initialState.
    induction evs as [|ev evs IH]; intros s0 Hs0; [exact Hs0|].
    simpl. apply IH. by apply handleEvent_invariant. }
  destruct Hinv as (Hle & H0 & H1). split; [exact Hle|].
  intros H3. specialize (H0 ltac:(lia)). specialize (H1 ltac:(lia)).
  assert (Hf : failed (validate data) = 0).
  { subst data. by apply failed_steps. }
  pose proof Hf as Hreq. apply failed_zero_iff in Hreq as [(Ht & Hd & Hdep & Hprio) Hfw].
  split; [exact Hf|]. split; [exact Ht|]. split; [exact Hd|].
  split; [exact Hdep|]. split; [exact Hprio|]. split; [exact Hfw|].
  split.
  { destruct (complianceScore_validate_unclamped data) as [Hs _].
    pose proof (warnings_at_most_five data) as Hw.
    rewrite Hs, Hf. lia. }
  intros rst isGenerating. apply generateDisabled_wizard. right.
  apply validationEffect_result.
Qed.

Lemma review_has_no_failed_check_witness :
  currentStep
    (runEvents
       [ OnBasicInfo (BasicInfoStep.Change sampleBasicInfo) sampleBasicInfo;
         OnBasicInfo BasicInfoStep.ClickSubmit sampleBasicInfo;
         OnFrameworks FrameworkSelection.ClickSubmit sampleForm;
         OnContentSubmit "2 hours" "" (ContentDetailsStep.initialState emptyFormData) ]
       initialState) = 3
  ∧ failed
      (validate
         (dataProp
            (wizardData
               (runEvents
                  [ OnBasicInfo (BasicInfoStep.Change sampleBasicInfo) sampleBasicInfo;
                    OnBasicInfo BasicInfoStep.ClickSubmit sampleBasicInfo;
                    OnFrameworks FrameworkSelection.ClickSubmit sampleForm;
                    OnContentSubmit "2 hours" ""
                      (ContentDetailsStep.initialState emptyFormData) ]
                  initialState)))) = 0.
Proof.
  destruct (review_has_no_failed_check
              [ OnBasicInfo (BasicInfoStep.Change sampleBasicInfo) sampleBasicInfo;
                OnBasicInfo BasicInfoStep.ClickSubmit sampleBasicInfo;
                OnFrameworks FrameworkSelection.ClickSubmit sampleForm;
                OnContentSubmit "2 hours" ""
                  (ContentDetailsStep.initialState emptyFormData) ])
    as (_ & Hreview).
  assert (H3 : currentStep
    (runEvents
       [ OnBasicInfo (BasicInfoStep.Change sampleBasicInfo) sampleBasicInfo;
         OnBasicInfo BasicInfoStep.ClickSubmit sampleBasicInfo;
         OnFrameworks FrameworkSelection.ClickSubmit sampleForm;
         OnContentSubmit "2 hours" "" (ContentDetailsStep.initialState emptyFormData) ]
       initialState) = 3).
  { reflexivity. }
  split; [exact H3|]. apply (Hreview H3).
Defined.

End WizardRuns.
